(** * Flight ticket service: validation, identifier generation and
      partial-update reconciliation

    A shallow embedding of [flight-ticket-service/src/models/ticket.go],
    of the ticket handlers ([handlers], package of [TicketHandler]) and of
    the Firestore service they call ([services.FirestoreService]).

    Go strings are byte strings: [string] below is a list of 8-bit
    characters and [String.length] is Go's [len].  Go's [int] is [Z].
    The process-wide random source, the wall clock and the Firestore
    collection are the components of an explicit [World] that every
    operation threads. *)

From Stdlib Require Import ZArith Ascii.
From stdpp Require Import base option gmap strings list fin_maps sorting.

Local Open Scope Z_scope.

(** ** Go's [strings] package *)

Module strings.

Definition byte_val (c : ascii) : N := N_of_ascii c.

(** [c >= utf8.RuneSelf] *)
Definition is_ascii_byte (c : ascii) : bool := (byte_val c <? 128)%N.

(** ['a' <= c && c <= 'z'] *)
Definition is_lower_byte (c : ascii) : bool :=
  ((97 <=? byte_val c) && (byte_val c <=? 122))%N.

(** ['A' <= c && c <= 'Z'] *)
Definition is_upper_byte (c : ascii) : bool :=
  ((65 <=? byte_val c) && (byte_val c <=? 90))%N.

(** ['0' <= c && c <= '9'] *)
Definition is_digit_byte (c : ascii) : bool :=
  ((48 <=? byte_val c) && (byte_val c <=? 57))%N.

(** [c -= 'a' - 'A'] when [c] is a lower-case ASCII letter. *)
Definition upper_byte (c : ascii) : ascii :=
  if is_lower_byte c then ascii_of_N (byte_val c - 32) else c.

Fixpoint all_bytes (p : ascii → bool) (s : string) : bool :=
  match s with
  | EmptyString => true
  | String c s' => p c && all_bytes p s'
  end.

Fixpoint any_byte (p : ascii → bool) (s : string) : bool :=
  match s with
  | EmptyString => false
  | String c s' => p c || any_byte p s'
  end.

Fixpoint map_bytes (f : ascii → ascii) (s : string) : string :=
  match s with
  | EmptyString => EmptyString
  | String c s' => String (f c) (map_bytes f s')
  end.

(** [strings.ToUpper] scans for a byte [>= 0x80]; a string that has one is
    handed to [strings.Map(unicode.ToUpper, s)].  The Unicode case tables
    are Go's, not this repository's: they are an interface of the model. *)
Class UnicodeCase := { Map_unicode_ToUpper : string → string }.

Definition isASCII (s : string) : bool := all_bytes is_ascii_byte s.
Definition hasLower (s : string) : bool := any_byte is_lower_byte s.

Definition ToUpper `{!UnicodeCase} (s : string) : string :=
  if isASCII s then
    if negb (hasLower s) then s else map_bytes upper_byte s
  else Map_unicode_ToUpper s.

End strings.

(** ** Go's [strconv]/[fmt] decimal formatting, as used by ["%d"] *)

Module fmt.

Definition digit_byte (d : N) : ascii := ascii_of_N (48 + d).

(** Least significant digit first, accumulated to the left; [fuel] bounds
    the number of digits. *)
Fixpoint format_digits (fuel : nat) (n : N) (acc : string) : string :=
  match fuel with
  | O => acc
  | S fuel' =>
      let acc' := String (digit_byte (n mod 10)) acc in
      if (n / 10 =? 0)%N then acc' else format_digits fuel' (n / 10) acc'
  end.

(** The verb ["%d"] on an [int]. *)
Definition format_int (z : Z) : string :=
  let mag := Z.abs_N z in
  let ds := format_digits (S (N.to_nat (N.log2 mag))) mag EmptyString in
  if z <? 0 then String "-" ds else ds.

End fmt.

(** ** Go's [time.Time], as far as the service looks at it *)

Module time.

Inductive Location := UTC | Local.

(** An instant by its civil fields in UTC, and the location it is
    presented in.  [Year], [Month], [Day], [Hour] and [Minute] are only
    called on times whose location is [UTC]. *)
Record Time := mkTime {
  Year : Z; Month : Z; Day : Z;
  Hour : Z; Minute : Z; Second : Z; Nanosecond : Z;
  Loc : Location
}.

(** [time.Date(y, m, d, h, min, sec, nsec, loc)]: on fields that are in
    range, which [Year()] .. [Minute()] always are, Go's normalisation is
    the identity. *)
Definition Date (y m d h mi sec nsec : Z) (loc : Location) : Time :=
  mkTime y m d h mi sec nsec loc.

(** [t.UTC()] *)
Definition to_UTC (t : Time) : Time :=
  mkTime (Year t) (Month t) (Day t) (Hour t) (Minute t) (Second t)
         (Nanosecond t) UTC.

(** The zero [time.Time{}]: January 1, year 1, 00:00:00 UTC. *)
Definition zero : Time := mkTime 1 1 1 0 0 0 0 UTC.

(** [time.Parse] with the two layouts the handlers use, ["2006-01-02"] and
    ["15:04"].  The parser is Go's, not this repository's: an interface
    of the model.  [None] is a non-nil [err]. *)
Class Layouts := {
  Parse_date : string → option Time;
  Parse_clock : string → option Time
}.

End time.

(** ** Go's [strconv], as far as the service uses it *)

Module strconv.

(** [strconv.Atoi]: Go's parser of decimal integers, an interface of the
    model.  [None] is a non-nil [err]. *)
Class Numbers := { Atoi : string → option Z }.

End strconv.

(** ** Package [models] *)

Module models.
Import strings.

Record FlightTicket := mkFlightTicket {
  ConfirmationID : string;
  Origin : string;
  Destination : string;
  DepartureDate : time.Time;
  DepartureTime : time.Time;
  FlightNumber : string;
  Passengers : Z;
  CreatedAt : time.Time;
  UpdatedAt : time.Time;
  Status : string
}.

Record CreateTicketRequest := mkCreateTicketRequest {
  cr_Origin : string;
  cr_Destination : string;
  cr_DepartureDate : string;
  cr_DepartureTime : string;
  cr_FlightNumber : string;
  cr_Passengers : Z
}.

Record UpdateTicketRequest := mkUpdateTicketRequest {
  ur_Origin : string;
  ur_Destination : string;
  ur_DepartureDate : string;
  ur_DepartureTime : string;
  ur_FlightNumber : string;
  ur_Passengers : Z;
  ur_Status : string
}.

Record ErrorResponse := mkErrorResponse {
  Error : string;
  Message : string
}.

Record SuccessResponse := mkSuccessResponse {
  sr_Message : string;
  sr_ConfirmationID : string
}.

(** The state the package reads and advances: the process-wide source
    of [math/rand] and the wall clock of [time.Now].  [rand_src k] is the
    [k]-th raw draw, [wall_clock k] what the [k]-th clock reading shows. *)
Record Env := mkEnv {
  rand_src : nat → Z;
  rand_pos : nat;
  wall_clock : nat → time.Time;
  clock_pos : nat
}.

(** [rand.Intn(n)], for [n > 0]: a value of [[0, n)]. *)
Definition rand_Intn (n : Z) (e : Env) : Z * Env :=
  (rand_src e (rand_pos e) `mod` n,
   mkEnv (rand_src e) (S (rand_pos e)) (wall_clock e) (clock_pos e)).

(** [time.Now()] *)
Definition time_Now (e : Env) : time.Time * Env :=
  (wall_clock e (clock_pos e),
   mkEnv (rand_src e) (rand_pos e) (wall_clock e) (S (clock_pos e))).

Definition charset : string := "ABCDEFGHIJKLMNOPQRSTUVWXYZ0123456789".

(** [s[i]] for an index in range. *)
Definition byte_at (s : string) (i : Z) : ascii :=
  default "000"%char (String.get (Z.to_nat i) s).

(** The loop [for i := range b { b[i] = charset[rand.Intn(len(charset))] }]
    over the [n] remaining positions. *)
Fixpoint fill_from_charset (n : nat) (e : Env) : string * Env :=
  match n with
  | O => (EmptyString, e)
  | S n' =>
      let '(k, e1) := rand_Intn (Z.of_nat (String.length charset)) e in
      let '(rest, e2) := fill_from_charset n' e1 in
      (String (byte_at charset k) rest, e2)
  end.

Definition GenerateConfirmationID (e : Env) : string * Env :=
  fill_from_charset 6 e.

Section with_unicode.
Context `{!UnicodeCase}.

Definition GenerateFlightNumber (airlineCode : string) (e : Env)
  : string * Env :=
  let airlineCode :=
    if negb (String.length airlineCode =? 2)%nat then "AA" else airlineCode in
  let '(r, e1) := rand_Intn 9000 e in
  let flightNum := r + 1000 in
  (ToUpper airlineCode +:+ fmt.format_int flightNum, e1).

(** [len(code) == 3 && strings.ToUpper(code) == code] *)
Definition ValidateAirportCode (code : string) : bool :=
  (String.length code =? 3)%nat && String.eqb (ToUpper code) code.

(** [None] is the [nil] ticket. *)
Definition NewFlightTicket (origin destination : string)
    (departureDate departureTime : time.Time)
    (flightNumber : string) (passengers : Z) (e : Env)
  : option FlightTicket * Env :=
  let '(now, e1) := time_Now e in
  if negb (ValidateAirportCode origin)
     || negb (ValidateAirportCode destination)
  then (None, e1)
  else
    let '(flightNumber, e2) :=
      if String.eqb flightNumber ""
      then GenerateFlightNumber "AA" e1
      else (flightNumber, e1) in
    let '(id, e3) := GenerateConfirmationID e2 in
    (Some {| ConfirmationID := id;
             Origin := ToUpper origin;
             Destination := ToUpper destination;
             DepartureDate := departureDate;
             DepartureTime := departureTime;
             FlightNumber := ToUpper flightNumber;
             Passengers := passengers;
             CreatedAt := now;
             UpdatedAt := now;
             Status := "CONFIRMED" |}, e3).

End with_unicode.
(** [TicketListResponse], the payload of the listing. *)
Record TicketListResponse := mkTicketListResponse {
  Tickets : list FlightTicket;
  Count : Z
}.

End models.

(** ** Package [services]: the Firestore collection behind the handlers *)

Module services.
Import models.

(** The values the service writes to document fields. *)
Inductive Value :=
| VString (s : string)
| VTime (t : time.Time)
| VInt (n : Z).

(** [firestore.Update{Path, Value}] *)
Record Update := mkUpdate { Path : string; Val : Value }.

(** Go's [error], as far as callers can tell errors apart. *)
Inductive error :=
| NotFound
| DataError
| Errorf (msg : string) (cause : error).

(** The process state: random source and clock, and the documents of the
    collection ["flight_tickets"], keyed by document id.  The Firestore
    client is modelled by its contract: [Set] creates or overwrites,
    [Update] writes the given paths of an existing document and fails on
    a missing one, [Get] fails on a missing one.  [Get] and [Update] are
    modelled for a client that answers: their errors are the ones the
    collection decides.  Whether [Set] and the query of [ListTickets] go
    through is not decided by the collection: the client's answer is an
    input of [CreateTicket] and of [ListTickets], [None] when the call
    went through and [Some err] when the client returned [err], the
    collection then being left as it was. *)
Record World := mkWorld {
  env : Env;
  docs : gmap string (gmap string Value)
}.

(** The struct as [Set] is given it, field names from the [firestore]
    tags.  A document holds the values as they were written; Firestore
    itself keeps a timestamp to the microsecond, so what is said below of
    a ticket read back is said of its fields other than the clock
    readings [created_at] and [updated_at]. *)
Definition to_doc (t : FlightTicket) : gmap string Value :=
  <["confirmation_id" := VString (ConfirmationID t)]>
  (<["origin" := VString (Origin t)]>
  (<["destination" := VString (Destination t)]>
  (<["departure_date" := VTime (DepartureDate t)]>
  (<["departure_time" := VTime (DepartureTime t)]>
  (<["flight_number" := VString (FlightNumber t)]>
  (<["passengers" := VInt (Passengers t)]>
  (<["created_at" := VTime (CreatedAt t)]>
  (<["updated_at" := VTime (UpdatedAt t)]>
  (<["status" := VString (Status t)]> ∅))))))))).

Definition string_field (d : gmap string Value) (f : string) : option string :=
  match d !! f with
  | None => Some EmptyString
  | Some (VString s) => Some s
  | Some _ => None
  end.

Definition time_field (d : gmap string Value) (f : string) : option time.Time :=
  match d !! f with
  | None => Some time.zero
  | Some (VTime t) => Some t
  | Some _ => None
  end.

Definition int_field (d : gmap string Value) (f : string) : option Z :=
  match d !! f with
  | None => Some 0
  | Some (VInt n) => Some n
  | Some _ => None
  end.

(** [doc.DataTo(&ticket)]: a missing field leaves the zero value, a field
    of another type is an error. *)
Definition DataTo (d : gmap string Value) : option FlightTicket :=
  id ← string_field d "confirmation_id";
  o ← string_field d "origin";
  de ← string_field d "destination";
  dd ← time_field d "departure_date";
  dt ← time_field d "departure_time";
  fn ← string_field d "flight_number";
  p ← int_field d "passengers";
  ca ← time_field d "created_at";
  ua ← time_field d "updated_at";
  st ← string_field d "status";
  Some (mkFlightTicket id o de dd dt fn p ca ua st).

(** [DocumentRef.Update]: every path of the array is written. *)
Definition write_paths (us : list Update) (d : gmap string Value)
  : gmap string Value :=
  foldr (λ u acc, <[Path u := Val u]> acc) d us.

Definition CreateTicket (ticket : FlightTicket) (Set_err : option error)
    (w : World) : option error * World :=
  match Set_err with
  | Some err => (Some (Errorf "failed to create ticket: " err), w)
  | None =>
      (None,
       mkWorld (env w) (<[ConfirmationID ticket := to_doc ticket]> (docs w)))
  end.

Definition GetTicket (confirmationID : string) (w : World)
  : (error + FlightTicket) * World :=
  match docs w !! confirmationID with
  | None => (inl (Errorf "failed to get ticket: " NotFound), w)
  | Some d =>
      match DataTo d with
      | None => (inl (Errorf "failed to parse ticket data: " DataError), w)
      | Some ticket => (inr ticket, w)
      end
  end.

Definition UpdateTicket (confirmationID : string)
    (updates : gmap string Value) (w : World) : option error * World :=
  let '(now, e1) := time_Now (env w) in
  let updates := <["updated_at" := VTime now]> updates in
  let updateArray := (λ kv, mkUpdate kv.1 kv.2) <$> map_to_list updates in
  match docs w !! confirmationID with
  | None => (Some (Errorf "failed to update ticket: " NotFound),
             mkWorld e1 (docs w))
  | Some d =>
      (None, mkWorld e1 (<[confirmationID := write_paths updateArray d]> (docs w)))
  end.

Definition DeleteTicket (confirmationID : string) (w : World)
  : option error * World :=
  let '(now, e1) := time_Now (env w) in
  let updates : gmap string Value :=
    <["status" := VString "CANCELLED"]> (<["updated_at" := VTime now]> ∅) in
  UpdateTicket confirmationID updates (mkWorld e1 (docs w)).

(** *** Queries

    Firestore orders values by type, numbers before timestamps before
    strings, and within a type by number, by instant and by bytes.  The key
    of a value is compared lexicographically. *)
Fixpoint lex_leb (a b : list Z) : bool :=
  match a, b with
  | [], _ => true
  | _ :: _, [] => false
  | x :: a', y :: b' => (x <? y) || ((x =? y) && lex_leb a' b')
  end.

Definition string_key (s : string) : list Z :=
  (λ c, Z.of_N (N_of_ascii c)) <$> String.list_ascii_of_string s.

Definition time_key (t : time.Time) : list Z :=
  [time.Year t; time.Month t; time.Day t; time.Hour t; time.Minute t;
   time.Second t; time.Nanosecond t].

Definition value_key (v : Value) : list Z :=
  match v with
  | VInt n => [0; n]
  | VTime t => 1 :: time_key t
  | VString s => 2 :: string_key s
  end.

(** The key by which the query orders a document, given with its id. *)
Definition created_at_key (doc : string * gmap string Value) : list Z :=
  from_option value_key [] (doc.2 !! "created_at").

(** [OrderBy("created_at", firestore.Desc)]: [x] comes no later than [y]
    when its [created_at] is the larger one, the larger id first among
    equal ones. *)
Definition precedes (x y : string * gmap string Value) : bool :=
  if decide (created_at_key x = created_at_key y)
  then lex_leb (string_key y.1) (string_key x.1)
  else lex_leb (created_at_key y) (created_at_key x).

Definition listed_before (x y : string * gmap string Value) : Prop :=
  precedes x y = true.

#[global] Instance listed_before_dec x y : Decision (listed_before x y).
Proof. unfold listed_before. apply _. Defined.

(** The documents of the query, which are the ones that have the field. *)
Definition OrderBy_created_at_desc (ds : gmap string (gmap string Value))
  : list (string * gmap string Value) :=
  merge_sort listed_before
    (filter (λ doc : string * gmap string Value, is_Some (doc.2 !! "created_at"))
            (map_to_list ds)).

(** The loop over the snapshots: a document that does not decode is
    logged and skipped. *)
Definition decode_all (snapshots : list (string * gmap string Value))
  : list FlightTicket :=
  omap (λ doc, DataTo doc.2) snapshots.

Definition ListTickets (limit : Z) (GetAll_err : option error) (w : World)
  : (error + list FlightTicket) * World :=
  let query := OrderBy_created_at_desc (docs w) in
  let query := if 0 <? limit then take (Z.to_nat limit) query else query in
  match GetAll_err with
  | Some err => (inl (Errorf "failed to list tickets: " err), w)
  | None => (inr (decode_all query), w)
  end.

End services.

(** ** Package [handlers] *)

Module handlers.
Import strings models services.

Inductive Body :=
| ErrorJSON (e : ErrorResponse)
| TicketJSON (t : FlightTicket)
| SuccessJSON (s : SuccessResponse).

(** What a handler writes: [w.WriteHeader(code)] and the encoded body. *)
Record Response := mkResponse { StatusCode : Z; Payload : Body }.

Definition StatusOK : Z := 200.
Definition StatusCreated : Z := 201.
Definition StatusBadRequest : Z := 400.
Definition StatusInternalServerError : Z := 500.

(** A handler body: it runs on the world and either has written its
    response and returned ([inl]) or goes on with a value ([inr]). *)
Definition Handler (A : Type) : Type := World → (Response + A) * World.

#[global] Instance handler_ret : MRet Handler := λ A a w, (inr a, w).

#[global] Instance handler_bind : MBind Handler := λ A B f m w,
  match m w with
  | (inl r, w') => (inl r, w')
  | (inr a, w') => f a w'
  end.

(** The two error responses: status 400 and status 500. *)
Definition bad (err msg : string) : Response :=
  mkResponse StatusBadRequest (ErrorJSON (mkErrorResponse err msg)).

Definition failed (err : string) : Response :=
  mkResponse StatusInternalServerError (ErrorJSON (mkErrorResponse err "")).

(** Write the response and [return]. *)
Definition reply {A} (r : Response) : Handler A := λ w, (inl r, w).

Definition bad_request {A} (err msg : string) : Handler A :=
  reply (bad err msg).

Definition internal_error {A} (err : string) : Handler A :=
  reply (failed err).

(** A call into the service. *)
Definition call {A} (f : World → A * World) : Handler A :=
  λ w, let '(a, w') := f w in (inr a, w').

(** [time.Now().UTC()] *)
Definition now_UTC : Handler time.Time :=
  λ w, let '(t, e1) := time_Now (env w) in
       (inr (time.to_UTC t), mkWorld e1 (docs w)).

Definition serve (h : Handler Response) (w : World) : Response * World :=
  match h w with
  | (inl r, w') => (r, w')
  | (inr r, w') => (r, w')
  end.

(** [s != ""] *)
Definition nonempty (s : string) : bool := negb (String.eqb s "").

Section with_go_library.
Context `{!UnicodeCase, !time.Layouts}.

(** The timestamp both handlers compose from a date and an hour:minute. *)
Definition combine (date timeOnly : time.Time) : time.Time :=
  time.Date (time.Year date) (time.Month date) (time.Day date)
            (time.Hour timeOnly) (time.Minute timeOnly) 0 0 time.UTC.

(** Lifting [models.NewFlightTicket], which reads clock and random source. *)
Definition new_ticket (req : CreateTicketRequest)
    (departureDate departureTime : time.Time)
  : Handler (option FlightTicket) :=
  λ w, let '(t, e1) :=
         NewFlightTicket (cr_Origin req) (cr_Destination req)
           departureDate departureTime
           (cr_FlightNumber req) (cr_Passengers req) (env w) in
       (inr t, mkWorld e1 (docs w)).

(** The condition of the block "Validate required fields". *)
Definition missing_required (req : CreateTicketRequest) : bool :=
  String.eqb (cr_Origin req) "" || String.eqb (cr_Destination req) ""
  || String.eqb (cr_DepartureDate req) ""
  || String.eqb (cr_DepartureTime req) ""
  || (cr_Passengers req <=? 0).

(** [CreateTicket] handles POST /ticket; [body] is the decoded payload,
    [None] when decoding failed, and [Set_err] what the client answers to
    the write, should the handler get that far. *)
Definition CreateTicket (body : option CreateTicketRequest)
    (Set_err : option error) : World → Response * World :=
  serve (
    match body with
    | None => bad_request "Invalid JSON payload" ""
    | Some req =>
      if missing_required req
      then bad_request "Missing required fields"
             "origin, destination, departure_date, departure_time, and passengers are required"
      else
      match time.Parse_date (cr_DepartureDate req) with
      | None => bad_request "Invalid departure_date format" "Use YYYY-MM-DD format"
      | Some departureDate =>
      match time.Parse_clock (cr_DepartureTime req) with
      | None => bad_request "Invalid departure_time format" "Use HH:MM format"
      | Some timeOnly =>
        let departureTime := combine departureDate timeOnly in
        ticket ← new_ticket req departureDate departureTime;
        match ticket with
        | None => bad_request "Invalid airport codes" "Use 3-letter IATA codes"
        | Some ticket =>
          err ← call (services.CreateTicket ticket Set_err);
          match err with
          | Some _ => internal_error "Failed to create ticket"
          | None => mret (mkResponse StatusCreated (TicketJSON ticket))
          end
        end
      end
      end
    end).

(** The seven blocks that fill the [updates] map, in source order. *)
Definition stage_origin (req : UpdateTicketRequest)
    (updates : gmap string Value) : Handler (gmap string Value) :=
  if nonempty (ur_Origin req) then
    if negb (ValidateAirportCode (ur_Origin req))
    then bad_request "Invalid origin airport code" ""
    else mret (<["origin" := VString (ur_Origin req)]> updates)
  else mret updates.

Definition stage_destination (req : UpdateTicketRequest)
    (updates : gmap string Value) : Handler (gmap string Value) :=
  if nonempty (ur_Destination req) then
    if negb (ValidateAirportCode (ur_Destination req))
    then bad_request "Invalid destination airport code" ""
    else mret (<["destination" := VString (ur_Destination req)]> updates)
  else mret updates.

Definition stage_departure_date (req : UpdateTicketRequest)
    (updates : gmap string Value) : Handler (gmap string Value) :=
  if nonempty (ur_DepartureDate req) then
    match time.Parse_date (ur_DepartureDate req) with
    | None => bad_request "Invalid departure_date format" "Use YYYY-MM-DD format"
    | Some departureDate =>
        mret (<["departure_date" := VTime departureDate]> updates)
    end
  else mret updates.

Definition stage_departure_time (req : UpdateTicketRequest)
    (updates : gmap string Value) : Handler (gmap string Value) :=
  if nonempty (ur_DepartureTime req) then
    match time.Parse_clock (ur_DepartureTime req) with
    | None => bad_request "Invalid departure_time format" "Use HH:MM format"
    | Some timeOnly =>
        if nonempty (ur_DepartureDate req) then
          match time.Parse_date (ur_DepartureDate req) with
          | None =>
              bad_request "Invalid departure_date format" "Use YYYY-MM-DD format"
          | Some departureDate =>
              mret (<["departure_time" := VTime (combine departureDate timeOnly)]>
                      updates)
          end
        else
          today ← now_UTC;
          mret (<["departure_time" := VTime (combine today timeOnly)]> updates)
    end
  else mret updates.

Definition stage_flight_number (req : UpdateTicketRequest)
    (updates : gmap string Value) : Handler (gmap string Value) :=
  if nonempty (ur_FlightNumber req)
  then mret (<["flight_number" := VString (ur_FlightNumber req)]> updates)
  else mret updates.

Definition stage_passengers (req : UpdateTicketRequest)
    (updates : gmap string Value) : Handler (gmap string Value) :=
  if 0 <? ur_Passengers req
  then mret (<["passengers" := VInt (ur_Passengers req)]> updates)
  else mret updates.

Definition valid_status (s : string) : bool :=
  String.eqb s "CONFIRMED" || String.eqb s "CANCELLED" || String.eqb s "PENDING".

Definition stage_status (req : UpdateTicketRequest)
    (updates : gmap string Value) : Handler (gmap string Value) :=
  if nonempty (ur_Status req) then
    if negb (valid_status (ur_Status req))
    then bad_request "Invalid status" "Use CONFIRMED, CANCELLED, or PENDING"
    else mret (<["status" := VString (ur_Status req)]> updates)
  else mret updates.

(** [updates := make(map[string]interface{})] and the blocks above. *)
Definition build_updates (req : UpdateTicketRequest)
  : Handler (gmap string Value) :=
  u1 ← stage_origin req ∅;
  u2 ← stage_destination req u1;
  u3 ← stage_departure_date req u2;
  u4 ← stage_departure_time req u3;
  u5 ← stage_flight_number req u4;
  u6 ← stage_passengers req u5;
  stage_status req u6.

(** [UpdateTicket] handles PUT /ticket/{confirmationID}. *)
Definition UpdateTicket (confirmationID : string)
    (body : option UpdateTicketRequest) : World → Response * World :=
  serve (
    if String.eqb confirmationID ""
    then bad_request "Confirmation ID is required" ""
    else
    match body with
    | None => bad_request "Invalid JSON payload" ""
    | Some req =>
      updates ← build_updates req;
      if (size updates =? 0)%nat
      then bad_request "No fields to update" ""
      else
        err ← call (services.UpdateTicket confirmationID updates);
        match err with
        | Some _ => internal_error "Failed to update ticket"
        | None =>
          got ← call (services.GetTicket confirmationID);
          match got with
          | inl _ => internal_error "Ticket updated but failed to retrieve"
          | inr ticket => mret (mkResponse StatusOK (TicketJSON ticket))
          end
        end
    end).

End with_go_library.

(** [DeleteTicket] handles DELETE /ticket/{confirmationID}. *)
Definition DeleteTicket (confirmationID : string)
  : World → Response * World :=
  serve (
    if String.eqb confirmationID ""
    then bad_request "Confirmation ID is required" ""
    else
      err ← call (services.DeleteTicket confirmationID);
      match err with
      | Some _ => internal_error "Failed to cancel ticket"
      | None =>
          mret (mkResponse StatusOK
                  (SuccessJSON (mkSuccessResponse "Ticket cancelled successfully"
                                                  confirmationID)))
      end).

Definition StatusNotFound : Z := 404.

(** [GetTicket] handles GET /ticket/{confirmationID}. *)
Definition GetTicket (confirmationID : string) : World → Response * World :=
  serve (
    if String.eqb confirmationID ""
    then bad_request "Confirmation ID is required" ""
    else
      got ← call (services.GetTicket confirmationID);
      match got with
      | inl _ =>
          reply (mkResponse StatusNotFound
                   (ErrorJSON (mkErrorResponse "Ticket not found" "")))
      | inr ticket => mret (mkResponse StatusOK (TicketJSON ticket))
      end).

(** What [ListTickets] writes. *)
Inductive ListBody :=
| ListErrorJSON (e : ErrorResponse)
| ListJSON (l : TicketListResponse).

Record ListResponse := mkListResponse {
  ListStatusCode : Z;
  ListPayload : ListBody
}.

(** The limit of the listing: the query parameter when it parses as a
    positive integer, and 50 otherwise. *)
Definition parse_limit `{!strconv.Numbers} (limitStr : string) : Z :=
  let limit := 50 in
  if nonempty limitStr then
    match strconv.Atoi limitStr with
    | Some parsedLimit => if 0 <? parsedLimit then parsedLimit else limit
    | None => limit
    end
  else limit.

(** [ListTickets] handles GET /tickets; [limitStr] is the query parameter
    [limit], empty when absent, and [GetAll_err] what the client answers
    to the query. *)
Definition ListTickets `{!strconv.Numbers} (limitStr : string)
    (GetAll_err : option error) (w : World) : ListResponse * World :=
  let limit := parse_limit limitStr in
  match services.ListTickets limit GetAll_err w with
  | (inl _, w') =>
      (mkListResponse StatusInternalServerError
         (ListErrorJSON (mkErrorResponse "Failed to retrieve tickets" "")), w')
  | (inr tickets, w') =>
      (mkListResponse StatusOK
         (ListJSON (mkTicketListResponse tickets (Z.of_nat (length tickets)))),
       w')
  end.

End handlers.

(** ** Partial-update reconciliation, in the specification's words

    Section 4.4 of the specification: the fields of an update request in
    declaration order, which of them the caller supplied, what is staged
    for each and what rejects the request.  These definitions are the
    reference [handlers.build_updates] is compared with. *)

Module reconciliation.
Import strings models services handlers.

Inductive field :=
| origin | destination | departure_date | departure_time
| flight_number | passengers | status.

#[global] Instance field_eq_dec : EqDecision field.
Proof. solve_decision. Defined.

Definition declaration_order : list field :=
  [origin; destination; departure_date; departure_time;
   flight_number; passengers; status].

(** The place of a field in the declaration order. *)
Definition position (f : field) : nat :=
  match f with
  | origin => 0 | destination => 1 | departure_date => 2
  | departure_time => 3 | flight_number => 4 | passengers => 5 | status => 6
  end.

Definition field_name (f : field) : string :=
  match f with
  | origin => "origin"
  | destination => "destination"
  | departure_date => "departure_date"
  | departure_time => "departure_time"
  | flight_number => "flight_number"
  | passengers => "passengers"
  | status => "status"
  end.

(** Whether staging reads the wall clock: a time without a date. *)
Definition reads_clock (req : UpdateTicketRequest) : bool :=
  nonempty (ur_DepartureTime req) && negb (nonempty (ur_DepartureDate req)).

(** Whether [time.Parse] returned without error. *)
Definition is_parsed (r : option time.Time) : bool :=
  match r with Some _ => true | None => false end.

Section with_go_library.
Context `{!UnicodeCase, !time.Layouts}.

(** The error a field rejects the request with, if it does. *)
Definition rejection (req : UpdateTicketRequest) (f : field)
  : option ErrorResponse :=
  match f with
  | origin =>
      if nonempty (ur_Origin req) && negb (ValidateAirportCode (ur_Origin req))
      then Some (mkErrorResponse "Invalid origin airport code" "")
      else None
  | destination =>
      if nonempty (ur_Destination req)
         && negb (ValidateAirportCode (ur_Destination req))
      then Some (mkErrorResponse "Invalid destination airport code" "")
      else None
  | departure_date =>
      if nonempty (ur_DepartureDate req)
         && negb (is_parsed (time.Parse_date (ur_DepartureDate req)))
      then Some (mkErrorResponse "Invalid departure_date format"
                                 "Use YYYY-MM-DD format")
      else None
  | departure_time =>
      if nonempty (ur_DepartureTime req)
         && negb (is_parsed (time.Parse_clock (ur_DepartureTime req)))
      then Some (mkErrorResponse "Invalid departure_time format"
                                 "Use HH:MM format")
      else None
  | flight_number => None
  | passengers => None
  | status =>
      if nonempty (ur_Status req) && negb (valid_status (ur_Status req))
      then Some (mkErrorResponse "Invalid status"
                                 "Use CONFIRMED, CANCELLED, or PENDING")
      else None
  end.

(** The first validation failure in declaration order. *)
Definition first_failure (req : UpdateTicketRequest) : option ErrorResponse :=
  head (omap (rejection req) declaration_order).

(** What a field stages, if the caller supplied it; [today] is the
    current wall-clock time in UTC. *)
Definition staged_value (req : UpdateTicketRequest) (today : time.Time)
    (f : field) : option Value :=
  match f with
  | origin =>
      if nonempty (ur_Origin req) then Some (VString (ur_Origin req)) else None
  | destination =>
      if nonempty (ur_Destination req)
      then Some (VString (ur_Destination req)) else None
  | departure_date =>
      if nonempty (ur_DepartureDate req)
      then VTime <$> time.Parse_date (ur_DepartureDate req) else None
  | departure_time =>
      if nonempty (ur_DepartureTime req) then
        timeOnly ← time.Parse_clock (ur_DepartureTime req);
        date ← (if nonempty (ur_DepartureDate req)
                then time.Parse_date (ur_DepartureDate req)
                else Some today);
        Some (VTime (combine date timeOnly))
      else None
  | flight_number =>
      if nonempty (ur_FlightNumber req)
      then Some (VString (ur_FlightNumber req)) else None
  | passengers =>
      if 0 <? ur_Passengers req then Some (VInt (ur_Passengers req)) else None
  | status =>
      if nonempty (ur_Status req) then Some (VString (ur_Status req)) else None
  end.

Definition stage (req : UpdateTicketRequest) (today : time.Time)
    (updates : gmap string Value) (f : field) : gmap string Value :=
  match staged_value req today f with
  | Some v => <[field_name f := v]> updates
  | None => updates
  end.

(** The mapping of field name to new value, holding the supplied fields
    only. *)
Definition staged_fields (req : UpdateTicketRequest) (today : time.Time)
  : gmap string Value :=
  fold_left (stage req today) declaration_order ∅.

(** What one block of the handler does with its field: reject with the
    field's error or stage the field's value. *)
Definition block_result (req : UpdateTicketRequest) (today : time.Time)
    (f : field) (updates : gmap string Value) (w w' : World)
  : (Response + gmap string Value) * World :=
  match rejection req f with
  | Some err => (inl (mkResponse StatusBadRequest (ErrorJSON err)), w)
  | None => (inr (stage req today updates f), w')
  end.

End with_go_library.

(** The wall-clock time in UTC at the next clock reading of a world. *)
Definition today_UTC (w : World) : time.Time :=
  time.to_UTC (time_Now (env w)).1.

(** The world after one clock reading. *)
Definition after_clock_read (w : World) : World :=
  mkWorld (time_Now (env w)).2 (docs w).

(** What [services.UpdateTicket] writes in a world: the given fields and
    the stamp of its clock reading. *)
Definition stamped (updates : gmap string Value) (w : World)
  : gmap string Value :=
  <["updated_at" := VTime (time_Now (env w)).1]> updates.

(** The world in which the update handler calls the service. *)
Definition staged_world (req : UpdateTicketRequest) (w : World) : World :=
  if reads_clock req then after_clock_read w else w.

(** The request that supplies the status CANCELLED and nothing else. *)
Definition cancel_request : UpdateTicketRequest :=
  mkUpdateTicketRequest "" "" "" "" "" 0 "CANCELLED".

(** A stored document with [fields] written over it. *)
Definition merged (fields d : gmap string Value) : gmap string Value :=
  fields ∪ d.

End reconciliation.

(** ** A concrete library instance, on which the model runs *)

Module golib.
Import strings.

(** Case mapping for strings whose characters beyond ASCII are caseless
    (digits of other scripts, symbols, ideographs): the ASCII letters are
    upper-cased and every other byte stays. *)
#[global] Instance caseless_beyond_ascii : UnicodeCase :=
  {| Map_unicode_ToUpper := map_bytes upper_byte |}.

Definition digit (c : ascii) : option Z :=
  if is_digit_byte c then Some (Z.of_N (byte_val c) - 48) else None.

Definition two_digits (a b : ascii) : option Z :=
  x ← digit a; y ← digit b; Some (10 * x + y).

Definition isLeap (year : Z) : bool :=
  (year `mod` 4 =? 0) && (negb (year `mod` 100 =? 0) || (year `mod` 400 =? 0)).

Definition daysIn (month year : Z) : Z :=
  if month =? 2 then (if isLeap year then 29 else 28)
  else if (month =? 4) || (month =? 6) || (month =? 9) || (month =? 11) then 30
  else 31.

(** Layout ["2006-01-02"]: four digits, [-], two digits in [1..12], [-],
    two digits naming a day of that month, and nothing after. *)
Definition parse_date (s : string) : option time.Time :=
  match s with
  | String y1 (String y2 (String y3 (String y4 (String sep1
      (String m1 (String m2 (String sep2
        (String d1 (String d2 EmptyString))))))))) =>
      hi ← two_digits y1 y2;
      lo ← two_digits y3 y4;
      month ← two_digits m1 m2;
      day ← two_digits d1 d2;
      let year := 100 * hi + lo in
      if Ascii.eqb sep1 "-" && Ascii.eqb sep2 "-"
         && (1 <=? month) && (month <=? 12)
         && (1 <=? day) && (day <=? daysIn month year)
      then Some (time.mkTime year month day 0 0 0 0 time.UTC)
      else None
  | _ => None
  end.

Definition clock_of (hour minute : Z) : option time.Time :=
  if (hour <? 24) && (minute <? 60)
  then Some (time.mkTime 0 1 1 hour minute 0 0 time.UTC)
  else None.

(** Layout ["15:04"]: one or two digits below 24, [:], two digits below
    60, and nothing after. *)
Definition parse_clock (s : string) : option time.Time :=
  match s with
  | String h1 (String h2 (String sep (String m1 (String m2 EmptyString)))) =>
      if Ascii.eqb sep ":" then
        hour ← two_digits h1 h2;
        minute ← two_digits m1 m2;
        clock_of hour minute
      else None
  | String h1 (String sep (String m1 (String m2 EmptyString))) =>
      if Ascii.eqb sep ":" then
        hour ← digit h1;
        minute ← two_digits m1 m2;
        clock_of hour minute
      else None
  | _ => None
  end.

#[global] Instance layouts : time.Layouts :=
  {| time.Parse_date := parse_date; time.Parse_clock := parse_clock |}.

(** A clock that shows 2024-07-12 19:00 and advances a second per
    reading, and a random source. *)
Definition env0 : models.Env :=
  models.mkEnv (λ k, Z.of_nat k * 7919 + 5) 0
               (λ k, time.mkTime 2024 7 12 19 0 (Z.of_nat k) 0 time.Local) 0.

Definition world0 : services.World := services.mkWorld env0 ∅.

(** A stored ticket, and a collection that holds it. *)
Definition ticket1 : models.FlightTicket :=
  models.mkFlightTicket "ABC123" "JFK" "LAX"
    (time.mkTime 2024 12 25 0 0 0 0 time.UTC)
    (time.mkTime 2024 12 25 14 30 0 0 time.UTC)
    "AA1234" 2
    (time.mkTime 2024 7 12 18 0 0 0 time.UTC)
    (time.mkTime 2024 7 12 18 0 0 0 time.UTC)
    "CONFIRMED".

Definition world1 : services.World :=
  services.mkWorld env0 {[ "ABC123" := services.to_doc ticket1 ]}.

Fixpoint digits_value (acc : Z) (s : string) : option Z :=
  match s with
  | EmptyString => Some acc
  | String c s' => d ← digit c; digits_value (10 * acc + d) s'
  end.

(** [strconv.Atoi]: an optional sign, then one or more decimal digits that
    denote an [int] of 64 bits. *)
Definition atoi (s : string) : option Z :=
  let '(negative, body) :=
    match s with
    | String "-" rest => (true, rest)
    | String "+" rest => (false, rest)
    | _ => (false, s)
    end in
  if String.eqb body "" then None
  else
    n ← digits_value 0 body;
    let v := if negative : bool then - n else n in
    if (- 2 ^ 63 <=? v) && (v <? 2 ^ 63) then Some v else None.

#[global] Instance numbers : strconv.Numbers := {| strconv.Atoi := atoi |}.

End golib.

(** ** The formats the specification names *)

Module formats.
Import strings.

(** [^[A-Z]{2}[0-9]{4}$] *)
Definition flight_number_format (s : string) : bool :=
  match s with
  | String a (String b digits) =>
      is_upper_byte a && is_upper_byte b
      && (String.length digits =? 4)%nat && all_bytes is_digit_byte digits
  | _ => false
  end.

(** Four decimal digits. *)
Definition four_digits (s : string) : bool :=
  (String.length s =? 4)%nat && all_bytes is_digit_byte s.

(** The number a string of decimal digits denotes. *)
Definition decimal_value (s : string) : Z :=
  fold_left (λ acc c, 10 * acc + (Z.of_N (byte_val c) - 48))
            (String.list_ascii_of_string s) 0.

(** An ASCII letter of either case. *)
Definition is_ascii_letter (c : ascii) : bool :=
  is_upper_byte c || is_lower_byte c.

(** A byte of [[A-Z0-9]]. *)
Definition is_upper_alnum (c : ascii) : bool :=
  is_upper_byte c || is_digit_byte c.

(** An ASCII character that is not a lower-case letter. *)
Definition ascii_not_lower (c : ascii) : bool :=
  is_ascii_byte c && negb (is_lower_byte c).

(** A byte [10xxxxxx], which continues a multi-byte UTF-8 sequence. *)
Definition is_continuation_byte (c : ascii) : bool :=
  ((128 <=? byte_val c) && (byte_val c <? 192))%N.

(** The characters of a UTF-8 string, counted as
    [utf8.RuneCountInString] counts them: the bytes that start a
    sequence. *)
Fixpoint characters (s : string) : nat :=
  match s with
  | EmptyString => 0
  | String c s' =>
      ((if is_continuation_byte c then 0 else 1) + characters s')%nat
  end.

End formats.

(** ** The requests of the router, and what the collection holds

    The route table of [main]: POST /ticket/, GET, PUT and DELETE
    /ticket/{confirmationID}, GET /tickets.  A request that reaches [Set]
    or the query comes with the client's answer to it. *)

Module lifecycle.
Import strings models services handlers formats reconciliation.

Inductive Request :=
| POST_ticket (body : option CreateTicketRequest) (Set_err : option error)
| GET_ticket (confirmationID : string)
| PUT_ticket (confirmationID : string) (body : option UpdateTicketRequest)
| DELETE_ticket (confirmationID : string)
| GET_tickets (limitStr : string) (GetAll_err : option error).

Section with_go_library.
Context `{!UnicodeCase, !time.Layouts, !strconv.Numbers}.

(** The world a request leaves behind. *)
Definition dispatch (rq : Request) (w : World) : World :=
  match rq with
  | POST_ticket body Set_err => (CreateTicket body Set_err w).2
  | GET_ticket confirmationID => (GetTicket confirmationID w).2
  | PUT_ticket confirmationID body => (UpdateTicket confirmationID body w).2
  | DELETE_ticket confirmationID => (DeleteTicket confirmationID w).2
  | GET_tickets limitStr GetAll_err => (ListTickets limitStr GetAll_err w).2
  end.

(** Requests served one after the other. *)
Definition run (rqs : list Request) (w : World) : World :=
  fold_left (λ w rq, dispatch rq w) rqs w.

(** A ticket as the handlers let it into the collection. *)
Definition ticket_ok (t : FlightTicket) : Prop :=
  ValidateAirportCode (Origin t) = true
  ∧ ValidateAirportCode (Destination t) = true
  ∧ 0 < Passengers t
  ∧ valid_status (Status t) = true.

(** A document under key [k] that decodes to such a ticket, whose id is
    the key, six characters of [A-Z0-9]. *)
Definition stored_ok (k : string) (d : gmap string Value) : Prop :=
  ∃ t, DataTo d = Some t
       ∧ ConfirmationID t = k
       ∧ String.length k = 6%nat
       ∧ all_bytes is_upper_alnum k = true
       ∧ ticket_ok t.

Definition store_ok (ds : gmap string (gmap string Value)) : Prop :=
  ∀ k d, ds !! k = Some d → stored_ok k d.

(** The ticket that results from writing the staged fields of [req] and
    the stamp [now] over the stored ticket [t]. *)
Definition updated_ticket (req : UpdateTicketRequest) (today now : time.Time)
    (t : FlightTicket) : FlightTicket :=
  {| ConfirmationID := ConfirmationID t;
     Origin := if nonempty (ur_Origin req) then ur_Origin req else Origin t;
     Destination :=
       if nonempty (ur_Destination req) then ur_Destination req
       else Destination t;
     DepartureDate :=
       match staged_value req today departure_date with
       | Some (VTime date) => date
       | _ => DepartureDate t
       end;
     DepartureTime :=
       match staged_value req today departure_time with
       | Some (VTime stamp) => stamp
       | _ => DepartureTime t
       end;
     FlightNumber :=
       if nonempty (ur_FlightNumber req) then ur_FlightNumber req
       else FlightNumber t;
     Passengers :=
       if 0 <? ur_Passengers req then ur_Passengers req else Passengers t;
     CreatedAt := CreatedAt t;
     UpdatedAt := now;
     Status := if nonempty (ur_Status req) then ur_Status req else Status t |}.

End with_go_library.

(** The instant of a time, as the query compares it. *)
Definition time_leb (a b : time.Time) : bool :=
  lex_leb (time_key a) (time_key b).

End lifecycle.

Import strings models services handlers formats reconciliation.

(** * Properties *)

(** ** Strings *)

Section string_facts.
Context `{!UnicodeCase}.

Lemma all_bytes_impl (p q : ascii → bool) s :
  (∀ c, p c = true → q c = true) →
  all_bytes p s = true → all_bytes q s = true.
Proof.
  intros Hpq. induction s as [|c s IH]; simpl; [done|].
  intros [Hc Hs]%andb_true_iff. rewrite (Hpq _ Hc). simpl. auto.
Qed.

Lemma all_bytes_app p s t :
  all_bytes p (s +:+ t) = all_bytes p s && all_bytes p t.
Proof.
  induction s as [|c s IH]; simpl; [done|]. by rewrite IH, andb_assoc.
Qed.

Lemma any_lower_none s :
  all_bytes (λ c, negb (is_lower_byte c)) s = true → hasLower s = false.
Proof.
  unfold hasLower. induction s as [|c s IH]; simpl; [done|].
  intros [Hc Hs]%andb_true_iff. apply negb_true_iff in Hc.
  rewrite Hc. simpl. auto.
Qed.

Lemma map_upper_fixed s :
  hasLower s = false → map_bytes upper_byte s = s.
Proof.
  unfold hasLower. induction s as [|c s IH]; simpl; [done|].
  intros [Hc Hs]%orb_false_iff. unfold upper_byte at 1. rewrite Hc.
  by rewrite IH.
Qed.

(** On an ASCII string, [ToUpper] upper-cases byte by byte. *)
Lemma ToUpper_ascii s :
  isASCII s = true → ToUpper s = map_bytes upper_byte s.
Proof.
  intros Ha. unfold ToUpper. rewrite Ha.
  destruct (hasLower s) eqn:Hl; simpl; [done|].
  by rewrite map_upper_fixed.
Qed.

Lemma ToUpper_fixed s :
  isASCII s = true → hasLower s = false → ToUpper s = s.
Proof. intros Ha Hl. unfold ToUpper. by rewrite Ha, Hl. Qed.

Lemma ascii_not_lower_split s :
  all_bytes ascii_not_lower s = true →
  isASCII s = true ∧ hasLower s = false.
Proof.
  intros Hall. split.
  - eapply all_bytes_impl; [|exact Hall].
    intros c. unfold ascii_not_lower. by intros [? ?]%andb_true_iff.
  - apply any_lower_none. eapply all_bytes_impl; [|exact Hall].
    intros c. unfold ascii_not_lower. by intros [? ?]%andb_true_iff.
Qed.

Lemma upper_byte_letter c :
  is_ascii_letter c = true → is_upper_byte (upper_byte c) = true.
Proof.
  destruct c as [[] [] [] [] [] [] [] []]; vm_compute; congruence.
Qed.

Lemma letter_is_ascii c : is_ascii_letter c = true → is_ascii_byte c = true.
Proof.
  destruct c as [[] [] [] [] [] [] [] []]; vm_compute; congruence.
Qed.


Lemma ValidateAirportCode_spec code :
  ValidateAirportCode code = true ↔
  String.length code = 3%nat ∧ ToUpper code = code.
Proof.
  unfold ValidateAirportCode.
  rewrite andb_true_iff, Nat.eqb_eq, String.eqb_eq. done.
Qed.

(** Upper-casing moves a string that has a lower-case ASCII letter. *)
Lemma map_upper_moves s :
  hasLower s = true → map_bytes upper_byte s ≠ s.
Proof.
  unfold hasLower. induction s as [|c s IH]; simpl; [done|].
  intros Hl [= Hc Hs].
  apply orb_true_iff in Hl as [Hl|Hl]; [|by apply IH].
  revert Hl Hc. clear.
  destruct c as [[] [] [] [] [] [] [] []]; vm_compute; congruence.
Qed.

(** On ASCII strings the validator asks for three bytes and no lower-case
    letter, and for nothing else. *)
Lemma ValidateAirportCode_ascii code :
  isASCII code = true →
  ValidateAirportCode code = true ↔
  String.length code = 3%nat ∧ hasLower code = false.
Proof.
  intros Ha. rewrite ValidateAirportCode_spec, (ToUpper_ascii code Ha).
  split; intros [Hlen Hup]; (split; [done|]).
  - destruct (hasLower code) eqn:Hl; [|done].
    by apply map_upper_moves in Hl.
  - by apply map_upper_fixed.
Qed.

End string_facts.

(** C2: the validator accepts exactly the strings of length 3 that equal
    their own upper-casing; it accepts "JFK" and rejects "jfk", "JFKX" and
    the empty string. *)
Theorem C2_validate_airport_code `{!UnicodeCase} (code : string) :
  (ValidateAirportCode code = true ↔
     String.length code = 3%nat ∧ ToUpper code = code)
  ∧ ValidateAirportCode "JFK" = true
  ∧ ValidateAirportCode "jfk" = false
  ∧ ValidateAirportCode "JFKX" = false
  ∧ ValidateAirportCode "" = false.
Proof.
  split; [apply ValidateAirportCode_spec|]. repeat split; reflexivity.
Qed.

(** C10: a string of three ASCII characters none of which is a lower-case
    letter passes the validator, whether or not the characters are letters:
    the update handler stages it as origin or destination as it is, and
    [NewFlightTicket] builds a ticket that carries it. *)
Theorem C10_validator_accepts_non_letters `{!UnicodeCase, !time.Layouts}
    (code : string) :
  String.length code = 3%nat →
  all_bytes ascii_not_lower code = true →
  ValidateAirportCode code = true
  ∧ (∀ req updates w,
       ur_Origin req = code →
       stage_origin req updates w
       = (inr (<["origin" := VString code]> updates), w))
  ∧ (∀ req updates w,
       ur_Destination req = code →
       stage_destination req updates w
       = (inr (<["destination" := VString code]> updates), w))
  ∧ (∀ dDate dTime fn p e,
       ∃ t, (NewFlightTicket code code dDate dTime fn p e).1 = Some t
            ∧ Origin t = code ∧ Destination t = code).
Proof.
  intros Hlen Hok.
  destruct (ascii_not_lower_split _ Hok) as [Ha Hl].
  pose proof (ToUpper_fixed code Ha Hl) as Hup.
  assert (Hv : ValidateAirportCode code = true).
  { by apply ValidateAirportCode_spec. }
  assert (Hne : nonempty code = true) by (by destruct code).
  split; [done|]. split; [|split].
  - intros req updates w <-. unfold stage_origin. by rewrite Hne, Hv.
  - intros req updates w <-. unfold stage_destination. by rewrite Hne, Hv.
  - intros dDate dTime fn p e. unfold NewFlightTicket.
    destruct (time_Now e) as [now e1]. rewrite Hv. cbn [negb orb].
    destruct (if String.eqb fn "" then GenerateFlightNumber "AA" e1
              else (fn, e1)) as [fn' e2].
    destruct (GenerateConfirmationID e2) as [id e3].
    eexists. split; [reflexivity|]. by rewrite Hup.
Qed.

Lemma C10_witness :
  (String.length "K1M" = 3%nat ∧ all_bytes ascii_not_lower "K1M" = true
   ∧ ValidateAirportCode "K1M" = true)
  ∧ (String.length "123" = 3%nat ∧ all_bytes ascii_not_lower "123" = true
     ∧ ValidateAirportCode "123" = true).
Proof.
  split.
  - split; [reflexivity|]. split; [reflexivity|].
    exact (proj1 (C10_validator_accepts_non_letters "K1M" eq_refl eq_refl)).
  - split; [reflexivity|]. split; [reflexivity|].
    exact (proj1 (C10_validator_accepts_non_letters "123" eq_refl eq_refl)).
Defined.

(** The validator counts bytes, not characters: a code of three
    characters none of which is a lower-case letter, the first of them
    the two-byte capital A with grave, has four bytes and is rejected. *)
Lemma C10_counterexample :
  characters "ÀBC" = 3%nat
  ∧ hasLower "ÀBC" = false
  ∧ ToUpper "ÀBC" = "ÀBC"
  ∧ String.length "ÀBC" = 4%nat
  ∧ ValidateAirportCode "ÀBC" = false.
Proof. repeat split. Qed.

(** Create and update with codes that are not letters. *)
Example create_with_digits :
  StatusCode
    (CreateTicket
       (Some (mkCreateTicketRequest "123" "K1M" "2024-12-25" "14:30" "" 2))
       None golib.world0).1 = StatusCreated.
Proof. vm_compute. reflexivity. Qed.

(** ** Random draws and generated identifiers *)

Lemma rand_Intn_range n e : 0 < n → 0 ≤ (rand_Intn n e).1 < n.
Proof. intros Hn. simpl. by apply Z.mod_pos_bound. Qed.

(** ["%d"] on the flight numbers the generator draws: four digits that
    denote the number. *)
Lemma format_int_flight_range n :
  1000 ≤ n ≤ 9999 →
  four_digits (fmt.format_int n) = true
  ∧ decimal_value (fmt.format_int n) = n.
Proof.
  intros Hn.
  pose (ok := λ k : nat,
    let m := 1000 + Z.of_nat k in
    four_digits (fmt.format_int m) && (decimal_value (fmt.format_int m) =? m)).
  assert (Hall : forallb ok (seq 0 (Z.to_nat 9000)) = true)
    by (vm_compute; reflexivity).
  rewrite forallb_forall in Hall.
  specialize (Hall (Z.to_nat (n - 1000))).
  assert (Hin : In (Z.to_nat (n - 1000)) (seq 0 (Z.to_nat 9000)))
    by (apply in_seq; lia).
  apply Hall in Hin. unfold ok in Hin. simpl in Hin.
  replace (1000 + Z.of_nat (Z.to_nat (n - 1000))) with n in Hin by lia.
  apply andb_true_iff in Hin as [H4 Hv]. split; [done|]. by apply Z.eqb_eq.
Qed.

Lemma charset_byte k :
  0 ≤ k < 36 → is_upper_alnum (byte_at charset k) = true.
Proof.
  intros Hk. unfold byte_at.
  assert (Hlt : (Z.to_nat k < 36)%nat) by lia.
  generalize dependent (Z.to_nat k). intros n Hn.
  do 36 (destruct n as [|n]; [reflexivity|]). lia.
Qed.

Lemma fill_from_charset_spec n e :
  String.length (fill_from_charset n e).1 = n
  ∧ all_bytes is_upper_alnum (fill_from_charset n e).1 = true.
Proof.
  revert e. induction n as [|n IH]; intros e; [done|].
  cbn [fill_from_charset].
  destruct (rand_Intn (Z.of_nat (String.length charset)) e) as [k e1] eqn:Hk.
  destruct (fill_from_charset n e1) as [rest e2] eqn:Hr.
  specialize (IH e1). rewrite Hr in IH. simpl in IH. destruct IH as [IHl IHa].
  cbn [fst String.length all_bytes]. split; [by rewrite IHl|].
  rewrite IHa, andb_true_r. apply charset_byte.
  pose proof (rand_Intn_range (Z.of_nat (String.length charset)) e) as Hrange.
  rewrite Hk in Hrange. simpl in Hrange. lia.
Qed.

Section generators.
Context `{!UnicodeCase}.

Lemma GenerateFlightNumber_eq airlineCode e :
  (GenerateFlightNumber airlineCode e).1 =
    ToUpper (if (String.length airlineCode =? 2)%nat
             then airlineCode else "AA")
    +:+ fmt.format_int ((rand_Intn 9000 e).1 + 1000)
  ∧ (GenerateFlightNumber airlineCode e).2 = (rand_Intn 9000 e).2.
Proof.
  unfold GenerateFlightNumber.
  destruct (String.length airlineCode =? 2)%nat; done.
Qed.

Lemma two_letters_format (code digits : string) :
  String.length code = 2%nat →
  all_bytes is_ascii_letter code = true →
  four_digits digits = true →
  flight_number_format (ToUpper code +:+ digits) = true.
Proof.
  intros Hlen Hletters Hd.
  rewrite ToUpper_ascii
    by (eapply all_bytes_impl; [apply letter_is_ascii|done]).
  destruct code as [|a [|b [|c rest]]]; try discriminate.
  simpl in Hletters. rewrite andb_true_r in Hletters.
  apply andb_true_iff in Hletters as [Ha Hb].
  pose proof Hd as [Hd4 Hdd]%andb_true_iff.
  change (is_upper_byte (upper_byte a) && is_upper_byte (upper_byte b)
          && (String.length digits =? 4)%nat
          && all_bytes is_digit_byte digits = true).
  rewrite !upper_byte_letter by done.
  unfold four_digits in *. by rewrite Hd4, Hdd.
Qed.

End generators.

Lemma GenerateFlightNumber_shape `{!UnicodeCase}
    (airlineCode : string) (e : Env) :
  ∃ n : Z,
    1000 ≤ n ≤ 9999
    ∧ (GenerateFlightNumber airlineCode e).1 =
        ToUpper (if (String.length airlineCode =? 2)%nat
                 then airlineCode else "AA") +:+ fmt.format_int n
    ∧ four_digits (fmt.format_int n) = true
    ∧ decimal_value (fmt.format_int n) = n
    ∧ (String.length airlineCode ≠ 2%nat →
         (GenerateFlightNumber airlineCode e).1 = "AA" +:+ fmt.format_int n
         ∧ flight_number_format (GenerateFlightNumber airlineCode e).1 = true)
    ∧ (String.length airlineCode = 2%nat →
       all_bytes is_ascii_letter airlineCode = true →
         flight_number_format (GenerateFlightNumber airlineCode e).1 = true).
Proof.
  pose proof (rand_Intn_range 9000 e ltac:(lia)) as Hr.
  exists ((rand_Intn 9000 e).1 + 1000).
  destruct (GenerateFlightNumber_eq airlineCode e) as [Heq _].
  destruct (format_int_flight_range ((rand_Intn 9000 e).1 + 1000)) as [H4 Hv];
    [lia|].
  split; [lia|]. split; [exact Heq|]. split; [exact H4|]. split; [exact Hv|].
  split.
  - intros Hne. rewrite Heq.
    apply Nat.eqb_neq in Hne. rewrite Hne.
    split; [reflexivity|]. by apply two_letters_format.
  - intros Hlen Hletters. rewrite Heq.
    rewrite (proj2 (Nat.eqb_eq _ _) Hlen). by apply two_letters_format.
Qed.


(** C9, as the code has it: the generator replaces an airline code whose
    length is not 2 by "AA", upper-cases the prefix and appends the four
    digits of a number drawn from [1000, 9999]; the result has the format
    [^[A-Z]{2}[0-9]{4}$] when the default is used and whenever the two
    bytes of the code are ASCII letters. *)
Theorem C9_generate_flight_number `{!UnicodeCase}
    (airlineCode : string) (e : Env) :
  ∃ n : Z,
    1000 ≤ n ≤ 9999
    ∧ (GenerateFlightNumber airlineCode e).1 =
        ToUpper (if (String.length airlineCode =? 2)%nat
                 then airlineCode else "AA") +:+ fmt.format_int n
    ∧ four_digits (fmt.format_int n) = true
    ∧ decimal_value (fmt.format_int n) = n
    ∧ (String.length airlineCode ≠ 2%nat →
         (GenerateFlightNumber airlineCode e).1 = "AA" +:+ fmt.format_int n
         ∧ flight_number_format (GenerateFlightNumber airlineCode e).1 = true)
    ∧ (String.length airlineCode = 2%nat →
       all_bytes is_ascii_letter airlineCode = true →
         flight_number_format (GenerateFlightNumber airlineCode e).1 = true).
Proof. apply GenerateFlightNumber_shape. Qed.

Lemma C9_witness :
  String.length "ua" = 2%nat
  ∧ all_bytes is_ascii_letter "ua" = true
  ∧ (GenerateFlightNumber "ua" golib.env0).1 = "UA1005"
  ∧ flight_number_format (GenerateFlightNumber "ua" golib.env0).1 = true.
Proof.
  split; [reflexivity|]. split; [reflexivity|]. split; [reflexivity|].
  destruct (C9_generate_flight_number "ua" golib.env0)
    as (n & _ & _ & _ & _ & _ & Hfmt).
  exact (Hfmt eq_refl eq_refl).
Defined.

(** C9, as stated, fails: an airline code of two digits keeps its digits,
    and the result does not have the format [^[A-Z]{2}[0-9]{4}$]. *)
Lemma C9_counterexample :
  String.length "12" = 2%nat
  ∧ (GenerateFlightNumber "12" golib.env0).1 = "121005"
  ∧ flight_number_format (GenerateFlightNumber "12" golib.env0).1 = false.
Proof. repeat split; reflexivity. Qed.

(** ** Ticket construction *)

Section construction.
Context `{!UnicodeCase}.

(** A generated flight number is its own upper-casing. *)
Lemma generated_flight_number_fixed e :
  let fn := (GenerateFlightNumber "AA" e).1 in
  ToUpper fn = fn ∧ flight_number_format fn = true.
Proof.
  destruct (GenerateFlightNumber_shape "AA" e)
    as (n & Hn & Heq & H4 & _ & _ & Hfmt).
  specialize (Hfmt eq_refl eq_refl). cbv zeta. split; [|exact Hfmt].
  rewrite Heq. change (ToUpper "AA") with "AA".
  apply andb_true_iff in H4 as [_ Hd].
  apply ToUpper_fixed.
  - unfold isASCII. rewrite all_bytes_app. simpl.
    eapply all_bytes_impl; [|exact Hd].
    intros c. destruct c as [[] [] [] [] [] [] [] []]; vm_compute; congruence.
  - apply any_lower_none. rewrite all_bytes_app. simpl.
    eapply all_bytes_impl; [|exact Hd].
    intros c. destruct c as [[] [] [] [] [] [] [] []]; vm_compute; congruence.
Qed.

End construction.

(** C1: [NewFlightTicket] returns [nil] exactly when the origin or the
    destination fails the airport-code validator.  Otherwise the ticket
    carries the upper-cased origin, destination and flight number, the
    date, time and passenger count it was given, status CONFIRMED, one
    clock reading as both [created_at] and [updated_at], and a confirmation
    id of six characters of [A-Z0-9]; an empty flight number is replaced by
    one generated with the airline code "AA". *)
Theorem C1_new_flight_ticket `{!UnicodeCase}
    (origin destination : string) (departureDate departureTime : time.Time)
    (flightNumber : string) (passengers : Z) (e : Env) :
  let r := (NewFlightTicket origin destination departureDate departureTime
              flightNumber passengers e).1 in
  (r = None ↔
     ValidateAirportCode origin = false ∨ ValidateAirportCode destination = false)
  ∧ match r with
    | None => True
    | Some t =>
        Origin t = ToUpper origin
        ∧ Destination t = ToUpper destination
        ∧ DepartureDate t = departureDate
        ∧ DepartureTime t = departureTime
        ∧ Passengers t = passengers
        ∧ Status t = "CONFIRMED"
        ∧ CreatedAt t = (time_Now e).1
        ∧ UpdatedAt t = CreatedAt t
        ∧ String.length (ConfirmationID t) = 6%nat
        ∧ all_bytes is_upper_alnum (ConfirmationID t) = true
        ∧ FlightNumber t =
            (if String.eqb flightNumber ""
             then (GenerateFlightNumber "AA" (time_Now e).2).1
             else ToUpper flightNumber)
        ∧ (if String.eqb flightNumber ""
           then flight_number_format (FlightNumber t) = true
           else True)
    end.
Proof.
  cbv zeta. unfold NewFlightTicket.
  destruct (time_Now e) as [now e1] eqn:Hnow.
  destruct (ValidateAirportCode origin) eqn:Ho;
    destruct (ValidateAirportCode destination) eqn:Hd;
    cbn [negb orb fst snd];
    try (split; [split; [intros _; auto | done] | done]).
  pose proof (generated_flight_number_fixed e1) as [Hfix Hfmt].
  destruct (String.eqb flightNumber "") eqn:Hfn.
  - destruct (GenerateFlightNumber "AA" e1) as [fn e2] eqn:Hgen.
    pose proof (fill_from_charset_spec 6 e2) as [Hlen Hall].
    unfold GenerateConfirmationID.
    destruct (fill_from_charset 6 e2) as [id e3] eqn:Hid.
    cbn [fst snd] in *.
    split; [split; [discriminate | intros [?|?]; discriminate]|].
    cbn [Origin Destination DepartureDate DepartureTime Passengers Status
         CreatedAt UpdatedAt ConfirmationID FlightNumber].
    rewrite Hfix. repeat split; done.
  - pose proof (fill_from_charset_spec 6 e1) as [Hlen Hall].
    unfold GenerateConfirmationID.
    destruct (fill_from_charset 6 e1) as [id e3] eqn:Hid.
    cbn [fst snd] in *.
    split; [split; [discriminate | intros [?|?]; discriminate]|].
    cbn [Origin Destination DepartureDate DepartureTime Passengers Status
         CreatedAt UpdatedAt ConfirmationID FlightNumber].
    repeat split; done.
Qed.

(** The ticket of the specification's example. *)
Example new_ticket_JFK_LAX :
  let departureDate := time.mkTime 2024 12 25 0 0 0 0 time.UTC in
  let departureTime := time.mkTime 2024 1 1 14 30 0 0 time.UTC in
  ∃ t, (NewFlightTicket "JFK" "LAX" departureDate departureTime "AA1234" 2
          golib.env0).1 = Some t
       ∧ Origin t = "JFK" ∧ Destination t = "LAX" ∧ FlightNumber t = "AA1234"
       ∧ Passengers t = 2 ∧ Status t = "CONFIRMED"
       ∧ String.length (ConfirmationID t) = 6%nat.
Proof. eexists. repeat split; reflexivity. Qed.

Example new_ticket_invalid_codes :
  (NewFlightTicket "INVALID" "LAX" time.zero time.zero "AA1234" 2 golib.env0).1
    = None
  ∧ (NewFlightTicket "JFK" "invalid" time.zero time.zero "AA1234" 2 golib.env0).1
    = None.
Proof. split; reflexivity. Qed.


(** ** The update handler against the reconciliation rules *)

Lemma head_omap_None {A B} (g : A → option B) (l : list A) :
  head (omap g l) = None → ∀ a, a ∈ l → g a = None.
Proof.
  induction l as [|x l IH]; intros Hhead a Ha.
  - by apply elem_of_nil in Ha.
  - cbn [omap list_omap] in Hhead. destruct (g x) eqn:Hx; [done|].
    apply elem_of_cons in Ha as [->|Ha]; [done|]. by apply IH.
Qed.

(** The field [f] rejects and every field before it passes. *)
Ltac first_rejecting f :=
  simpl; intros [= <-]; exists f; split; [done|];
  intros g; destruct g; simpl; (done || lia).

(** The head of the rejections, taken in declaration order, is the
    rejection of a field all of whose predecessors pass. *)
Lemma head_in_declaration_order {A} (reject : field → option A) (err : A) :
  head (omap reject declaration_order) = Some err →
  ∃ f, reject f = Some err
       ∧ ∀ g, (position g < position f)%nat → reject g = None.
Proof.
  unfold declaration_order. cbn [omap list_omap].
  destruct (reject origin) eqn:?; [first_rejecting origin|].
  destruct (reject destination) eqn:?; [first_rejecting destination|].
  destruct (reject departure_date) eqn:?; [first_rejecting departure_date|].
  destruct (reject departure_time) eqn:?; [first_rejecting departure_time|].
  destruct (reject flight_number) eqn:?; [first_rejecting flight_number|].
  destruct (reject passengers) eqn:?; [first_rejecting passengers|].
  destruct (reject status) eqn:?; [first_rejecting status|done].
Qed.

Lemma declaration_order_NoDup : NoDup declaration_order.
Proof. by apply (bool_decide_unpack _). Qed.

Lemma declaration_order_all f : f ∈ declaration_order.
Proof. destruct f; by apply (bool_decide_unpack _). Qed.

Lemma field_name_inj f g : field_name f = field_name g → f = g.
Proof. by destruct f, g. Qed.

Section reconciliation_facts.
Context `{!UnicodeCase, !time.Layouts}.

Lemma no_failure_no_rejection req f :
  first_failure req = None → rejection req f = None.
Proof.
  intros Hff. eapply head_omap_None; [exact Hff|].
  apply declaration_order_all.
Qed.

Lemma stage_origin_block req today u w :
  stage_origin req u w = block_result req today origin u w w.
Proof.
  unfold stage_origin, block_result, rejection, stage, staged_value.
  destruct (nonempty (ur_Origin req)); [|done].
  by destruct (ValidateAirportCode (ur_Origin req)).
Qed.

Lemma stage_destination_block req today u w :
  stage_destination req u w = block_result req today destination u w w.
Proof.
  unfold stage_destination, block_result, rejection, stage, staged_value.
  destruct (nonempty (ur_Destination req)); [|done].
  by destruct (ValidateAirportCode (ur_Destination req)).
Qed.

Lemma stage_departure_date_block req today u w :
  stage_departure_date req u w = block_result req today departure_date u w w.
Proof.
  unfold stage_departure_date, block_result, rejection, stage, staged_value.
  destruct (nonempty (ur_DepartureDate req)); [|done].
  by destruct (time.Parse_date (ur_DepartureDate req)).
Qed.

(** The block of the time is reached with a date that is empty or parses. *)
Lemma stage_departure_time_block req u w :
  rejection req departure_date = None →
  stage_departure_time req u w =
    block_result req (today_UTC w) departure_time u w (staged_world req w).
Proof.
  unfold stage_departure_time, block_result, rejection, stage, staged_value,
    staged_world, reads_clock.
  destruct (nonempty (ur_DepartureTime req)); [|done].
  destruct (time.Parse_clock (ur_DepartureTime req)) as [timeOnly|]; [|done].
  destruct (nonempty (ur_DepartureDate req)).
  - by destruct (time.Parse_date (ur_DepartureDate req)).
  - intros _. unfold mbind, handler_bind, now_UTC, today_UTC, after_clock_read.
    by destruct (time_Now (env w)).
Qed.

Lemma stage_flight_number_block req today u w :
  stage_flight_number req u w = block_result req today flight_number u w w.
Proof.
  unfold stage_flight_number, block_result, rejection, stage, staged_value.
  by destruct (nonempty (ur_FlightNumber req)).
Qed.

Lemma stage_passengers_block req today u w :
  stage_passengers req u w = block_result req today passengers u w w.
Proof.
  unfold stage_passengers, block_result, rejection, stage, staged_value.
  by destruct (0 <? ur_Passengers req).
Qed.

Lemma stage_status_block req today u w :
  stage_status req u w = block_result req today status u w w.
Proof.
  unfold stage_status, block_result, rejection, stage, staged_value.
  destruct (nonempty (ur_Status req)); [|done].
  by destruct (valid_status (ur_Status req)).
Qed.

(** A block whose field passes validation stages and goes on. *)
Ltac pass_block lem Hpass :=
  rewrite lem; unfold block_result at 1; rewrite Hpass; cbv beta iota.

(** A block whose field fails validation ends the handler. *)
Ltac fail_block lem Hfail :=
  rewrite lem; unfold block_result at 1; rewrite Hfail; cbv beta iota.

(** A request with no validation failure is staged as section 4.4 says. *)
Lemma build_updates_accepts req w :
  first_failure req = None →
  build_updates req w =
    (inr (staged_fields req (today_UTC w)), staged_world req w).
Proof.
  intros Hff.
  pose proof (λ f, no_failure_no_rejection req f Hff) as Hpass.
  unfold build_updates, mbind, handler_bind.
  pass_block (stage_origin_block req (today_UTC w)) (Hpass origin).
  pass_block (stage_destination_block req (today_UTC w)) (Hpass destination).
  pass_block (stage_departure_date_block req (today_UTC w))
             (Hpass departure_date).
  rewrite stage_departure_time_block by apply Hpass.
  unfold block_result at 1. rewrite (Hpass departure_time). cbv beta iota.
  pass_block (stage_flight_number_block req (today_UTC w))
             (Hpass flight_number).
  pass_block (stage_passengers_block req (today_UTC w)) (Hpass passengers).
  pass_block (stage_status_block req (today_UTC w)) (Hpass status).
  reflexivity.
Qed.

(** A request with a validation failure is rejected with the first one in
    declaration order; at most the clock has been read by then. *)
Lemma build_updates_rejects req w err :
  first_failure req = Some err →
  ∃ w', build_updates req w =
          (inl (mkResponse StatusBadRequest (ErrorJSON err)), w')
        ∧ (w' = w ∨ w' = after_clock_read w).
Proof.
  intros Hff.
  destruct (head_in_declaration_order _ _ Hff) as (f & Hfail & Hbefore).
  assert (Hpass : ∀ g, (position g <? position f)%nat = true →
                       rejection req g = None).
  { intros g Hg. apply Hbefore. by apply Nat.ltb_lt. }
  clear Hbefore Hff.
  unfold build_updates, mbind, handler_bind.
  destruct f; try discriminate Hfail.
  - fail_block (stage_origin_block req (today_UTC w)) Hfail. eauto.
  - pass_block (stage_origin_block req (today_UTC w)) (Hpass origin eq_refl).
    fail_block (stage_destination_block req (today_UTC w)) Hfail. eauto.
  - pass_block (stage_origin_block req (today_UTC w)) (Hpass origin eq_refl).
    pass_block (stage_destination_block req (today_UTC w))
               (Hpass destination eq_refl).
    fail_block (stage_departure_date_block req (today_UTC w)) Hfail. eauto.
  - pass_block (stage_origin_block req (today_UTC w)) (Hpass origin eq_refl).
    pass_block (stage_destination_block req (today_UTC w))
               (Hpass destination eq_refl).
    pass_block (stage_departure_date_block req (today_UTC w))
               (Hpass departure_date eq_refl).
    rewrite stage_departure_time_block by (by apply Hpass).
    unfold block_result at 1. rewrite Hfail. eauto.
  - pass_block (stage_origin_block req (today_UTC w)) (Hpass origin eq_refl).
    pass_block (stage_destination_block req (today_UTC w))
               (Hpass destination eq_refl).
    pass_block (stage_departure_date_block req (today_UTC w))
               (Hpass departure_date eq_refl).
    rewrite stage_departure_time_block by (by apply Hpass).
    unfold block_result at 1. rewrite (Hpass departure_time eq_refl).
    cbv beta iota.
    pass_block (stage_flight_number_block req (today_UTC w))
               (Hpass flight_number eq_refl).
    pass_block (stage_passengers_block req (today_UTC w))
               (Hpass passengers eq_refl).
    fail_block (stage_status_block req (today_UTC w)) Hfail.
    eexists. split; [reflexivity|].
    unfold staged_world. destruct (reads_clock req); auto.
Qed.

Lemma build_updates_docs req w :
  docs (build_updates req w).2 = docs w.
Proof.
  destruct (first_failure req) as [err|] eqn:Hff.
  - destruct (build_updates_rejects req w err Hff) as (w' & -> & [->| ->]);
      reflexivity.
  - rewrite (build_updates_accepts req w Hff).
    unfold staged_world. by destruct (reads_clock req).
Qed.

(** The handler goes on past staging exactly for the requests that pass
    validation, with the staged mapping of section 4.4. *)
Lemma build_updates_inr req w updates w' :
  build_updates req w = (inr updates, w') →
  first_failure req = None
  ∧ updates = staged_fields req (today_UTC w)
  ∧ w' = staged_world req w.
Proof.
  intros Hb. destruct (first_failure req) as [err|] eqn:Hff.
  - destruct (build_updates_rejects req w err Hff) as (w0 & Hr & _).
    rewrite Hr in Hb. discriminate.
  - rewrite (build_updates_accepts req w Hff) in Hb.
    by injection Hb as <- <-.
Qed.

(** An invalid field makes the request fail, and the failure reported is
    that of a first invalid field, at or before it in declaration order. *)
Lemma first_failure_before req f err :
  rejection req f = Some err →
  ∃ f0 err0,
    first_failure req = Some err0
    ∧ rejection req f0 = Some err0
    ∧ (position f0 ≤ position f)%nat
    ∧ ∀ g, (position g < position f0)%nat → rejection req g = None.
Proof.
  intros Hf. destruct (first_failure req) as [err0|] eqn:Hff.
  - destruct (head_in_declaration_order _ _ Hff) as (f0 & Hf0 & Hbefore).
    exists f0, err0. split; [done|]. split; [done|]. split; [|done].
    destruct (decide (position f0 ≤ position f)%nat) as [|Hgt]; [done|].
    rewrite Hbefore in Hf by lia. discriminate.
  - rewrite (no_failure_no_rejection req f Hff) in Hf. discriminate.
Qed.

Lemma stage_lookup_ne req today u f k :
  k ≠ field_name f → stage req today u f !! k = u !! k.
Proof.
  intros Hk. unfold stage. destruct (staged_value req today f); [|done].
  by rewrite lookup_insert_ne.
Qed.

Lemma stage_lookup_eq req today u f :
  stage req today u f !! field_name f =
    match staged_value req today f with
    | Some v => Some v
    | None => u !! field_name f
    end.
Proof.
  unfold stage. destruct (staged_value req today f); [|done].
  by rewrite lookup_insert_eq.
Qed.

(** Staging a list of fields leaves every other key alone ... *)
Lemma fold_stage_other req today l u k :
  k ∉ field_name <$> l →
  fold_left (stage req today) l u !! k = u !! k.
Proof.
  revert u. induction l as [|f l IH]; intros u Hk; [done|].
  rewrite fmap_cons, not_elem_of_cons in Hk. destruct Hk as [Hne Hk].
  cbn [fold_left]. rewrite IH by done. by apply stage_lookup_ne.
Qed.

(** ... and holds, under the name of each field of the list, what that
    field stages. *)
Lemma fold_stage_field req today l u f :
  NoDup l → f ∈ l →
  fold_left (stage req today) l u !! field_name f =
    match staged_value req today f with
    | Some v => Some v
    | None => u !! field_name f
    end.
Proof.
  revert u. induction l as [|g l IH]; intros u Hnd Hf.
  - by apply elem_of_nil in Hf.
  - apply NoDup_cons in Hnd as [Hg Hnd]. cbn [fold_left].
    apply elem_of_cons in Hf as [->|Hf].
    + rewrite fold_stage_other; [apply stage_lookup_eq|].
      intros (g' & Heq & Hin)%list_elem_of_fmap.
      apply field_name_inj in Heq as <-. done.
    + rewrite IH by done. rewrite stage_lookup_ne; [done|].
      intros Heq. apply field_name_inj in Heq as ->. done.
Qed.

(** The staged mapping holds exactly what each field stages. *)
Lemma staged_fields_field req today f :
  staged_fields req today !! field_name f = staged_value req today f.
Proof.
  unfold staged_fields.
  rewrite fold_stage_field
    by auto using declaration_order_NoDup, declaration_order_all.
  rewrite lookup_empty. by destruct (staged_value req today f).
Qed.

Lemma staged_fields_other req today k :
  (∀ f, k ≠ field_name f) → staged_fields req today !! k = None.
Proof.
  intros Hk. unfold staged_fields. rewrite fold_stage_other; [done|].
  intros (f & -> & _)%list_elem_of_fmap. by apply (Hk f).
Qed.

End reconciliation_facts.

(** ** The service and the update handler, case by case *)

Lemma write_paths_union (m d : gmap string Value) :
  write_paths ((λ kv, mkUpdate kv.1 kv.2) <$> map_to_list m) d = merged m d.
Proof.
  unfold merged. rewrite <- (list_to_map_to_list m) at 2.
  induction (map_to_list m) as [|[k v] l IH].
  - cbn [list_to_map foldr]. by rewrite (left_id_L ∅ (∪)).
  - rewrite fmap_cons. cbn [write_paths foldr Path Val fst snd list_to_map].
    fold (write_paths ((λ kv, mkUpdate kv.1 kv.2) <$> l) d).
    rewrite IH. by rewrite insert_union_l.
Qed.

Lemma service_update_existing id updates w d :
  docs w !! id = Some d →
  services.UpdateTicket id updates w =
    (None, mkWorld (time_Now (env w)).2
                   (<[id := merged (stamped updates w) d]> (docs w))).
Proof.
  intros Hd. unfold services.UpdateTicket, stamped.
  destruct (time_Now (env w)) as [now e1]. cbn [fst snd].
  by rewrite Hd, write_paths_union.
Qed.

Lemma service_update_missing id updates w :
  docs w !! id = None →
  services.UpdateTicket id updates w =
    (Some (Errorf "failed to update ticket: " NotFound),
     mkWorld (time_Now (env w)).2 (docs w)).
Proof.
  intros Hd. unfold services.UpdateTicket.
  destruct (time_Now (env w)) as [now e1]. cbn [fst snd]. by rewrite Hd.
Qed.

Lemma stamped_overwrites fields t w :
  stamped (<["updated_at" := t]> fields) w = stamped fields w.
Proof. unfold stamped. by rewrite insert_insert_eq. Qed.

Section update_handler.
Context `{!UnicodeCase, !time.Layouts}.

Lemma UpdateTicket_no_id body w :
  UpdateTicket "" body w = (bad "Confirmation ID is required" "", w).
Proof. reflexivity. Qed.

Lemma UpdateTicket_rejected id req w err :
  id ≠ "" → first_failure req = Some err →
  ∃ w', UpdateTicket id (Some req) w =
          (mkResponse StatusBadRequest (ErrorJSON err), w')
        ∧ (w' = w ∨ w' = after_clock_read w).
Proof.
  intros Hid Hff. apply String.eqb_neq in Hid.
  destruct (build_updates_rejects req w err Hff) as (w' & Hb & Hw).
  exists w'. split; [|done].
  unfold UpdateTicket, serve. rewrite Hid.
  unfold mbind, handler_bind. by rewrite Hb.
Qed.

Lemma UpdateTicket_nothing id req w :
  id ≠ "" → first_failure req = None →
  staged_fields req (today_UTC w) = ∅ →
  UpdateTicket id (Some req) w =
    (bad "No fields to update" "", staged_world req w).
Proof.
  intros Hid Hff Hempty. apply String.eqb_neq in Hid.
  unfold UpdateTicket, serve. rewrite Hid.
  unfold mbind, handler_bind.
  rewrite (build_updates_accepts req w Hff), Hempty.
  reflexivity.
Qed.

Lemma size_nonempty (m : gmap string Value) :
  m ≠ ∅ → (size m =? 0)%nat = false.
Proof.
  intros Hm. apply Nat.eqb_neq. by rewrite map_size_empty_iff.
Qed.

Lemma UpdateTicket_missing id req w :
  id ≠ "" → first_failure req = None →
  staged_fields req (today_UTC w) ≠ ∅ →
  docs w !! id = None →
  UpdateTicket id (Some req) w =
    (failed "Failed to update ticket",
     after_clock_read (staged_world req w)).
Proof.
  intros Hid Hff Hne Hd. apply String.eqb_neq in Hid.
  unfold UpdateTicket, serve. rewrite Hid.
  unfold mbind, handler_bind.
  rewrite (build_updates_accepts req w Hff), (size_nonempty _ Hne).
  unfold call. fold (staged_world req w).
  rewrite service_update_missing
    by (unfold staged_world; by destruct (reads_clock req)).
  unfold staged_world, after_clock_read; by destruct (reads_clock req).
Qed.

Lemma UpdateTicket_written id req w d :
  id ≠ "" → first_failure req = None →
  staged_fields req (today_UTC w) ≠ ∅ →
  docs w !! id = Some d →
  let w1 := staged_world req w in
  let d' := merged (stamped (staged_fields req (today_UTC w)) w1) d in
  UpdateTicket id (Some req) w =
    (match DataTo d' with
     | Some ticket => mkResponse StatusOK (TicketJSON ticket)
     | None => failed "Ticket updated but failed to retrieve"
     end,
     mkWorld (time_Now (env w1)).2 (<[id := d']> (docs w))).
Proof.
  intros Hid Hff Hne Hd w1 d'. apply String.eqb_neq in Hid.
  assert (Hd1 : docs w1 !! id = Some d).
  { unfold w1, staged_world. by destruct (reads_clock req). }
  assert (Hdocs : docs w1 = docs w).
  { unfold w1, staged_world. by destruct (reads_clock req). }
  unfold UpdateTicket, serve. rewrite Hid.
  unfold mbind, handler_bind.
  rewrite (build_updates_accepts req w Hff), (size_nonempty _ Hne).
  unfold call. fold (staged_world req w). fold w1.
  rewrite (service_update_existing _ _ _ _ Hd1). fold d'.
  unfold services.GetTicket. cbn [docs].
  rewrite lookup_insert_eq, Hdocs.
  by destruct (DataTo d').
Qed.

End update_handler.

(** C3: an update request with an invalid field is rejected: the handler
    answers 400 with the error of the first field, in declaration order,
    that fails validation, and the collection is left as it was, so that
    every stored ticket reads as before. *)
Theorem C3_update_rejected_at_first_failure `{!UnicodeCase, !time.Layouts}
    (confirmationID : string) (req : UpdateTicketRequest) (w : World)
    (f : field) (err : ErrorResponse) :
  rejection req f = Some err →
  let r := UpdateTicket confirmationID (Some req) w in
  StatusCode r.1 = StatusBadRequest
  ∧ docs r.2 = docs w
  ∧ (∀ id, (services.GetTicket id r.2).1 = (services.GetTicket id w).1)
  ∧ ∃ f0 err0,
      rejection req f0 = Some err0
      ∧ (position f0 ≤ position f)%nat
      ∧ (∀ g, (position g < position f0)%nat → rejection req g = None)
      ∧ (confirmationID ≠ "" →
         r.1 = mkResponse StatusBadRequest (ErrorJSON err0)).
Proof.
  intros Hf r.
  destruct (first_failure_before req f err Hf)
    as (f0 & err0 & Hff & Hf0 & Hle & Hbefore).
  assert (Hr : docs r.2 = docs w ∧ StatusCode r.1 = StatusBadRequest
               ∧ (confirmationID ≠ "" →
                  r.1 = mkResponse StatusBadRequest (ErrorJSON err0))).
  { destruct (decide (confirmationID = "")) as [->|Hid].
    - subst r. rewrite UpdateTicket_no_id. done.
    - destruct (UpdateTicket_rejected confirmationID req w err0 Hid Hff)
        as (w' & Hu & Hw).
      subst r. rewrite Hu. cbn [fst snd].
      split; [by destruct Hw as [->| ->]|done]. }
  destruct Hr as (Hdocs & Hcode & Hresp).
  split; [done|]. split; [done|]. split.
  - intros id. unfold services.GetTicket. rewrite Hdocs.
    destruct (docs w !! id) as [d|]; [|done]. by destruct (DataTo d).
  - exists f0, err0. done.
Qed.

Lemma C3_witness :
  let req := mkUpdateTicketRequest "jfk" "" "2024-13-01" "" "" 3 "INVALID" in
  let origin_error := mkErrorResponse "Invalid origin airport code" "" in
  rejection req status
    = Some (mkErrorResponse "Invalid status"
                            "Use CONFIRMED, CANCELLED, or PENDING")
  ∧ docs (UpdateTicket "ABC123" (Some req) golib.world1).2 = docs golib.world1
  ∧ (UpdateTicket "ABC123" (Some req) golib.world1).1
      = mkResponse StatusBadRequest (ErrorJSON origin_error).
Proof.
  cbv zeta. split; [reflexivity|].
  pose proof (C3_update_rejected_at_first_failure "ABC123"
    (mkUpdateTicketRequest "jfk" "" "2024-13-01" "" "" 3 "INVALID")
    golib.world1 status
    (mkErrorResponse "Invalid status" "Use CONFIRMED, CANCELLED, or PENDING")
    eq_refl) as Hc.
  cbv zeta in Hc.
  destruct Hc as (_ & Hdocs & _ & f0 & err0 & Hf0 & _ & Hfirst & Hresp).
  split; [exact Hdocs|].
  rewrite Hresp by discriminate.
  destruct f0; try (by discriminate (Hfirst origin ltac:(simpl; lia))).
  by injection Hf0 as <-.
Defined.

(** The request of the specification's example: a status outside the
    enumeration is answered 400 and nothing is written. *)
Example update_invalid_status :
  UpdateTicket "ABC123"
    (Some (mkUpdateTicketRequest "" "" "" "" "" 0 "INVALID")) golib.world1
  = (mkResponse StatusBadRequest
       (ErrorJSON (mkErrorResponse "Invalid status"
                                   "Use CONFIRMED, CANCELLED, or PENDING")),
     golib.world1).
Proof. reflexivity. Qed.

(** C4: when the time of an update request parses as HH:MM, the
    [departure_time] the handler stages takes year, month and day from the
    date of the same request if there is one and from the current
    wall-clock date in UTC otherwise, whatever the collection holds; hour
    and minute are the parsed ones, seconds and nanoseconds are zero and
    the location is UTC. *)
Theorem C4_departure_time_composition `{!UnicodeCase, !time.Layouts}
    (req : UpdateTicketRequest) (w w' : World) (timeOnly : time.Time)
    (updates : gmap string Value) :
  ur_DepartureTime req ≠ "" →
  time.Parse_clock (ur_DepartureTime req) = Some timeOnly →
  build_updates req w = (inr updates, w') →
  ∃ date t : time.Time,
    (if String.eqb (ur_DepartureDate req) ""
     then date = time.to_UTC (time_Now (env w)).1
     else time.Parse_date (ur_DepartureDate req) = Some date)
    ∧ updates !! "departure_time" = Some (VTime t)
    ∧ time.Year t = time.Year date
    ∧ time.Month t = time.Month date
    ∧ time.Day t = time.Day date
    ∧ time.Hour t = time.Hour timeOnly
    ∧ time.Minute t = time.Minute timeOnly
    ∧ time.Second t = 0
    ∧ time.Nanosecond t = 0
    ∧ time.Loc t = time.UTC
    ∧ (∀ stored, (build_updates req (mkWorld (env w) stored)).1 = inr updates).
Proof.
  intros Hsupplied Hclock Hb.
  destruct (build_updates_inr req w updates w' Hb) as (Hff & -> & _).
  assert (Hne : nonempty (ur_DepartureTime req) = true).
  { unfold nonempty. apply negb_true_iff. by apply String.eqb_neq. }
  assert (Hdate : ∃ date,
    (if String.eqb (ur_DepartureDate req) ""
     then date = time.to_UTC (time_Now (env w)).1
     else time.Parse_date (ur_DepartureDate req) = Some date)
    ∧ staged_value req (today_UTC w) departure_time
        = Some (VTime (combine date timeOnly))).
  { pose proof (no_failure_no_rejection req departure_date Hff) as Hrej.
    unfold rejection in Hrej. unfold staged_value. rewrite Hne, Hclock.
    unfold nonempty in *.
    destruct (String.eqb (ur_DepartureDate req) ""); cbn in *.
    - by eexists.
    - destruct (time.Parse_date (ur_DepartureDate req)) as [date|]; [|done].
      by exists date. }
  destruct Hdate as (date & Hd & Hstaged).
  exists date, (combine date timeOnly).
  split; [exact Hd|]. split.
  { by rewrite <- Hstaged,
         <- (staged_fields_field req (today_UTC w) departure_time). }
  repeat (split; [reflexivity|]).
  intros stored. by rewrite build_updates_accepts.
Qed.

Lemma C4_witness :
  let only_time := mkUpdateTicketRequest "" "" "" "07:15" "" 0 "" in
  let with_date := mkUpdateTicketRequest "" "" "2025-03-09" "07:15" "" 0 "" in
  (∃ updates t,
     (build_updates only_time golib.world1).1 = inr updates
     ∧ updates !! "departure_time" = Some (VTime t)
     ∧ (time.Year t, time.Month t, time.Day t) = (2024, 7, 12)
     ∧ (time.Hour t, time.Minute t, time.Second t, time.Nanosecond t)
       = (7, 15, 0, 0))
  ∧ (∃ updates t,
       (build_updates with_date golib.world1).1 = inr updates
       ∧ updates !! "departure_time" = Some (VTime t)
       ∧ (time.Year t, time.Month t, time.Day t) = (2025, 3, 9)
       ∧ (time.Hour t, time.Minute t, time.Second t, time.Nanosecond t)
         = (7, 15, 0, 0)).
Proof.
  cbv zeta. split.
  - destruct (C4_departure_time_composition
                (mkUpdateTicketRequest "" "" "" "07:15" "" 0 "")
                golib.world1 (after_clock_read golib.world1)
                (time.mkTime 0 1 1 7 15 0 0 time.UTC)
                {[ "departure_time" :=
                     VTime (time.mkTime 2024 7 12 7 15 0 0 time.UTC) ]}
                ltac:(discriminate) eq_refl eq_refl)
      as (date & t & Hdate & Hl & Hy & Hm & Hd & Hh & Hmi & Hs & Hn & _ & Hb).
    eexists _, t. split; [exact (Hb (docs golib.world1))|].
    split; [exact Hl|]. simpl in Hdate. subst date.
    by rewrite Hy, Hm, Hd, Hh, Hmi, Hs, Hn.
  - destruct (C4_departure_time_composition
                (mkUpdateTicketRequest "" "" "2025-03-09" "07:15" "" 0 "")
                golib.world1 golib.world1
                (time.mkTime 0 1 1 7 15 0 0 time.UTC)
                (<[ "departure_time" :=
                      VTime (time.mkTime 2025 3 9 7 15 0 0 time.UTC) ]>
                   (<[ "departure_date" :=
                         VTime (time.mkTime 2025 3 9 0 0 0 0 time.UTC) ]> ∅))
                ltac:(discriminate) eq_refl eq_refl)
      as (date & t & Hdate & Hl & Hy & Hm & Hd & Hh & Hmi & Hs & Hn & _ & Hb).
    eexists _, t. split; [exact (Hb (docs golib.world1))|].
    split; [exact Hl|]. simpl in Hdate. injection Hdate as <-.
    by rewrite Hy, Hm, Hd, Hh, Hmi, Hs, Hn.
Defined.

Section nothing_staged.
Context `{!UnicodeCase, !time.Layouts}.

Lemma nonempty_false s : nonempty s = false ↔ s = "".
Proof. unfold nonempty. by rewrite negb_false_iff, String.eqb_eq. Qed.

(** Among the accepted requests, the ones that stage nothing are the ones
    that supply nothing: empty strings and a count that is not positive. *)
Lemma staged_fields_empty req today :
  first_failure req = None →
  staged_fields req today = ∅ ↔
    ur_Origin req = "" ∧ ur_Destination req = ""
    ∧ ur_DepartureDate req = "" ∧ ur_DepartureTime req = ""
    ∧ ur_FlightNumber req = "" ∧ ur_Passengers req ≤ 0
    ∧ ur_Status req = "".
Proof.
  intros Hff. split.
  - intros Hempty.
    assert (Hnone : ∀ f, staged_value req today f = None).
    { intros f. by rewrite <- staged_fields_field, Hempty, lookup_empty. }
    pose proof (no_failure_no_rejection req departure_date Hff) as Hrd.
    pose proof (no_failure_no_rejection req departure_time Hff) as Hrt.
    pose proof (Hnone origin) as Ho. pose proof (Hnone destination) as Hde.
    pose proof (Hnone departure_date) as Hdd.
    pose proof (Hnone departure_time) as Hdt.
    pose proof (Hnone flight_number) as Hfn.
    pose proof (Hnone passengers) as Hp. pose proof (Hnone status) as Hst.
    unfold staged_value in *. unfold rejection in *.
    destruct (nonempty (ur_Origin req)) eqn:E1; [done|].
    destruct (nonempty (ur_Destination req)) eqn:E2; [done|].
    destruct (nonempty (ur_FlightNumber req)) eqn:E5; [done|].
    destruct (nonempty (ur_Status req)) eqn:E7; [done|].
    destruct (0 <? ur_Passengers req) eqn:E6; [done|].
    destruct (nonempty (ur_DepartureDate req)) eqn:E3.
    { destruct (time.Parse_date (ur_DepartureDate req)); done. }
    destruct (nonempty (ur_DepartureTime req)) eqn:E4.
    { destruct (time.Parse_clock (ur_DepartureTime req)); done. }
    apply nonempty_false in E1, E2, E3, E4, E5, E7.
    apply Z.ltb_ge in E6. done.
  - intros (Ho & Hde & Hdd & Hdt & Hfn & Hp & Hst).
    apply Z.ltb_ge in Hp.
    unfold staged_fields, declaration_order. cbn [fold_left].
    unfold stage, staged_value. rewrite Ho, Hde, Hdd, Hdt, Hfn, Hst, Hp.
    reflexivity.
Qed.

End nothing_staged.

(** C5: the block of [passengers] never rejects and stages the count
    exactly when it is positive, so a count of zero or less is as good as
    absent.  A request that gets through staging with no field staged,
    which is one that supplies only empty strings and a count that is not
    positive, is answered 400 "No fields to update", and the world, the
    collection included, is as before. *)
Theorem C5_passengers_and_nothing_to_update `{!UnicodeCase, !time.Layouts}
    (confirmationID : string) (req : UpdateTicketRequest) (w : World) :
  (∀ updates w0,
     stage_passengers req updates w0 =
       (inr (if 0 <? ur_Passengers req
             then <["passengers" := VInt (ur_Passengers req)]> updates
             else updates), w0))
  ∧ ∀ updates w',
      build_updates req w = (inr updates, w') →
      updates !! "passengers" =
        (if 0 <? ur_Passengers req
         then Some (VInt (ur_Passengers req)) else None)
      ∧ (updates = ∅ ↔
           ur_Origin req = "" ∧ ur_Destination req = ""
           ∧ ur_DepartureDate req = "" ∧ ur_DepartureTime req = ""
           ∧ ur_FlightNumber req = "" ∧ ur_Passengers req ≤ 0
           ∧ ur_Status req = "")
      ∧ (updates = ∅ → confirmationID ≠ "" →
           UpdateTicket confirmationID (Some req) w =
             (mkResponse StatusBadRequest
                (ErrorJSON (mkErrorResponse "No fields to update" "")), w)).
Proof.
  split.
  { intros updates w0. unfold stage_passengers.
    by destruct (0 <? ur_Passengers req). }
  intros updates w' Hb.
  destruct (build_updates_inr req w updates w' Hb) as (Hff & -> & _).
  split; [apply (staged_fields_field req (today_UTC w) passengers)|].
  split; [by apply staged_fields_empty|].
  intros Hempty Hid.
  rewrite UpdateTicket_nothing by done. unfold bad. f_equal.
  apply (staged_fields_empty req (today_UTC w) Hff) in Hempty
    as (_ & _ & Hdd & Hdt & _).
  unfold staged_world, reads_clock. by rewrite Hdt.
Qed.

Lemma C5_witness :
  let empty := mkUpdateTicketRequest "" "" "" "" "" 0 "" in
  let negative := mkUpdateTicketRequest "" "" "" "" "" (-2) "" in
  let nothing :=
    mkResponse StatusBadRequest
      (ErrorJSON (mkErrorResponse "No fields to update" "")) in
  build_updates negative golib.world1 = (inr ∅, golib.world1)
  ∧ UpdateTicket "ABC123" (Some empty) golib.world1 = (nothing, golib.world1)
  ∧ UpdateTicket "ABC123" (Some negative) golib.world1
    = (nothing, golib.world1).
Proof.
  cbv zeta. split; [reflexivity|]. split.
  - refine (proj2 (proj2 (proj2
      (C5_passengers_and_nothing_to_update "ABC123"
         (mkUpdateTicketRequest "" "" "" "" "" 0 "") golib.world1)
      ∅ golib.world1 eq_refl)) eq_refl ltac:(discriminate)).
  - refine (proj2 (proj2 (proj2
      (C5_passengers_and_nothing_to_update "ABC123"
         (mkUpdateTicketRequest "" "" "" "" "" (-2) "") golib.world1)
      ∅ golib.world1 eq_refl)) eq_refl ltac:(discriminate)).
Defined.

(** ** Successful updates *)

Section successful_update.
Context `{!UnicodeCase, !time.Layouts}.

(** The handler answers 200 only after a write over an existing
    document. *)
Lemma UpdateTicket_ok_inv id req w :
  StatusCode (UpdateTicket id (Some req) w).1 = StatusOK →
  id ≠ "" ∧ first_failure req = None
  ∧ staged_fields req (today_UTC w) ≠ ∅
  ∧ ∃ d, docs w !! id = Some d.
Proof.
  intros Hok.
  destruct (decide (id = "")) as [->|Hid].
  { by rewrite UpdateTicket_no_id in Hok. }
  destruct (first_failure req) as [err|] eqn:Hff.
  { destruct (UpdateTicket_rejected id req w err Hid Hff) as (w' & Hu & _).
    by rewrite Hu in Hok. }
  destruct (decide (staged_fields req (today_UTC w) = ∅)) as [Hempty|Hne].
  { by rewrite UpdateTicket_nothing in Hok. }
  destruct (docs w !! id) as [d|] eqn:Hd.
  - eauto.
  - by rewrite UpdateTicket_missing in Hok.
Qed.

Lemma merged_written fields d k v :
  fields !! k = Some v → merged fields d !! k = Some v.
Proof. intros Hk. unfold merged. by apply lookup_union_Some_l. Qed.

Lemma merged_untouched fields d k :
  fields !! k = None → merged fields d !! k = d !! k.
Proof. intros Hk. unfold merged. by apply lookup_union_r. Qed.

End successful_update.

(** C8: a successful update writes the staged fields of the request and
    [updated_at], stamped with the clock reading of the write, over the
    stored document; every field the request does not stage, among them
    [confirmation_id] and [created_at], keeps its stored value, and every
    other document of the collection is as before.  A request that
    supplies a passenger count and nothing else writes that count and the
    stamp. *)
Theorem C8_update_writes_staged_fields_only `{!UnicodeCase, !time.Layouts}
    (confirmationID : string) (req : UpdateTicketRequest) (w : World) :
  StatusCode (UpdateTicket confirmationID (Some req) w).1 = StatusOK →
  let staged := staged_fields req (today_UTC w) in
  let now := (time_Now (env (if reads_clock req then after_clock_read w else w))).1 in
  let written := <["updated_at" := VTime now]> staged in
  let w' := (UpdateTicket confirmationID (Some req) w).2 in
  ∃ d d',
    docs w !! confirmationID = Some d
    ∧ (build_updates req w).1 = inr staged
    ∧ docs w' = <[confirmationID := d']> (docs w)
    ∧ d' = written ∪ d
    ∧ (∀ f, staged !! field_name f = staged_value req (today_UTC w) f)
    ∧ (∀ k, (∀ f, k ≠ field_name f) → staged !! k = None)
    ∧ d' !! "updated_at" = Some (VTime now)
    ∧ (∀ f v, staged_value req (today_UTC w) f = Some v →
              d' !! field_name f = Some v)
    ∧ (∀ f, staged_value req (today_UTC w) f = None →
            d' !! field_name f = d !! field_name f)
    ∧ (∀ k, k ≠ "updated_at" → (∀ f, k ≠ field_name f) → d' !! k = d !! k)
    ∧ d' !! "confirmation_id" = d !! "confirmation_id"
    ∧ d' !! "created_at" = d !! "created_at"
    ∧ (∀ id, id ≠ confirmationID → docs w' !! id = docs w !! id)
    ∧ (ur_Origin req = "" ∧ ur_Destination req = ""
       ∧ ur_DepartureDate req = "" ∧ ur_DepartureTime req = ""
       ∧ ur_FlightNumber req = "" ∧ ur_Status req = "" →
       0 < ur_Passengers req
       ∧ written = <["updated_at" := VTime now]>
                     {[ "passengers" := VInt (ur_Passengers req) ]}).
Proof.
  intros Hok staged now written w'.
  destruct (UpdateTicket_ok_inv _ _ _ Hok) as (Hid & Hff & Hne & d & Hd).
  pose proof (UpdateTicket_written confirmationID req w d Hid Hff Hne Hd) as Hu.
  cbv zeta in Hu.
  assert (Hfield : ∀ f, staged !! field_name f = staged_value req (today_UTC w) f)
    by apply staged_fields_field.
  assert (Hother : ∀ k, (∀ f, k ≠ field_name f) → staged !! k = None)
    by apply staged_fields_other.
  assert (Hstamp : ∀ f, "updated_at" ≠ field_name f) by (by intros []).
  exists d, (written ∪ d). subst written.
  split; [done|]. split; [by rewrite build_updates_accepts|].
  split; [by subst w'; rewrite Hu|]. split; [done|].
  split; [done|]. split; [done|].
  split. { apply merged_written. apply lookup_insert_eq. }
  split.
  { intros f v Hv. apply merged_written.
    rewrite lookup_insert_ne by apply Hstamp. by rewrite Hfield. }
  split.
  { intros f Hv. apply merged_untouched.
    rewrite lookup_insert_ne by apply Hstamp. by rewrite Hfield. }
  assert (Hframe : ∀ k, k ≠ "updated_at" → (∀ f, k ≠ field_name f) →
                        (<["updated_at" := VTime now]> staged ∪ d) !! k = d !! k).
  { intros k Hk Hf. apply merged_untouched.
    rewrite lookup_insert_ne by done. by apply Hother. }
  split; [done|].
  split. { apply Hframe; [done|by intros []]. }
  split. { apply Hframe; [done|by intros []]. }
  split.
  { intros id Hne'. subst w'. rewrite Hu. cbn [snd docs].
    by rewrite lookup_insert_ne. }
  intros (Ho & Hde & Hdd & Hdt & Hfn & Hst).
  assert (Hstaged : staged = if 0 <? ur_Passengers req
                             then {[ "passengers" := VInt (ur_Passengers req) ]}
                             else ∅).
  { subst staged. unfold staged_fields, declaration_order. cbn [fold_left].
    unfold stage, staged_value. rewrite Ho, Hde, Hdd, Hdt, Hfn, Hst.
    cbn [nonempty String.eqb negb field_name].
    destruct (0 <? ur_Passengers req); [|done]. by rewrite insert_empty. }
  destruct (0 <? ur_Passengers req) eqn:Hp; [|done].
  split; [by apply Z.ltb_lt|]. by rewrite Hstaged.
Qed.

Lemma C8_witness :
  let req := mkUpdateTicketRequest "" "" "" "" "" 3 "" in
  let w := golib.world1 in
  let now := (time_Now (env w)).1 in
  StatusCode (UpdateTicket "ABC123" (Some req) w).1 = StatusOK
  ∧ staged_fields req (today_UTC w) = {[ "passengers" := VInt 3 ]}
  ∧ ∃ d, docs w !! "ABC123" = Some d
         ∧ docs (UpdateTicket "ABC123" (Some req) w).2 !! "ABC123"
           = Some (<["updated_at" := VTime now]> {[ "passengers" := VInt 3 ]} ∪ d).
Proof.
  cbv zeta.
  assert (Hok : StatusCode
            (UpdateTicket "ABC123" (Some (mkUpdateTicketRequest "" "" "" "" "" 3 ""))
               golib.world1).1 = StatusOK)
    by (vm_compute; reflexivity).
  split; [exact Hok|]. split; [vm_compute; reflexivity|].
  destruct (C8_update_writes_staged_fields_only _ _ _ Hok)
    as (d & d' & Hd & _ & Hdocs & Hd' & _).
  exists d. split; [exact Hd|].
  rewrite Hdocs, lookup_insert_eq, Hd'. reflexivity.
Defined.

(** ** Cancellation *)

Lemma cancel_fields_stamped (t : time.Time) (w : World) :
  stamped (<["status" := VString "CANCELLED"]> (<["updated_at" := VTime t]> ∅)) w
  = stamped {[ "status" := VString "CANCELLED" ]} w.
Proof.
  rewrite (insert_insert_ne _ "status" "updated_at") by done.
  rewrite stamped_overwrites. by rewrite insert_empty.
Qed.

(** [services.DeleteTicket] is [services.UpdateTicket] on the status alone,
    a clock reading later. *)
Lemma service_delete_as_update id w :
  services.DeleteTicket id w =
    services.UpdateTicket id
      (<["status" := VString "CANCELLED"]>
         (<["updated_at" := VTime (time_Now (env w)).1]> ∅))
      (after_clock_read w).
Proof.
  unfold services.DeleteTicket, after_clock_read.
  by destruct (time_Now (env w)).
Qed.

Lemma service_delete_existing id w d :
  docs w !! id = Some d →
  services.DeleteTicket id w =
    (None,
     mkWorld (time_Now (env (after_clock_read w))).2
       (<[id := merged (stamped {[ "status" := VString "CANCELLED" ]}
                          (after_clock_read w)) d]> (docs w))).
Proof.
  intros Hd. rewrite service_delete_as_update.
  rewrite (service_update_existing _ _ _ d) by done.
  by rewrite cancel_fields_stamped.
Qed.

Lemma DataTo_status d ticket :
  DataTo d = Some ticket → string_field d "status" = Some (Status ticket).
Proof.
  unfold DataTo. intros Hd.
  repeat match type of Hd with
         | context [mbind _ ?x] => destruct x; simpl in Hd; [|discriminate]
         end.
  by injection Hd as <-.
Qed.

Section cancellation.
Context `{!UnicodeCase, !time.Layouts}.

Lemma cancel_request_accepted : first_failure cancel_request = None.
Proof. reflexivity. Qed.

Lemma cancel_request_staged today :
  staged_fields cancel_request today = {[ "status" := VString "CANCELLED" ]}.
Proof. unfold staged_fields. cbn. by rewrite insert_empty. Qed.

Lemma DeleteTicket_existing id w d :
  id ≠ "" → docs w !! id = Some d →
  DeleteTicket id w =
    (mkResponse StatusOK
       (SuccessJSON (mkSuccessResponse "Ticket cancelled successfully" id)),
     mkWorld (time_Now (env (after_clock_read w))).2
       (<[id := merged (stamped {[ "status" := VString "CANCELLED" ]}
                          (after_clock_read w)) d]> (docs w))).
Proof.
  intros Hid Hd. apply String.eqb_neq in Hid.
  unfold DeleteTicket, serve. rewrite Hid.
  unfold mbind, handler_bind, call.
  by rewrite (service_delete_existing _ _ d).
Qed.

Lemma cancelled_status (t : Value) (d : gmap string Value) :
  (<["updated_at" := t]> {[ "status" := VString "CANCELLED" ]} ∪ d)
    !! "status" = Some (VString "CANCELLED").
Proof.
  apply lookup_union_Some_l. rewrite lookup_insert_ne by done.
  apply lookup_singleton_eq.
Qed.

End cancellation.

(** C7: cancelling an existing ticket writes what the update path writes
    for a request that stages the status CANCELLED and nothing else: the
    status and the stamp [updated_at], over the stored document.  Cancelling
    twice succeeds twice and the stored status is CANCELLED. *)
Theorem C7_cancel_is_status_update `{!UnicodeCase, !time.Layouts}
    (confirmationID : string) (w : World) (d : gmap string Value) :
  confirmationID ≠ "" →
  docs w !! confirmationID = Some d →
  let cancelled (t : time.Time) (d0 : gmap string Value) :=
    <["updated_at" := VTime t]> {[ "status" := VString "CANCELLED" ]} ∪ d0 in
  let success :=
    mkResponse StatusOK
      (SuccessJSON (mkSuccessResponse "Ticket cancelled successfully"
                                      confirmationID)) in
  let first := DeleteTicket confirmationID w in
  let second := DeleteTicket confirmationID first.2 in
  build_updates cancel_request w
    = (inr {[ "status" := VString "CANCELLED" ]}, w)
  ∧ docs first.2
    = docs (UpdateTicket confirmationID (Some cancel_request)
              (after_clock_read w)).2
  ∧ docs (UpdateTicket confirmationID (Some cancel_request) w).2
    = <[confirmationID := cancelled (time_Now (env w)).1 d]> (docs w)
  ∧ docs first.2
    = <[confirmationID :=
          cancelled (time_Now (env (after_clock_read w))).1 d]> (docs w)
  ∧ first.1 = success
  ∧ second.1 = success
  ∧ (docs first.2 !! confirmationID) ≫= (.!! "status")
    = Some (VString "CANCELLED")
  ∧ (docs second.2 !! confirmationID) ≫= (.!! "status")
    = Some (VString "CANCELLED")
  ∧ (∀ ticket, (services.GetTicket confirmationID second.2).1 = inr ticket →
               Status ticket = "CANCELLED").
Proof.
  intros Hid Hd cancelled success first second.
  assert (Hne : staged_fields cancel_request (today_UTC w) ≠ ∅).
  { rewrite cancel_request_staged. apply insert_non_empty. }
  assert (Hupd : ∀ w0, docs w0 !! confirmationID = Some d →
    docs (UpdateTicket confirmationID (Some cancel_request) w0).2
    = <[confirmationID := cancelled (time_Now (env w0)).1 d]> (docs w0)).
  { intros w0 Hd0.
    rewrite (UpdateTicket_written confirmationID cancel_request w0 d Hid
               cancel_request_accepted); [|by rewrite cancel_request_staged;
                                            apply insert_non_empty|done].
    cbn [snd docs]. by rewrite cancel_request_staged. }
  assert (Hfirst : first =
    (success,
     mkWorld (time_Now (env (after_clock_read w))).2
       (<[confirmationID :=
            cancelled (time_Now (env (after_clock_read w))).1 d]> (docs w)))).
  { subst first. by rewrite (DeleteTicket_existing _ _ d). }
  pose (d1 := cancelled (time_Now (env (after_clock_read w))).1 d).
  assert (Hd1 : docs first.2 !! confirmationID = Some d1).
  { rewrite Hfirst. cbn [snd docs]. by rewrite lookup_insert_eq. }
  assert (Hsecond : second =
    (success,
     mkWorld (time_Now (env (after_clock_read first.2))).2
       (<[confirmationID :=
            cancelled (time_Now (env (after_clock_read first.2))).1 d1]>
          (docs first.2)))).
  { subst second. by rewrite (DeleteTicket_existing _ _ d1). }
  split.
  { rewrite (build_updates_accepts _ _ cancel_request_accepted).
    by rewrite cancel_request_staged. }
  split.
  { rewrite Hupd by done. by rewrite Hfirst. }
  split; [by apply Hupd|].
  split; [by rewrite Hfirst|].
  split; [by rewrite Hfirst|].
  split; [by rewrite Hsecond|].
  split.
  { rewrite Hd1. cbn [mbind option_bind]. apply cancelled_status. }
  assert (Hd2 : docs second.2 !! confirmationID
                = Some (cancelled (time_Now (env (after_clock_read first.2))).1 d1)).
  { rewrite Hsecond. cbn [snd docs]. by rewrite lookup_insert_eq. }
  split.
  { rewrite Hd2. cbn [mbind option_bind]. apply cancelled_status. }
  intros ticket Hget. unfold services.GetTicket in Hget. rewrite Hd2 in Hget.
  destruct (DataTo _) as [t|] eqn:Hdata; [|done].
  injection Hget as <-. apply DataTo_status in Hdata.
  unfold string_field in Hdata. subst cancelled. cbv beta in Hdata.
  rewrite cancelled_status in Hdata. by injection Hdata as <-.
Qed.

Lemma C7_witness :
  let w := golib.world1 in
  let once := DeleteTicket "ABC123" w in
  let twice := DeleteTicket "ABC123" once.2 in
  is_Some (docs w !! "ABC123")
  ∧ StatusCode once.1 = StatusOK
  ∧ StatusCode twice.1 = StatusOK
  ∧ (docs twice.2 !! "ABC123") ≫= (.!! "status") = Some (VString "CANCELLED")
  ∧ docs once.2
    = docs (UpdateTicket "ABC123" (Some cancel_request) (after_clock_read w)).2.
Proof.
  cbv zeta.
  assert (Hd : docs golib.world1 !! "ABC123" = Some (to_doc golib.ticket1))
    by apply lookup_singleton_eq.
  split; [by eexists|].
  destruct (C7_cancel_is_status_update "ABC123" _ _ ltac:(discriminate) Hd)
    as (_ & Heq & _ & _ & H1 & H2 & _ & Hst & _).
  split; [exact (f_equal StatusCode H1)|].
  split; [exact (f_equal StatusCode H2)|].
  split; [exact Hst|exact Heq].
Defined.

(** ** Creation *)

Section creation.
Context `{!UnicodeCase, !time.Layouts}.

Lemma missing_required_false req :
  missing_required req = false →
  cr_Origin req ≠ "" ∧ cr_Destination req ≠ "" ∧ cr_DepartureDate req ≠ ""
  ∧ cr_DepartureTime req ≠ "" ∧ 0 < cr_Passengers req.
Proof.
  unfold missing_required.
  rewrite !orb_false_iff, !String.eqb_neq, Z.leb_gt. tauto.
Qed.


Lemma CreateTicket_missing req Set_err w :
  missing_required req = true →
  CreateTicket (Some req) Set_err w =
    (bad "Missing required fields"
       "origin, destination, departure_date, departure_time, and passengers are required",
     w).
Proof.
  intros Hm. unfold CreateTicket, serve. fold (missing_required req).
  by rewrite Hm.
Qed.

Lemma NewFlightTicket_invalid o d dd dt fn p e :
  ValidateAirportCode o = false ∨ ValidateAirportCode d = false →
  NewFlightTicket o d dd dt fn p e = (None, (time_Now e).2).
Proof.
  intros Hv. unfold NewFlightTicket. destruct (time_Now e) as [now e1].
  by destruct Hv as [-> | ->]; [|rewrite orb_true_r].
Qed.

End creation.

(** C6: a create request with an empty origin, destination, date or time,
    with a passenger count that is not positive, with a date or time that
    does not parse, or with an invalid airport code is answered 400.  The
    collection and the random source are as before: either nothing ran, or
    [NewFlightTicket] read the clock and returned [nil].  The request
    does not reach the write, so this holds whatever the client would
    have answered to it. *)
Theorem C6_create_rejects_before_write `{!UnicodeCase, !time.Layouts}
    (req : CreateTicketRequest) (Set_err : option error) (w : World) :
  cr_Origin req = "" ∨ cr_Destination req = "" ∨ cr_DepartureDate req = ""
  ∨ cr_DepartureTime req = "" ∨ cr_Passengers req ≤ 0
  ∨ time.Parse_date (cr_DepartureDate req) = None
  ∨ time.Parse_clock (cr_DepartureTime req) = None
  ∨ ValidateAirportCode (cr_Origin req) = false
  ∨ ValidateAirportCode (cr_Destination req) = false →
  let r := CreateTicket (Some req) Set_err w in
  StatusCode r.1 = StatusBadRequest
  ∧ (∃ e, Payload r.1 = ErrorJSON e)
  ∧ docs r.2 = docs w
  ∧ rand_pos (env r.2) = rand_pos (env w)
  ∧ (r.2 = w
     ∨ r.2 = after_clock_read w
       ∧ ∀ dDate dTime,
           (NewFlightTicket (cr_Origin req) (cr_Destination req) dDate dTime
              (cr_FlightNumber req) (cr_Passengers req) (env w)).1 = None)
  ∧ (cr_Passengers req ≤ 0 → r.2 = w).
Proof.
  intros Hbad r.
  destruct (missing_required req) eqn:Hm.
  { subst r. rewrite CreateTicket_missing by done. cbn [fst snd].
    repeat split; eauto. }
  pose proof (missing_required_false req Hm) as (Ho & Hd & Hdd & Hdt & Hp).
  assert (Hrest :
    time.Parse_date (cr_DepartureDate req) = None
    ∨ time.Parse_clock (cr_DepartureTime req) = None
    ∨ ValidateAirportCode (cr_Origin req) = false
    ∨ ValidateAirportCode (cr_Destination req) = false).
  { destruct Hbad as [?|[?|[?|[?|[?|Hrest]]]]]; (done || lia || exact Hrest). }
  subst r. unfold CreateTicket, serve. fold (missing_required req). rewrite Hm.
  destruct (time.Parse_date (cr_DepartureDate req)) as [departureDate|] eqn:Hpd.
  2: { cbn. repeat split; eauto; lia. }
  destruct (time.Parse_clock (cr_DepartureTime req)) as [timeOnly|] eqn:Hpc.
  2: { cbn. repeat split; eauto; lia. }
  assert (Hv : ValidateAirportCode (cr_Origin req) = false
               ∨ ValidateAirportCode (cr_Destination req) = false).
  { destruct Hrest as [?|[?|Hv]]; (done || exact Hv). }
  unfold mbind, handler_bind, new_ticket.
  rewrite (NewFlightTicket_invalid _ _ _ _ _ _ _ Hv). cbn [fst snd].
  split; [done|]. split; [eauto|]. split; [done|]. split; [done|].
  split; [|lia]. right. split; [done|].
  intros dDate dTime. by rewrite (NewFlightTicket_invalid _ _ _ _ _ _ _ Hv).
Qed.

Lemma C6_witness :
  let zero := mkCreateTicketRequest "JFK" "LAX" "2024-12-25" "14:30" "" 0 in
  let lower := mkCreateTicketRequest "jfk" "LAX" "2024-12-25" "14:30" "" 2 in
  (StatusCode (CreateTicket (Some zero) None golib.world1).1
   = StatusBadRequest
   ∧ (CreateTicket (Some zero) None golib.world1).2 = golib.world1)
  ∧ (StatusCode (CreateTicket (Some lower) None golib.world1).1
     = StatusBadRequest
     ∧ docs (CreateTicket (Some lower) None golib.world1).2
       = docs golib.world1).
Proof.
  cbv zeta. split.
  - destruct (C6_create_rejects_before_write
                (mkCreateTicketRequest "JFK" "LAX" "2024-12-25" "14:30" "" 0)
                None golib.world1) as (Hcode & _ & _ & _ & _ & Hw).
    + do 4 right. left. simpl. lia.
    + split; [exact Hcode|]. apply Hw. simpl. lia.
  - destruct (C6_create_rejects_before_write
                (mkCreateTicketRequest "jfk" "LAX" "2024-12-25" "14:30" "" 2)
                None golib.world1) as (Hcode & _ & Hdocs & _).
    + do 7 right. left. reflexivity.
    + split; [exact Hcode|exact Hdocs].
Defined.


(** * Further properties *)

Import lifecycle.

(** ** The generators *)

(** The [i]-th draw from an environment, reduced to the charset. *)
Lemma fill_from_charset_env n e :
  rand_pos (fill_from_charset n e).2 = (rand_pos e + n)%nat
  ∧ rand_src (fill_from_charset n e).2 = rand_src e
  ∧ clock_pos (fill_from_charset n e).2 = clock_pos e
  ∧ wall_clock (fill_from_charset n e).2 = wall_clock e.
Proof.
  revert e. induction n as [|n IH]; intros e.
  - cbn. repeat split; lia.
  - cbn [fill_from_charset].
    destruct (rand_Intn (Z.of_nat (String.length charset)) e) as [k e1] eqn:Hk.
    specialize (IH e1).
    destruct (fill_from_charset n e1) as [rest e2]. cbn [snd] in *.
    unfold rand_Intn in Hk. injection Hk as _ <-. cbn in IH.
    destruct IH as (-> & -> & -> & ->). repeat split; lia.
Qed.

Lemma fill_from_charset_get n e i :
  (i < n)%nat →
  String.get i (fill_from_charset n e).1
  = Some (byte_at charset (rand_src e (rand_pos e + i)%nat `mod` 36)).
Proof.
  revert e i. induction n as [|n IH]; intros e i Hi; [lia|].
  cbn [fill_from_charset].
  destruct (rand_Intn (Z.of_nat (String.length charset)) e) as [k e1] eqn:Hk.
  specialize (IH e1).
  destruct (fill_from_charset n e1) as [rest e2]. cbn [fst] in *.
  unfold rand_Intn in Hk. injection Hk as <- <-.
  destruct i as [|i]; cbn [String.get].
  - by rewrite Nat.add_0_r.
  - rewrite IH by lia. cbn [rand_src rand_pos].
    by replace (S (rand_pos e) + i)%nat with (rand_pos e + S i)%nat by lia.
Qed.

(** X1: a confirmation id is six characters of [A-Z0-9], the [i]-th one
    picked from the charset by the [i]-th draw; generating it takes six
    draws from the random source and leaves the clock alone. *)
Theorem confirmation_id_shape (e : Env) :
  let r := GenerateConfirmationID e in
  String.length r.1 = 6%nat
  ∧ all_bytes is_upper_alnum r.1 = true
  ∧ (∀ i, (i < 6)%nat →
       String.get i r.1
       = Some (byte_at charset (rand_src e (rand_pos e + i)%nat `mod` 36)))
  ∧ rand_pos r.2 = (rand_pos e + 6)%nat
  ∧ rand_src r.2 = rand_src e
  ∧ clock_pos r.2 = clock_pos e
  ∧ wall_clock r.2 = wall_clock e.
Proof.
  cbv zeta. unfold GenerateConfirmationID.
  destruct (fill_from_charset_spec 6 e) as [Hlen Hall].
  destruct (fill_from_charset_env 6 e) as (Hp & Hs & Hc & Hw).
  split; [done|]. split; [done|]. split; [|done].
  intros i Hi. by apply fill_from_charset_get.
Qed.

(** The charset has no repeated character. *)
Lemma charset_injective i j :
  0 ≤ i < 36 → 0 ≤ j < 36 →
  byte_at charset i = byte_at charset j → i = j.
Proof.
  intros Hi Hj.
  pose (ok := λ a b : nat,
    bool_decide (byte_at charset (Z.of_nat a) = byte_at charset (Z.of_nat b)
                 → a = b)).
  assert (Hall : forallb (λ a, forallb (ok a) (seq 0 36)) (seq 0 36) = true)
    by (vm_compute; reflexivity).
  rewrite forallb_forall in Hall.
  specialize (Hall (Z.to_nat i) ltac:(apply in_seq; lia)).
  rewrite forallb_forall in Hall.
  specialize (Hall (Z.to_nat j) ltac:(apply in_seq; lia)).
  unfold ok in Hall. apply bool_decide_eq_true in Hall.
  rewrite !Z2Nat.id in Hall by lia. intros Heq. apply Hall in Heq. lia.
Qed.

Lemma fill_from_charset_eq n e1 e2 :
  (fill_from_charset n e1).1 = (fill_from_charset n e2).1 ↔
  ∀ i, (i < n)%nat →
    rand_src e1 (rand_pos e1 + i)%nat `mod` 36
    = rand_src e2 (rand_pos e2 + i)%nat `mod` 36.
Proof.
  split.
  - intros Heq i Hi.
    pose proof (fill_from_charset_get n e1 i Hi) as H1.
    pose proof (fill_from_charset_get n e2 i Hi) as H2.
    rewrite Heq, H2 in H1. injection H1 as H1.
    symmetry. apply charset_injective; [by apply Z.mod_pos_bound..|done].
  - intros Hdraws. apply String.get_correct. intros i.
    destruct (decide (i < n)%nat) as [Hi|Hi].
    + rewrite !fill_from_charset_get by done. by rewrite Hdraws.
    + pose proof (fill_from_charset_spec n e1) as [Hl1 _].
      pose proof (fill_from_charset_spec n e2) as [Hl2 _].
      assert (Hnone : ∀ s, (String.length s ≤ i)%nat → String.get i s = None).
      { clear. intros s. revert i. induction s as [|c s IH]; intros i Hi.
        - by destruct i.
        - destruct i as [|i]; simpl in *; [lia|]. apply IH. lia. }
      rewrite !Hnone by lia. done.
Qed.

(** X2: two ids generated one after the other are the same exactly when
    the second six draws repeat the first six modulo 36: nothing in the
    generator keeps ids apart. *)
Theorem confirmation_id_repeats (e : Env) :
  let first := GenerateConfirmationID e in
  let second := GenerateConfirmationID first.2 in
  first.1 = second.1 ↔
  ∀ i, (i < 6)%nat →
    rand_src e (rand_pos e + i)%nat `mod` 36
    = rand_src e (rand_pos e + 6 + i)%nat `mod` 36.
Proof.
  cbv zeta. unfold GenerateConfirmationID.
  rewrite fill_from_charset_eq.
  destruct (fill_from_charset_env 6 e) as (-> & -> & _). done.
Qed.

(** ** The validator and the constructor *)

(** X3: on an ASCII string the validator accepts exactly three bytes with
    no lower-case letter among them; one lower-case letter anywhere makes
    a code of three letters invalid. *)
Theorem validator_on_ascii `{!UnicodeCase} (code : string) :
  isASCII code = true →
  (ValidateAirportCode code = true ↔
     String.length code = 3%nat ∧ hasLower code = false)
  ∧ (hasLower code = true → ValidateAirportCode code = false).
Proof.
  intros Ha. pose proof (ValidateAirportCode_ascii code Ha) as Hiff.
  split; [exact Hiff|].
  intros Hl. destruct (ValidateAirportCode code) eqn:Hv; [|done].
  destruct (proj1 Hiff eq_refl) as [_ Hno]. congruence.
Qed.

Lemma validator_on_ascii_witness :
  isASCII "JfK" = true ∧ hasLower "JfK" = true
  ∧ ValidateAirportCode "JfK" = false.
Proof.
  split; [reflexivity|]. split; [reflexivity|].
  exact (proj2 (validator_on_ascii "JfK" eq_refl) eq_refl).
Defined.

Section constructor.
Context `{!UnicodeCase}.

Lemma validated_is_upper code :
  ValidateAirportCode code = true → ToUpper code = code.
Proof. by intros [_ ?]%ValidateAirportCode_spec. Qed.

(** [NewFlightTicket] on codes that pass the validator. *)
Lemma NewFlightTicket_valid o d dd dt fn p e :
  ValidateAirportCode o = true → ValidateAirportCode d = true →
  NewFlightTicket o d dd dt fn p e =
    let e1 := (time_Now e).2 in
    let gen := if String.eqb fn "" then GenerateFlightNumber "AA" e1
               else (fn, e1) in
    let id := GenerateConfirmationID gen.2 in
    (Some {| ConfirmationID := id.1; Origin := o; Destination := d;
             DepartureDate := dd; DepartureTime := dt;
             FlightNumber := ToUpper gen.1; Passengers := p;
             CreatedAt := (time_Now e).1; UpdatedAt := (time_Now e).1;
             Status := "CONFIRMED" |}, id.2).
Proof.
  intros Ho Hd. unfold NewFlightTicket. cbv zeta.
  destruct (time_Now e) as [now e1]. rewrite Ho, Hd. cbn [negb orb fst snd].
  rewrite (validated_is_upper o Ho), (validated_is_upper d Hd).
  destruct (if String.eqb fn "" then GenerateFlightNumber "AA" e1 else (fn, e1))
    as [fn' e2].
  cbn [fst snd]. by destruct (GenerateConfirmationID e2) as [id e3].
Qed.

Lemma new_ticket_id o d dd dt fn p e t :
  (NewFlightTicket o d dd dt fn p e).1 = Some t →
  String.length (ConfirmationID t) = 6%nat
  ∧ all_bytes is_upper_alnum (ConfirmationID t) = true.
Proof.
  intros Hnew.
  destruct (ValidateAirportCode o) eqn:Ho;
    [destruct (ValidateAirportCode d) eqn:Hd|];
    [|rewrite NewFlightTicket_invalid in Hnew by auto; discriminate..].
  rewrite NewFlightTicket_valid in Hnew by done. cbv zeta in Hnew.
  match type of Hnew with
  | context [GenerateConfirmationID ?e2] =>
      pose proof (fill_from_charset_spec 6 e2) as Hs;
      change (fill_from_charset 6 e2) with (GenerateConfirmationID e2) in Hs;
      destruct (GenerateConfirmationID e2) as [id e3]
  end.
  by injection Hnew as <-.
Qed.

Lemma new_ticket_fields o d dd dt fn p e t :
  (NewFlightTicket o d dd dt fn p e).1 = Some t →
  Origin t = o ∧ Destination t = d
  ∧ ValidateAirportCode o = true ∧ ValidateAirportCode d = true
  ∧ Passengers t = p ∧ Status t = "CONFIRMED".
Proof.
  intros Hnew.
  destruct (ValidateAirportCode o) eqn:Ho;
    [destruct (ValidateAirportCode d) eqn:Hd|];
    [|rewrite NewFlightTicket_invalid in Hnew by auto; discriminate..].
  rewrite NewFlightTicket_valid in Hnew by done. cbv zeta in Hnew.
  cbn [fst] in Hnew. by injection Hnew as <-.
Qed.

End constructor.

(** X4: a ticket that [NewFlightTicket] returns carries the origin and the
    destination exactly as they were given, the upper-casing in the
    constructor changing nothing on a validated code, and both pass the
    validator again. *)
Theorem new_ticket_keeps_codes `{!UnicodeCase}
    (origin destination : string) (departureDate departureTime : time.Time)
    (flightNumber : string) (passengers : Z) (e : Env) (t : FlightTicket) :
  (NewFlightTicket origin destination departureDate departureTime
     flightNumber passengers e).1 = Some t →
  Origin t = origin
  ∧ Destination t = destination
  ∧ ValidateAirportCode (Origin t) = true
  ∧ ValidateAirportCode (Destination t) = true.
Proof.
  intros Hnew.
  destruct (ValidateAirportCode origin) eqn:Ho;
    [destruct (ValidateAirportCode destination) eqn:Hd|].
  - rewrite NewFlightTicket_valid in Hnew by done. cbv zeta in Hnew.
    cbn [fst] in Hnew. injection Hnew as <-. done.
  - rewrite NewFlightTicket_invalid in Hnew by auto. discriminate.
  - rewrite NewFlightTicket_invalid in Hnew by auto. discriminate.
Qed.

Lemma new_ticket_keeps_codes_witness :
  ∃ t, (NewFlightTicket "K1M" "LAX" time.zero time.zero "ua77" 1 golib.env0).1
       = Some t
       ∧ Origin t = "K1M" ∧ Destination t = "LAX".
Proof.
  destruct (NewFlightTicket "K1M" "LAX" time.zero time.zero "ua77" 1
              golib.env0).1 as [t|] eqn:Hnew;
    [|vm_compute in Hnew; discriminate Hnew].
  exists t. split; [reflexivity|].
  destruct (new_ticket_keeps_codes _ _ _ _ _ _ _ _ Hnew) as (Ho & Hd & _).
  split; [exact Ho|exact Hd].
Defined.

(** X5: [NewFlightTicket] reads the clock once, whatever it returns; it
    draws nothing from the random source when it returns [nil], six times
    when it is given a flight number and seven times when it has to
    generate one. *)
Theorem new_ticket_effects `{!UnicodeCase}
    (origin destination : string) (departureDate departureTime : time.Time)
    (flightNumber : string) (passengers : Z) (e : Env) :
  let r := NewFlightTicket origin destination departureDate departureTime
             flightNumber passengers e in
  clock_pos r.2 = S (clock_pos e)
  ∧ wall_clock r.2 = wall_clock e
  ∧ rand_src r.2 = rand_src e
  ∧ rand_pos r.2 =
      (rand_pos e +
       match r.1 with
       | None => 0
       | Some _ => if String.eqb flightNumber "" then 7 else 6
       end)%nat.
Proof.
  cbv zeta.
  destruct (ValidateAirportCode origin) eqn:Ho;
    [destruct (ValidateAirportCode destination) eqn:Hd|].
  - rewrite NewFlightTicket_valid by done. cbv zeta. cbn [fst snd].
    destruct (String.eqb flightNumber "").
    + destruct (GenerateFlightNumber_eq "AA" (time_Now e).2) as [_ Hg].
      destruct (fill_from_charset_env 6 (GenerateFlightNumber "AA" (time_Now e).2).2)
        as (Hp & Hs & Hc & Hw).
      unfold GenerateConfirmationID.
      rewrite Hp, Hs, Hc, Hw, Hg. cbn. repeat split; lia.
    + destruct (fill_from_charset_env 6 (time_Now e).2) as (Hp & Hs & Hc & Hw).
      unfold GenerateConfirmationID. cbn [snd].
      rewrite Hp, Hs, Hc, Hw. cbn. repeat split; lia.
  - rewrite NewFlightTicket_invalid by auto. cbn. repeat split; lia.
  - rewrite NewFlightTicket_invalid by auto. cbn. repeat split; lia.
Qed.
(** ** Creating and reading *)

(** Decoding what [Set] stored gives the ticket back. *)
Lemma DataTo_to_doc t : DataTo (to_doc t) = Some t.
Proof. by destruct t. Qed.

Section create_and_get.
Context `{!UnicodeCase, !time.Layouts}.

(** [CreateTicket], branch by branch. *)
Lemma CreateTicket_cases req Set_err w :
  CreateTicket (Some req) Set_err w =
    if missing_required req
    then (bad "Missing required fields"
            "origin, destination, departure_date, departure_time, and passengers are required",
          w)
    else
      match time.Parse_date (cr_DepartureDate req) with
      | None => (bad "Invalid departure_date format" "Use YYYY-MM-DD format", w)
      | Some departureDate =>
          match time.Parse_clock (cr_DepartureTime req) with
          | None => (bad "Invalid departure_time format" "Use HH:MM format", w)
          | Some timeOnly =>
              let r := NewFlightTicket (cr_Origin req) (cr_Destination req)
                         departureDate (combine departureDate timeOnly)
                         (cr_FlightNumber req) (cr_Passengers req) (env w) in
              match r.1 with
              | None => (bad "Invalid airport codes" "Use 3-letter IATA codes",
                         mkWorld r.2 (docs w))
              | Some ticket =>
                  match Set_err with
                  | Some _ =>
                      (failed "Failed to create ticket", mkWorld r.2 (docs w))
                  | None =>
                      (mkResponse StatusCreated (TicketJSON ticket),
                       mkWorld r.2
                         (<[ConfirmationID ticket := to_doc ticket]> (docs w)))
                  end
              end
          end
      end.
Proof.
  unfold CreateTicket, serve.
  destruct (missing_required req); [done|].
  destruct (time.Parse_date (cr_DepartureDate req)) as [dd|]; [|done].
  destruct (time.Parse_clock (cr_DepartureTime req)) as [tt|]; [|done].
  unfold mbind, handler_bind, new_ticket. cbv zeta.
  destruct (NewFlightTicket _ _ _ _ _ _ _) as [[t|] e1]; [|done].
  by destruct Set_err.
Qed.

Lemma missing_required_true req :
  missing_required req = true →
  cr_Origin req = "" ∨ cr_Destination req = "" ∨ cr_DepartureDate req = ""
  ∨ cr_DepartureTime req = "" ∨ cr_Passengers req ≤ 0.
Proof.
  unfold missing_required.
  rewrite !orb_true_iff, !String.eqb_eq, Z.leb_le. tauto.
Qed.

(** The two ways [CreateTicket] goes: the request is turned down with a
    400 before the write, or it reaches the write and the client's answer
    decides between 500 and 201. *)
Lemma CreateTicket_outcome req Set_err w :
  (StatusCode (CreateTicket (Some req) Set_err w).1 = StatusBadRequest
   ∧ docs (CreateTicket (Some req) Set_err w).2 = docs w
   ∧ (missing_required req = true
      ∨ time.Parse_date (cr_DepartureDate req) = None
      ∨ time.Parse_clock (cr_DepartureTime req) = None
      ∨ ValidateAirportCode (cr_Origin req) = false
      ∨ ValidateAirportCode (cr_Destination req) = false))
  ∨ (missing_required req = false
     ∧ ValidateAirportCode (cr_Origin req) = true
     ∧ ValidateAirportCode (cr_Destination req) = true
     ∧ ∃ dd tt t,
         time.Parse_date (cr_DepartureDate req) = Some dd
         ∧ time.Parse_clock (cr_DepartureTime req) = Some tt
         ∧ (NewFlightTicket (cr_Origin req) (cr_Destination req) dd
              (combine dd tt) (cr_FlightNumber req) (cr_Passengers req)
              (env w)).1 = Some t
         ∧ CreateTicket (Some req) Set_err w =
             match Set_err with
             | Some _ =>
                 (failed "Failed to create ticket",
                  mkWorld (NewFlightTicket (cr_Origin req) (cr_Destination req)
                             dd (combine dd tt) (cr_FlightNumber req)
                             (cr_Passengers req) (env w)).2 (docs w))
             | None =>
                 (mkResponse StatusCreated (TicketJSON t),
                  mkWorld (NewFlightTicket (cr_Origin req) (cr_Destination req)
                             dd (combine dd tt) (cr_FlightNumber req)
                             (cr_Passengers req) (env w)).2
                          (<[ConfirmationID t := to_doc t]> (docs w)))
             end).
Proof.
  rewrite !CreateTicket_cases.
  destruct (missing_required req); [by left; auto|].
  destruct (time.Parse_date (cr_DepartureDate req)) as [dd|];
    [|by left; auto].
  destruct (time.Parse_clock (cr_DepartureTime req)) as [tt|];
    [|by left; auto 6].
  cbv zeta.
  destruct (ValidateAirportCode (cr_Origin req)) eqn:Ho;
    [destruct (ValidateAirportCode (cr_Destination req)) eqn:Hd|].
  - right. split; [done|]. split; [done|]. split; [done|].
    destruct (NewFlightTicket _ _ _ _ _ _ _).1 as [t|] eqn:Hnew.
    + by exists dd, tt, t.
    + rewrite NewFlightTicket_valid in Hnew by done. done.
  - left. rewrite NewFlightTicket_invalid by auto. cbn. auto 8.
  - left. rewrite NewFlightTicket_invalid by auto. cbn. auto 8.
Qed.

Lemma created_inv req Set_err w :
  StatusCode (CreateTicket (Some req) Set_err w).1 = StatusCreated →
  missing_required req = false
  ∧ Set_err = None
  ∧ ∃ dd tt t,
      time.Parse_date (cr_DepartureDate req) = Some dd
      ∧ time.Parse_clock (cr_DepartureTime req) = Some tt
      ∧ (NewFlightTicket (cr_Origin req) (cr_Destination req) dd
           (combine dd tt) (cr_FlightNumber req) (cr_Passengers req)
           (env w)).1 = Some t
      ∧ CreateTicket (Some req) Set_err w =
          (mkResponse StatusCreated (TicketJSON t),
           mkWorld (NewFlightTicket (cr_Origin req) (cr_Destination req) dd
                      (combine dd tt) (cr_FlightNumber req) (cr_Passengers req)
                      (env w)).2
                   (<[ConfirmationID t := to_doc t]> (docs w))).
Proof.
  intros Hc.
  destruct (CreateTicket_outcome req Set_err w)
    as [(H400 & _)|(Hm & _ & _ & dd & tt & t & Hdd & Htt & Hnew & Heq)].
  { rewrite H400 in Hc. done. }
  destruct Set_err as [err|]; [by rewrite Heq in Hc|].
  split; [done|]. split; [done|]. by exists dd, tt, t.
Qed.

End create_and_get.

(** X6: [CreateTicket] reaches the write exactly when no required field
    is empty, the passenger count is positive, date and time parse and
    both airport codes pass the validator; otherwise it answers 400.  At
    the write the client's answer decides: 500 when it returns an error,
    201 when the write went through.  Unless the answer is 201 the
    collection stays as it is.  With a 201 the ticket returned is stored
    under its confirmation id, in place of whatever was there, and no
    other document changes; the ticket is the one [NewFlightTicket]
    builds, so the id is drawn without a look at the ids in use. *)
Theorem create_succeeds_exactly `{!UnicodeCase, !time.Layouts}
    (req : CreateTicketRequest) (Set_err : option error) (w : World) :
  let r := CreateTicket (Some req) Set_err w in
  let valid :=
    cr_Origin req ≠ "" ∧ cr_Destination req ≠ ""
    ∧ cr_DepartureDate req ≠ "" ∧ cr_DepartureTime req ≠ ""
    ∧ 0 < cr_Passengers req
    ∧ is_Some (time.Parse_date (cr_DepartureDate req))
    ∧ is_Some (time.Parse_clock (cr_DepartureTime req))
    ∧ ValidateAirportCode (cr_Origin req) = true
    ∧ ValidateAirportCode (cr_Destination req) = true in
  (StatusCode r.1 = StatusCreated ↔ valid ∧ Set_err = None)
  ∧ (StatusCode r.1 = StatusInternalServerError ↔ valid ∧ is_Some Set_err)
  ∧ (StatusCode r.1 = StatusBadRequest ↔ ¬ valid)
  ∧ (StatusCode r.1 ≠ StatusCreated → docs r.2 = docs w)
  ∧ (StatusCode r.1 = StatusCreated →
     ∃ t, Payload r.1 = TicketJSON t
          ∧ docs r.2 = <[ConfirmationID t := to_doc t]> (docs w)
          ∧ docs r.2 !! ConfirmationID t = Some (to_doc t)
          ∧ (∀ k, k ≠ ConfirmationID t → docs r.2 !! k = docs w !! k)
          ∧ (∀ stored,
               (CreateTicket (Some req) Set_err (mkWorld (env w) stored)).1
               = r.1)).
Proof.
  cbv zeta.
  destruct (CreateTicket_outcome req Set_err w)
    as [(H400 & Hdocs & Hwhy)
       |(Hm & Hvo & Hvd & dd & tt & t & Hdd & Htt & Hnew & Heq)].
  - assert (Hno : ¬ (cr_Origin req ≠ "" ∧ cr_Destination req ≠ ""
       ∧ cr_DepartureDate req ≠ "" ∧ cr_DepartureTime req ≠ ""
       ∧ 0 < cr_Passengers req
       ∧ is_Some (time.Parse_date (cr_DepartureDate req))
       ∧ is_Some (time.Parse_clock (cr_DepartureTime req))
       ∧ ValidateAirportCode (cr_Origin req) = true
       ∧ ValidateAirportCode (cr_Destination req) = true)).
    { intros (Ho & Hd & Hdd & Hdt & Hp & Hpd & Hpt & Hvo & Hvd).
      destruct Hwhy as [Hm|[Hn|[Hn|[Hn|Hn]]]].
      - apply missing_required_true in Hm. intuition lia.
      - rewrite Hn in Hpd. by apply is_Some_None in Hpd.
      - rewrite Hn in Hpt. by apply is_Some_None in Hpt.
      - congruence.
      - congruence. }
    rewrite H400.
    split; [split; [done|by intros [? _]]|].
    split; [split; [done|by intros [? _]]|].
    split; [done|]. split; [done|]. done.
  - apply missing_required_false in Hm as Hreq.
    destruct Hreq as (Ho & Hd & Hrd & Hrt & Hp).
    assert (Hyes : cr_Origin req ≠ "" ∧ cr_Destination req ≠ ""
       ∧ cr_DepartureDate req ≠ "" ∧ cr_DepartureTime req ≠ ""
       ∧ 0 < cr_Passengers req
       ∧ is_Some (time.Parse_date (cr_DepartureDate req))
       ∧ is_Some (time.Parse_clock (cr_DepartureTime req))
       ∧ ValidateAirportCode (cr_Origin req) = true
       ∧ ValidateAirportCode (cr_Destination req) = true).
    { rewrite Hdd, Htt. repeat (split; [by eauto|]). done. }
    rewrite Heq. destruct Set_err as [err|]; cbn [fst snd StatusCode docs failed].
    + split; [split; [done|by intros [_ ?]]|].
      split; [split; [by eauto|done]|].
      split; [split; [done|by intros Hn; destruct (Hn Hyes)]|].
      split; [done|]. done.
    + split; [done|].
      split; [split; [done|by intros [_ ?%is_Some_None]]|].
      split; [split; [done|by intros Hn; destruct (Hn Hyes)]|].
      split; [done|]. intros _.
      exists t. cbn [Payload].
      split; [done|]. split; [done|].
      split; [by rewrite lookup_insert_eq|]. split.
      * intros k Hk. by rewrite lookup_insert_ne.
      * intros stored. rewrite CreateTicket_cases. cbn [env docs].
        rewrite Hm, Hdd, Htt. cbv zeta. by rewrite Hnew.
Qed.

Lemma create_succeeds_exactly_witness :
  let req := mkCreateTicketRequest "JFK" "LAX" "2024-12-25" "14:30" "ua77" 2 in
  StatusCode (CreateTicket (Some req) None golib.world1).1 = StatusCreated
  ∧ StatusCode (CreateTicket (Some req) (Some NotFound) golib.world1).1
    = StatusInternalServerError
  ∧ docs (CreateTicket (Some req) (Some NotFound) golib.world1).2
    = docs golib.world1.
Proof.
  cbv zeta.
  assert (Hvalid :
    let req :=
      mkCreateTicketRequest "JFK" "LAX" "2024-12-25" "14:30" "ua77" 2 in
    cr_Origin req ≠ "" ∧ cr_Destination req ≠ ""
    ∧ cr_DepartureDate req ≠ "" ∧ cr_DepartureTime req ≠ ""
    ∧ 0 < cr_Passengers req
    ∧ is_Some (time.Parse_date (cr_DepartureDate req))
    ∧ is_Some (time.Parse_clock (cr_DepartureTime req))
    ∧ ValidateAirportCode (cr_Origin req) = true
    ∧ ValidateAirportCode (cr_Destination req) = true).
  { cbv zeta. repeat split; try done; by eexists. }
  cbv zeta in Hvalid.
  pose proof (create_succeeds_exactly
                (mkCreateTicketRequest "JFK" "LAX" "2024-12-25" "14:30" "ua77" 2)
                None golib.world1) as (H201 & _).
  pose proof (create_succeeds_exactly
                (mkCreateTicketRequest "JFK" "LAX" "2024-12-25" "14:30" "ua77" 2)
                (Some NotFound) golib.world1) as (_ & H500 & _ & Hdocs & _).
  cbv zeta in H201, H500, Hdocs.
  split; [by apply H201|].
  assert (Hc : StatusCode
            (CreateTicket
               (Some (mkCreateTicketRequest "JFK" "LAX" "2024-12-25" "14:30"
                        "ua77" 2)) (Some NotFound) golib.world1).1
          = StatusInternalServerError) by (apply H500; by eauto).
  split; [exact Hc|]. apply Hdocs. rewrite Hc. done.
Defined.

(** X7: the ticket of a created response carries the request's origin,
    destination and passenger count, the parsed date as [departure_date]
    and, as [departure_time], the day of that date at the parsed hour and
    minute, zero seconds, in UTC; the flight number is the request's,
    upper-cased, and when the request has none it is ["AA"] followed by
    the four decimal digits of a number from 1000 to 9999. *)
Theorem created_ticket_content `{!UnicodeCase, !time.Layouts}
    (req : CreateTicketRequest) (Set_err : option error) (w : World)
    (t : FlightTicket) :
  (CreateTicket (Some req) Set_err w).1
    = mkResponse StatusCreated (TicketJSON t) →
  ∃ date timeOnly,
    time.Parse_date (cr_DepartureDate req) = Some date
    ∧ time.Parse_clock (cr_DepartureTime req) = Some timeOnly
    ∧ Origin t = cr_Origin req
    ∧ Destination t = cr_Destination req
    ∧ Passengers t = cr_Passengers req
    ∧ 0 < Passengers t
    ∧ DepartureDate t = date
    ∧ DepartureTime t =
        time.mkTime (time.Year date) (time.Month date) (time.Day date)
                    (time.Hour timeOnly) (time.Minute timeOnly) 0 0 time.UTC
    ∧ Status t = "CONFIRMED"
    ∧ (cr_FlightNumber req ≠ "" →
       FlightNumber t = ToUpper (cr_FlightNumber req))
    ∧ (cr_FlightNumber req = "" →
       ∃ n, 1000 ≤ n ≤ 9999
            ∧ FlightNumber t = "AA" +:+ fmt.format_int n
            ∧ four_digits (fmt.format_int n) = true
            ∧ decimal_value (fmt.format_int n) = n).
Proof.
  intros Hr.
  assert (Hc : StatusCode (CreateTicket (Some req) Set_err w).1
               = StatusCreated) by (by rewrite Hr).
  destruct (created_inv req Set_err w Hc)
    as (Hm & _ & dd & tt & t' & Hdd & Htt & Hnew & Heq).
  rewrite Heq in Hr. injection Hr as ->.
  apply missing_required_false in Hm as (_ & _ & _ & _ & Hp).
  exists dd, tt. split; [done|]. split; [done|].
  destruct (ValidateAirportCode (cr_Origin req)) eqn:Ho;
    [destruct (ValidateAirportCode (cr_Destination req)) eqn:Hd|];
    [|rewrite NewFlightTicket_invalid in Hnew by auto; discriminate..].
  rewrite NewFlightTicket_valid in Hnew by done. cbv zeta in Hnew.
  cbn [fst] in Hnew. injection Hnew as <-.
  cbn [Origin Destination Passengers DepartureDate DepartureTime Status
       FlightNumber].
  repeat (split; [done|]). split.
  - intros Hfn. apply String.eqb_neq in Hfn. by rewrite Hfn.
  - intros Hfn. apply String.eqb_eq in Hfn. rewrite Hfn. cbn [fst].
    match goal with
    | |- context [GenerateFlightNumber "AA" ?e1] =>
        pose proof (generated_flight_number_fixed e1) as Hg;
        destruct (GenerateFlightNumber_shape "AA" e1)
          as (n & Hn & Hshape & H4 & Hval & _)
    end.
    cbv zeta in Hg. destruct Hg as [Hfix _]. rewrite Hfix.
    exists n. split; [done|]. split; [exact Hshape|]. done.
Qed.

Lemma created_ticket_content_witness :
  ∃ t, (CreateTicket
          (Some (mkCreateTicketRequest "JFK" "LAX" "2024-12-25" "14:30" "ua77" 2))
          None golib.world0).1 = mkResponse StatusCreated (TicketJSON t)
       ∧ DepartureTime t = time.mkTime 2024 12 25 14 30 0 0 time.UTC
       ∧ FlightNumber t = "UA77".
Proof.
  destruct (CreateTicket
              (Some (mkCreateTicketRequest "JFK" "LAX" "2024-12-25" "14:30"
                       "ua77" 2)) None golib.world0).1 as [code [e|t|s]] eqn:Hr;
    try (vm_compute in Hr; discriminate Hr).
  assert (Hcode : code = StatusCreated).
  { apply (f_equal StatusCode) in Hr. vm_compute in Hr. by subst. }
  subst code. exists t. split; [reflexivity|].
  destruct (created_ticket_content _ _ _ _ Hr)
    as (date & timeOnly & Hd & Ht & _ & _ & _ & _ & _ & Hdt & _ & Hfn & _).
  vm_compute in Hd. injection Hd as <-.
  vm_compute in Ht. injection Ht as <-.
  split; [exact Hdt|]. rewrite Hfn by discriminate. reflexivity.
Defined.

(** X8: a ticket just created is found again under its confirmation id:
    [GetTicket] answers 200 with a ticket that has the same id, codes,
    flight number, passenger count, status, date and time of departure,
    and leaves the world alone. *)
Theorem create_then_get `{!UnicodeCase, !time.Layouts}
    (req : CreateTicketRequest) (Set_err : option error) (w : World)
    (t : FlightTicket) :
  (CreateTicket (Some req) Set_err w).1
    = mkResponse StatusCreated (TicketJSON t) →
  let w' := (CreateTicket (Some req) Set_err w).2 in
  ∃ t', GetTicket (ConfirmationID t) w' = (mkResponse StatusOK (TicketJSON t'), w')
        ∧ ConfirmationID t' = ConfirmationID t
        ∧ Origin t' = Origin t
        ∧ Destination t' = Destination t
        ∧ FlightNumber t' = FlightNumber t
        ∧ Passengers t' = Passengers t
        ∧ Status t' = Status t
        ∧ DepartureDate t' = DepartureDate t
        ∧ DepartureTime t' = DepartureTime t.
Proof.
  intros Hr w'.
  assert (Hc : StatusCode (CreateTicket (Some req) Set_err w).1
               = StatusCreated) by (by rewrite Hr).
  destruct (created_inv req Set_err w Hc)
    as (Hm & _ & dd & tt & t0 & Hdd & Htt & Hnew & Heq).
  subst w'. rewrite Heq in Hr |- *. injection Hr as ->. cbn [snd].
  assert (Hid : String.eqb (ConfirmationID t) "" = false).
  { apply String.eqb_neq. intros Hempty.
    destruct (new_ticket_id _ _ _ _ _ _ _ _ Hnew) as [Hlen _].
    by rewrite Hempty in Hlen. }
  exists t. split; [|done].
  unfold GetTicket, serve. rewrite Hid.
  unfold mbind, handler_bind, call, services.GetTicket. cbn [docs].
  by rewrite lookup_insert_eq, DataTo_to_doc.
Qed.

Lemma create_then_get_witness :
  ∃ t, (CreateTicket
          (Some (mkCreateTicketRequest "JFK" "LAX" "2024-12-25" "14:30" "" 2))
          None golib.world0).1 = mkResponse StatusCreated (TicketJSON t)
       ∧ StatusCode
           (GetTicket (ConfirmationID t)
              (CreateTicket
                 (Some (mkCreateTicketRequest "JFK" "LAX" "2024-12-25" "14:30"
                          "" 2)) None golib.world0).2).1 = StatusOK.
Proof.
  destruct (CreateTicket
              (Some (mkCreateTicketRequest "JFK" "LAX" "2024-12-25" "14:30"
                       "" 2)) None golib.world0).1 as [code [e|t|s]] eqn:Hr;
    try (vm_compute in Hr; discriminate Hr).
  assert (Hcode : code = StatusCreated).
  { apply (f_equal StatusCode) in Hr. vm_compute in Hr. by subst. }
  subst code. exists t. split; [reflexivity|].
  destruct (create_then_get _ _ _ _ Hr) as (t' & Hget & _).
  exact (f_equal (λ r, StatusCode r.1) Hget).
Defined.

(** X9: [GetTicket] never changes the world and answers 400, 404 or
    200.  It answers 400 exactly for the empty id.  A 200 carries the
    decoding of the document stored under the id.  An id that is not
    empty and names no document, or one whose document does not decode,
    is answered 404 "Ticket not found". *)
Theorem get_ticket_answers (confirmationID : string) (w : World) :
  let r := GetTicket confirmationID w in
  r.2 = w
  ∧ (StatusCode r.1 = StatusBadRequest ∨ StatusCode r.1 = StatusNotFound
     ∨ StatusCode r.1 = StatusOK)
  ∧ (StatusCode r.1 = StatusBadRequest ↔ confirmationID = "")
  ∧ (∀ t, r.1 = mkResponse StatusOK (TicketJSON t) →
          confirmationID ≠ ""
          ∧ ∃ d, docs w !! confirmationID = Some d ∧ DataTo d = Some t)
  ∧ (StatusCode r.1 = StatusOK → ∃ t, Payload r.1 = TicketJSON t)
  ∧ (confirmationID ≠ "" →
     docs w !! confirmationID = None
     ∨ (∃ d, docs w !! confirmationID = Some d ∧ DataTo d = None) →
     r.1 = mkResponse StatusNotFound
             (ErrorJSON (mkErrorResponse "Ticket not found" ""))).
Proof.
  cbv zeta. unfold GetTicket, serve.
  destruct (String.eqb confirmationID "") eqn:Hid.
  - apply String.eqb_eq in Hid as ->. cbn.
    split; [done|]. split; [by left|]. split; [done|].
    split; [done|]. split; [done|]. done.
  - apply String.eqb_neq in Hid.
    unfold mbind, handler_bind, call, services.GetTicket.
    destruct (docs w !! confirmationID) as [d|] eqn:Hd;
      [destruct (DataTo d) as [t0|] eqn:Ht|]; cbn.
    + split; [done|]. split; [by right; right|]. split; [done|].
      split; [intros t [= <-]; eauto|]. split; [by eauto|].
      intros _ [?|(d' & [= <-] & Hno)]; congruence.
    + split; [done|]. split; [by right; left|]. split; [done|].
      split; [done|]. split; [done|]. done.
    + split; [done|]. split; [by right; left|]. split; [done|].
      split; [done|]. split; [done|]. done.
Qed.
(** ** Updating and cancelling, on the decoded ticket *)

Lemma DataTo_fields d t :
  DataTo d = Some t →
  string_field d "confirmation_id" = Some (ConfirmationID t)
  ∧ string_field d "origin" = Some (Origin t)
  ∧ string_field d "destination" = Some (Destination t)
  ∧ time_field d "departure_date" = Some (DepartureDate t)
  ∧ time_field d "departure_time" = Some (DepartureTime t)
  ∧ string_field d "flight_number" = Some (FlightNumber t)
  ∧ int_field d "passengers" = Some (Passengers t)
  ∧ time_field d "created_at" = Some (CreatedAt t)
  ∧ time_field d "updated_at" = Some (UpdatedAt t)
  ∧ string_field d "status" = Some (Status t).
Proof.
  unfold DataTo. intros Hd.
  repeat match type of Hd with
         | context [mbind _ ?x] => destruct x; simpl in Hd; [|discriminate]
         end.
  by injection Hd as <-.
Qed.

Lemma DataTo_of_fields d id o de dd dt fn p ca ua st :
  string_field d "confirmation_id" = Some id →
  string_field d "origin" = Some o →
  string_field d "destination" = Some de →
  time_field d "departure_date" = Some dd →
  time_field d "departure_time" = Some dt →
  string_field d "flight_number" = Some fn →
  int_field d "passengers" = Some p →
  time_field d "created_at" = Some ca →
  time_field d "updated_at" = Some ua →
  string_field d "status" = Some st →
  DataTo d = Some (mkFlightTicket id o de dd dt fn p ca ua st).
Proof. unfold DataTo. by intros -> -> -> -> -> -> -> -> -> ->. Qed.

Lemma string_field_merged fields d k :
  string_field (merged fields d) k =
    match fields !! k with
    | Some (VString s) => Some s
    | Some _ => None
    | None => string_field d k
    end.
Proof.
  unfold string_field, merged. rewrite lookup_union.
  by destruct (fields !! k) as [[]|], (d !! k).
Qed.

Lemma time_field_merged fields d k :
  time_field (merged fields d) k =
    match fields !! k with
    | Some (VTime t) => Some t
    | Some _ => None
    | None => time_field d k
    end.
Proof.
  unfold time_field, merged. rewrite lookup_union.
  by destruct (fields !! k) as [[]|], (d !! k).
Qed.

Lemma int_field_merged fields d k :
  int_field (merged fields d) k =
    match fields !! k with
    | Some (VInt n) => Some n
    | Some _ => None
    | None => int_field d k
    end.
Proof.
  unfold int_field, merged. rewrite lookup_union.
  by destruct (fields !! k) as [[]|], (d !! k).
Qed.

Lemma stamped_stamp updates w :
  stamped updates w !! "updated_at" = Some (VTime (time_Now (env w)).1).
Proof. unfold stamped. by rewrite lookup_insert_eq. Qed.

Lemma stamped_other updates w k :
  k ≠ "updated_at" → stamped updates w !! k = updates !! k.
Proof. intros Hk. unfold stamped. by rewrite lookup_insert_ne. Qed.

Section typed_update.
Context `{!UnicodeCase, !time.Layouts}.

Lemma staged_lookup req today w1 f :
  stamped (staged_fields req today) w1 !! field_name f
  = staged_value req today f.
Proof.
  rewrite stamped_other by (by destruct f). apply staged_fields_field.
Qed.

(** Decoding a document after the staged fields of a request and the stamp
    were written over it. *)
Lemma DataTo_updated req today w1 d t :
  DataTo d = Some t →
  DataTo (merged (stamped (staged_fields req today) w1) d)
  = Some (updated_ticket req today (time_Now (env w1)).1 t).
Proof.
  intros (Hid & Ho & Hde & Hdd & Hdt & Hfn & Hp & Hca & Hua & Hst)%DataTo_fields.
  pose proof (staged_lookup req today w1 origin) as So.
  pose proof (staged_lookup req today w1 destination) as Sde.
  pose proof (staged_lookup req today w1 departure_date) as Sdd.
  pose proof (staged_lookup req today w1 departure_time) as Sdt.
  pose proof (staged_lookup req today w1 flight_number) as Sfn.
  pose proof (staged_lookup req today w1 passengers) as Sp.
  pose proof (staged_lookup req today w1 status) as Sst.
  cbn [field_name] in So, Sde, Sdd, Sdt, Sfn, Sp, Sst.
  assert (Sid : stamped (staged_fields req today) w1 !! "confirmation_id" = None).
  { rewrite stamped_other by done. apply staged_fields_other. by intros []. }
  assert (Sca : stamped (staged_fields req today) w1 !! "created_at" = None).
  { rewrite stamped_other by done. apply staged_fields_other. by intros []. }
  unfold updated_ticket. apply DataTo_of_fields;
    rewrite ?string_field_merged, ?time_field_merged, ?int_field_merged,
      ?stamped_stamp, ?So, ?Sde, ?Sdd, ?Sdt, ?Sfn, ?Sp, ?Sst, ?Sid, ?Sca;
    try done.
  - cbn [staged_value]. by destruct (nonempty (ur_Origin req)).
  - cbn [staged_value]. by destruct (nonempty (ur_Destination req)).
  - destruct (staged_value req today departure_date) as [[]|] eqn:Hv;
      try done; exfalso; cbn [staged_value] in Hv;
      (destruct (nonempty (ur_DepartureDate req)); [|done]);
      by destruct (time.Parse_date (ur_DepartureDate req)).
  - destruct (staged_value req today departure_time) as [[]|] eqn:Hv;
      try done; exfalso; cbn [staged_value] in Hv;
      (destruct (nonempty (ur_DepartureTime req)); [|done]);
      (destruct (time.Parse_clock (ur_DepartureTime req)); [|done]);
      cbn in Hv;
      (destruct (nonempty (ur_DepartureDate req)); [|done]);
      by destruct (time.Parse_date (ur_DepartureDate req)).
  - cbn [staged_value]. by destruct (nonempty (ur_FlightNumber req)).
  - cbn [staged_value]. by destruct (0 <? ur_Passengers req).
  - cbn [staged_value]. by destruct (nonempty (ur_Status req)).
Qed.

(** What the collection is after [UpdateTicket]: as before, or with the
    staged fields written over the one document. *)
Lemma UpdateTicket_docs id body w :
  docs (UpdateTicket id body w).2 = docs w
  ∨ ∃ req d,
      body = Some req ∧ id ≠ "" ∧ first_failure req = None
      ∧ staged_fields req (today_UTC w) ≠ ∅
      ∧ docs w !! id = Some d
      ∧ docs (UpdateTicket id body w).2
        = <[id := merged (stamped (staged_fields req (today_UTC w))
                            (staged_world req w)) d]> (docs w).
Proof.
  destruct (decide (id = "")) as [->|Hid].
  { left. by rewrite UpdateTicket_no_id. }
  destruct body as [req|]; cycle 1.
  { left. apply String.eqb_neq in Hid. unfold UpdateTicket, serve.
    by rewrite Hid. }
  destruct (first_failure req) as [err|] eqn:Hff.
  { left. destruct (UpdateTicket_rejected id req w err Hid Hff)
      as (w' & -> & [->| ->]); done. }
  destruct (decide (staged_fields req (today_UTC w) = ∅)) as [Hempty|Hne].
  { left. rewrite UpdateTicket_nothing by done. cbn [snd].
    unfold staged_world. by destruct (reads_clock req). }
  destruct (docs w !! id) as [d|] eqn:Hd.
  - right. exists req, d. rewrite (UpdateTicket_written id req w d) by done.
    done.
  - left. rewrite UpdateTicket_missing by done. cbn [snd].
    unfold staged_world. by destruct (reads_clock req).
Qed.

Lemma UpdateTicket_unknown id body w :
  docs w !! id = None →
  docs (UpdateTicket id body w).2 = docs w
  ∧ StatusCode (UpdateTicket id body w).1 ≠ StatusOK
  ∧ (StatusCode (UpdateTicket id body w).1 = StatusInternalServerError ↔
       id ≠ "" ∧ ∃ req, body = Some req ∧ first_failure req = None
                        ∧ staged_fields req (today_UTC w) ≠ ∅).
Proof.
  intros Hd.
  destruct (decide (id = "")) as [->|Hid].
  { rewrite UpdateTicket_no_id. cbn. split; [done|]. split; [done|].
    split; [done|]. by intros [? _]. }
  destruct body as [req|]; cycle 1.
  { pose proof Hid as Hid'. apply String.eqb_neq in Hid'.
    unfold UpdateTicket, serve. rewrite Hid'. cbn.
    split; [done|]. split; [done|]. split; [done|].
    by intros (_ & ? & ? & _). }
  destruct (first_failure req) as [err|] eqn:Hff.
  { destruct (UpdateTicket_rejected id req w err Hid Hff)
      as (w' & -> & Hw). cbn.
    split; [by destruct Hw as [->| ->]|]. split; [done|]. split; [done|].
    intros (_ & ? & [= <-] & Hno & _). congruence. }
  destruct (decide (staged_fields req (today_UTC w) = ∅)) as [Hempty|Hne].
  { rewrite UpdateTicket_nothing by done. cbn.
    split; [unfold staged_world; by destruct (reads_clock req)|].
    split; [done|]. split; [done|].
    by intros (_ & ? & [= <-] & _ & ?). }
  rewrite UpdateTicket_missing by done. cbn.
  split; [unfold staged_world; by destruct (reads_clock req)|].
  split; [done|]. split; [|done]. intros _. split; [done|]. by exists req.
Qed.

End typed_update.

(** X10: [UpdateTicket] on an id that names no document never creates
    one: the collection stays as it is and the answer is not 200.  It is
    500 exactly when the id is not empty and the request passed
    validation with at least one field staged, and 400 otherwise. *)
Theorem update_never_creates `{!UnicodeCase, !time.Layouts}
    (confirmationID : string) (body : option UpdateTicketRequest)
    (w : World) :
  docs w !! confirmationID = None →
  let r := UpdateTicket confirmationID body w in
  docs r.2 = docs w
  ∧ StatusCode r.1 ≠ StatusOK
  ∧ (StatusCode r.1 = StatusInternalServerError ↔
       confirmationID ≠ ""
       ∧ ∃ req, body = Some req ∧ first_failure req = None
                ∧ staged_fields req (today_UTC w) ≠ ∅).
Proof. apply UpdateTicket_unknown. Qed.

Lemma update_never_creates_witness :
  let r := UpdateTicket "ZZZ999"
             (Some (mkUpdateTicketRequest "" "" "" "" "" 3 "")) golib.world1 in
  docs golib.world1 !! "ZZZ999" = None
  ∧ docs r.2 = docs golib.world1
  ∧ StatusCode r.1 ≠ StatusOK.
Proof.
  cbv zeta.
  assert (Hd : docs golib.world1 !! "ZZZ999" = None)
    by (by apply lookup_singleton_ne).
  split; [exact Hd|].
  destruct (update_never_creates "ZZZ999"
              (Some (mkUpdateTicketRequest "" "" "" "" "" 3 "")) _ Hd)
    as (Hdocs & Hcode & _).
  split; [exact Hdocs|exact Hcode].
Defined.

(** X11: a 200 from [UpdateTicket] on a document that decoded before
    carries the stored ticket with each supplied field replaced by its
    staged value; the confirmation id, [created_at] and every field that
    was not supplied are as they were.  The stamp [updated_at] is left
    aside here.  The ticket returned is the decoding of the document the
    collection then holds under the id. *)
Theorem update_answers_updated_ticket `{!UnicodeCase, !time.Layouts}
    (confirmationID : string) (req : UpdateTicketRequest) (w : World)
    (d : gmap string Value) (t t' : FlightTicket) :
  docs w !! confirmationID = Some d →
  DataTo d = Some t →
  (UpdateTicket confirmationID (Some req) w).1
    = mkResponse StatusOK (TicketJSON t') →
  t' = updated_ticket req (today_UTC w) (UpdatedAt t') t
  ∧ ∃ d', docs (UpdateTicket confirmationID (Some req) w).2 !! confirmationID
          = Some d'
          ∧ DataTo d' = Some t'.
Proof.
  intros Hd Hdata Hr.
  assert (Hok : StatusCode (UpdateTicket confirmationID (Some req) w).1
                = StatusOK) by (by rewrite Hr).
  destruct (UpdateTicket_ok_inv _ _ _ Hok) as (Hid & Hff & Hne & _).
  rewrite (UpdateTicket_written _ _ _ d) in Hr |- * by done.
  cbv zeta in Hr |- *. cbn [fst snd docs] in Hr |- *.
  pose proof (DataTo_updated req (today_UTC w) (staged_world req w) d t Hdata)
    as Hnew.
  rewrite Hnew in Hr. injection Hr as <-. split; [done|].
  eexists. split; [apply lookup_insert_eq|done].
Qed.

Lemma update_answers_updated_ticket_witness :
  let req := mkUpdateTicketRequest "" "SFO" "" "" "" 3 "" in
  ∃ t', (UpdateTicket "ABC123" (Some req) golib.world1).1
          = mkResponse StatusOK (TicketJSON t')
        ∧ Origin t' = "JFK" ∧ Destination t' = "SFO" ∧ Passengers t' = 3
        ∧ FlightNumber t' = "AA1234" ∧ Status t' = "CONFIRMED".
Proof.
  cbv zeta.
  destruct (UpdateTicket "ABC123"
              (Some (mkUpdateTicketRequest "" "SFO" "" "" "" 3 ""))
              golib.world1).1 as [code [e|t'|s]] eqn:Hr;
    try (vm_compute in Hr; discriminate Hr).
  assert (Hcode : code = StatusOK).
  { apply (f_equal StatusCode) in Hr. vm_compute in Hr. by subst. }
  subst code. exists t'. split; [reflexivity|].
  assert (Hd : docs golib.world1 !! "ABC123" = Some (to_doc golib.ticket1))
    by apply lookup_singleton_eq.
  destruct (update_answers_updated_ticket _ _ _ _ _ _ Hd
              (DataTo_to_doc golib.ticket1) Hr) as [-> _].
  repeat split.
Defined.

(** ** Cancelling *)

Lemma service_delete_missing id w :
  docs w !! id = None →
  services.DeleteTicket id w =
    (Some (Errorf "failed to update ticket: " NotFound),
     mkWorld (time_Now (env (after_clock_read w))).2 (docs w)).
Proof.
  intros Hd. rewrite service_delete_as_update.
  by rewrite service_update_missing.
Qed.

Lemma DeleteTicket_missing id w :
  id ≠ "" → docs w !! id = None →
  DeleteTicket id w =
    (failed "Failed to cancel ticket",
     mkWorld (time_Now (env (after_clock_read w))).2 (docs w)).
Proof.
  intros Hid Hd. apply String.eqb_neq in Hid.
  unfold DeleteTicket, serve. rewrite Hid.
  unfold mbind, handler_bind, call.
  by rewrite service_delete_missing.
Qed.

(** X12: [DeleteTicket] answers 400 exactly for the empty id.  An id that
    is not empty and names no document is answered 500 "Failed to cancel
    ticket"; an answer 200 is given only for an id that is not empty and
    names a document.  Unless the answer is 200 the collection stays as
    it is; in every case no document is removed or added and no document
    other than the named one changes. *)
Theorem delete_ticket_answers (confirmationID : string) (w : World) :
  let r := DeleteTicket confirmationID w in
  (StatusCode r.1 = StatusBadRequest ↔ confirmationID = "")
  ∧ (confirmationID ≠ "" → docs w !! confirmationID = None →
     r.1 = mkResponse StatusInternalServerError
             (ErrorJSON (mkErrorResponse "Failed to cancel ticket" "")))
  ∧ (StatusCode r.1 = StatusOK →
     confirmationID ≠ "" ∧ is_Some (docs w !! confirmationID))
  ∧ (StatusCode r.1 ≠ StatusOK → docs r.2 = docs w)
  ∧ dom (docs r.2) = dom (docs w)
  ∧ ∀ k, k ≠ confirmationID → docs r.2 !! k = docs w !! k.
Proof.
  cbv zeta.
  destruct (decide (confirmationID = "")) as [->|Hid].
  { cbn. split; [done|]. split; [done|]. split; [done|]. done. }
  destruct (docs w !! confirmationID) as [d|] eqn:Hd.
  - rewrite (DeleteTicket_existing _ _ d) by done. cbn [fst snd StatusCode docs].
    split; [done|]. split; [done|]. split; [by eauto|]. split; [done|]. split.
    + by apply dom_insert_lookup_L.
    + intros k Hk. by rewrite lookup_insert_ne.
  - rewrite DeleteTicket_missing by done. cbn [fst snd StatusCode docs failed].
    split; [done|]. split; [done|]. split; [done|]. done.
Qed.

(** X13: cancelling a stored ticket sets its status to CANCELLED and,
    the stamp [updated_at] aside, changes nothing else of it: after a
    200 the document under the id decodes to a ticket with the id,
    codes, dates, flight number, passenger count and [created_at] it
    had. *)
Theorem cancel_keeps_the_rest `{!UnicodeCase, !time.Layouts}
    (confirmationID : string) (w : World) (d : gmap string Value)
    (t : FlightTicket) :
  docs w !! confirmationID = Some d →
  DataTo d = Some t →
  StatusCode (DeleteTicket confirmationID w).1 = StatusOK →
  ∃ d' t',
    docs (DeleteTicket confirmationID w).2 !! confirmationID = Some d'
    ∧ DataTo d' = Some t'
    ∧ t' = {| ConfirmationID := ConfirmationID t;
              Origin := Origin t;
              Destination := Destination t;
              DepartureDate := DepartureDate t;
              DepartureTime := DepartureTime t;
              FlightNumber := FlightNumber t;
              Passengers := Passengers t;
              CreatedAt := CreatedAt t;
              UpdatedAt := UpdatedAt t';
              Status := "CANCELLED" |}.
Proof.
  intros Hd Hdata Hok.
  destruct (decide (confirmationID = "")) as [->|Hid]; [done|].
  rewrite (DeleteTicket_existing _ _ d) by done. cbn [snd docs].
  rewrite lookup_insert_eq.
  rewrite <- (cancel_request_staged time.zero).
  pose proof (DataTo_updated cancel_request time.zero (after_clock_read w)
                d t Hdata) as Hnew.
  eexists _, _. split; [done|]. split; [exact Hnew|]. done.
Qed.

Lemma cancel_keeps_the_rest_witness :
  ∃ d' t',
    docs (DeleteTicket "ABC123" golib.world1).2 !! "ABC123" = Some d'
    ∧ DataTo d' = Some t'
    ∧ Status t' = "CANCELLED" ∧ Origin t' = "JFK" ∧ Passengers t' = 2.
Proof.
  assert (Hd : docs golib.world1 !! "ABC123" = Some (to_doc golib.ticket1))
    by apply lookup_singleton_eq.
  assert (Hok : StatusCode (DeleteTicket "ABC123" golib.world1).1 = StatusOK).
  { assert (Hid : "ABC123" ≠ "") by discriminate.
    by rewrite (DeleteTicket_existing _ _ _ Hid Hd). }
  destruct (cancel_keeps_the_rest "ABC123" _ _ _ Hd
              (DataTo_to_doc golib.ticket1) Hok) as (d' & t' & Hl & Hdata & Heq).
  exists d', t'. split; [exact Hl|]. split; [exact Hdata|].
  rewrite Heq. repeat split.
Defined.
(** ** What every request keeps true of the collection *)

Lemma GetTicket_world id w : (GetTicket id w).2 = w.
Proof.
  unfold GetTicket, serve. destruct (String.eqb id ""); [done|].
  unfold mbind, handler_bind, call, services.GetTicket.
  destruct (docs w !! id) as [d|]; [|done]. by destruct (DataTo d).
Qed.

Lemma ListTickets_world `{!strconv.Numbers} limitStr GetAll_err w :
  (ListTickets limitStr GetAll_err w).2 = w.
Proof. unfold ListTickets, services.ListTickets. by destruct GetAll_err. Qed.

Lemma DeleteTicket_docs id w :
  docs (DeleteTicket id w).2 = docs w
  ∨ ∃ d, id ≠ "" ∧ docs w !! id = Some d
         ∧ docs (DeleteTicket id w).2
           = <[id := merged (stamped {[ "status" := VString "CANCELLED" ]}
                               (after_clock_read w)) d]> (docs w).
Proof.
  destruct (decide (id = "")) as [->|Hid]; [by left|].
  destruct (docs w !! id) as [d|] eqn:Hd.
  - right. exists d. by rewrite (DeleteTicket_existing _ _ d).
  - left. by rewrite DeleteTicket_missing.
Qed.

Section invariant.
Context `{!UnicodeCase, !time.Layouts}.

Lemma CreateTicket_docs body Set_err w :
  docs (CreateTicket body Set_err w).2 = docs w
  ∨ ∃ req t,
      body = Some req ∧ missing_required req = false
      ∧ (∃ dd dt, (NewFlightTicket (cr_Origin req) (cr_Destination req) dd dt
                     (cr_FlightNumber req) (cr_Passengers req) (env w)).1
                  = Some t)
      ∧ docs (CreateTicket body Set_err w).2
        = <[ConfirmationID t := to_doc t]> (docs w).
Proof.
  destruct body as [req|]; [|by left].
  rewrite CreateTicket_cases.
  destruct (missing_required req) eqn:Hm; [by left|].
  destruct (time.Parse_date (cr_DepartureDate req)) as [dd|]; [|by left].
  destruct (time.Parse_clock (cr_DepartureTime req)) as [tt|]; [|by left].
  cbv zeta.
  destruct (NewFlightTicket _ _ _ _ _ _ _).1 as [t|] eqn:Hnew; [|by left].
  destruct Set_err as [err|]; [by left|].
  right. exists req, t. split; [done|]. split; [done|]. split; [|done].
  by exists dd, (combine dd tt).
Qed.

Lemma updated_ticket_ok req today now t :
  first_failure req = None → ticket_ok t →
  ticket_ok (updated_ticket req today now t).
Proof.
  intros Hff (Ho & Hd & Hp & Hs).
  pose proof (no_failure_no_rejection req origin Hff) as Ro.
  pose proof (no_failure_no_rejection req destination Hff) as Rd.
  pose proof (no_failure_no_rejection req status Hff) as Rs.
  cbn [rejection] in Ro, Rd, Rs.
  unfold ticket_ok, updated_ticket.
  cbn [Origin Destination Passengers Status].
  split; [|split; [|split]].
  - destruct (nonempty (ur_Origin req)); [|done].
    by destruct (ValidateAirportCode (ur_Origin req)).
  - destruct (nonempty (ur_Destination req)); [|done].
    by destruct (ValidateAirportCode (ur_Destination req)).
  - destruct (0 <? ur_Passengers req) eqn:Hpos; [|done].
    by apply Z.ltb_lt.
  - destruct (nonempty (ur_Status req)); [|done].
    by destruct (valid_status (ur_Status req)).
Qed.

Lemma stored_ok_updated id req today w1 d :
  first_failure req = None → stored_ok id d →
  stored_ok id (merged (stamped (staged_fields req today) w1) d).
Proof.
  intros Hff (t & Hdata & Hid & Hlen & Hal & Hok).
  exists (updated_ticket req today (time_Now (env w1)).1 t).
  split; [by apply DataTo_updated|].
  split; [done|]. split; [done|]. split; [done|].
  by apply updated_ticket_ok.
Qed.

Lemma store_ok_insert ds k d :
  store_ok ds → stored_ok k d → store_ok (<[k := d]> ds).
Proof.
  intros Hds Hd k' d' Hl.
  destruct (decide (k' = k)) as [->|Hne].
  - rewrite lookup_insert_eq in Hl. by injection Hl as <-.
  - rewrite lookup_insert_ne in Hl by done. by apply Hds.
Qed.

Lemma stored_ok_created o d dd dt fn p e t :
  0 < p →
  (NewFlightTicket o d dd dt fn p e).1 = Some t →
  stored_ok (ConfirmationID t) (to_doc t).
Proof.
  intros Hp Hnew.
  destruct (new_ticket_id _ _ _ _ _ _ _ _ Hnew) as [Hlen Hal].
  destruct (new_ticket_fields _ _ _ _ _ _ _ _ Hnew)
    as (Ho & Hd & Hvo & Hvd & Hpt & Hst).
  exists t. split; [apply DataTo_to_doc|].
  split; [done|]. split; [done|]. split; [done|].
  unfold ticket_ok. by rewrite Ho, Hd, Hpt, Hst.
Qed.

Lemma CreateTicket_store_ok body Set_err w :
  store_ok (docs w) → store_ok (docs (CreateTicket body Set_err w).2).
Proof.
  intros Hw. destruct (CreateTicket_docs body Set_err w)
    as [->|(req & t & -> & Hm & (dd & dt & Hnew) & ->)]; [done|].
  apply store_ok_insert; [done|].
  apply missing_required_false in Hm as (_ & _ & _ & _ & Hp).
  by eapply stored_ok_created.
Qed.

Lemma UpdateTicket_store_ok id body w :
  store_ok (docs w) → store_ok (docs (UpdateTicket id body w).2).
Proof.
  intros Hw. destruct (UpdateTicket_docs id body w)
    as [->|(req & d & -> & Hid & Hff & Hne & Hd & ->)]; [done|].
  apply store_ok_insert; [done|].
  apply stored_ok_updated; [done|]. by apply Hw.
Qed.

Lemma DeleteTicket_store_ok id w :
  store_ok (docs w) → store_ok (docs (DeleteTicket id w).2).
Proof.
  intros Hw. destruct (DeleteTicket_docs id w)
    as [->|(d & Hid & Hd & ->)]; [done|].
  apply store_ok_insert; [done|].
  rewrite <- (cancel_request_staged time.zero).
  apply stored_ok_updated; [apply cancel_request_accepted|]. by apply Hw.
Qed.

Lemma dispatch_store_ok `{!strconv.Numbers} rq w :
  store_ok (docs w) → store_ok (docs (dispatch rq w)).
Proof.
  intros Hw. destruct rq; cbn [dispatch].
  - by apply CreateTicket_store_ok.
  - by rewrite GetTicket_world.
  - by apply UpdateTicket_store_ok.
  - by apply DeleteTicket_store_ok.
  - by rewrite ListTickets_world.
Qed.

Lemma run_store_ok `{!strconv.Numbers} rqs w :
  store_ok (docs w) → store_ok (docs (run rqs w)).
Proof.
  revert w. induction rqs as [|rq rqs IH]; intros w Hw; [done|].
  cbn [run fold_left]. apply IH. by apply dispatch_store_ok.
Qed.

Lemma dispatch_dom `{!strconv.Numbers} rq w :
  dom (docs w) ⊆ dom (docs (dispatch rq w))
  ∧ ((∀ body Set_err, rq ≠ POST_ticket body Set_err) →
     dom (docs (dispatch rq w)) = dom (docs w)).
Proof.
  destruct rq as [body Set_err|id|id body|id|limitStr GetAll_err];
    cbn [dispatch].
  - split; [|by intros Hno; destruct (Hno body Set_err)].
    destruct (CreateTicket_docs body Set_err w)
      as [->|(req & t & _ & _ & _ & ->)]; [done|].
    rewrite dom_insert_L. apply union_subseteq_r.
  - by rewrite GetTicket_world.
  - destruct (UpdateTicket_docs id body w)
      as [->|(req & d & _ & _ & _ & _ & Hd & ->)]; [done|].
    by rewrite dom_insert_lookup_L.
  - destruct (DeleteTicket_docs id w) as [->|(d & _ & Hd & ->)]; [done|].
    by rewrite dom_insert_lookup_L.
  - by rewrite ListTickets_world.
Qed.

End invariant.

Lemma world1_store_ok : store_ok (docs golib.world1).
Proof.
  intros k d Hl. unfold golib.world1 in Hl. cbn [docs] in Hl.
  apply lookup_singleton_Some in Hl as [<- <-].
  exists golib.ticket1. split; [apply DataTo_to_doc|].
  repeat split; by vm_compute.
Qed.

(** X14: the requests keep the collection well formed.  When every
    document decodes to a ticket whose confirmation id is the document's
    key, six characters of [A-Z0-9], with valid airport codes, a positive
    passenger count and one of the three statuses, then the same holds
    after any sequence of requests, whatever the client answers to the
    writes and queries among them. *)
Theorem requests_keep_store_ok
    `{!UnicodeCase, !time.Layouts, !strconv.Numbers}
    (rqs : list Request) (w : World) :
  store_ok (docs w) → store_ok (docs (run rqs w)).
Proof. apply run_store_ok. Qed.

Lemma requests_keep_store_ok_witness :
  store_ok (docs golib.world1)
  ∧ store_ok
      (docs (run
         [POST_ticket
            (Some (mkCreateTicketRequest "SFO" "SEA" "2025-01-02" "9:15" "" 1))
            None;
          PUT_ticket "ABC123"
            (Some (mkUpdateTicketRequest "" "" "" "" "" 3 ""));
          DELETE_ticket "ABC123";
          GET_tickets "10" (Some NotFound)] golib.world1)).
Proof.
  split; [exact world1_store_ok|].
  exact (requests_keep_store_ok _ _ world1_store_ok).
Defined.

(** X15: on a well-formed collection a GET that answers 200 returns a
    ticket with the requested id, six characters long, with valid airport
    codes, a positive passenger count and a valid status, and so does a
    PUT that answers 200. *)
Theorem store_ok_answers `{!UnicodeCase, !time.Layouts} (w : World) :
  store_ok (docs w) →
  (∀ id t, (GetTicket id w).1 = mkResponse StatusOK (TicketJSON t) →
           ConfirmationID t = id ∧ String.length id = 6%nat ∧ ticket_ok t)
  ∧ (∀ id body t,
       (UpdateTicket id body w).1 = mkResponse StatusOK (TicketJSON t) →
       ConfirmationID t = id ∧ String.length id = 6%nat ∧ ticket_ok t).
Proof.
  intros Hw. split.
  - intros id t Hr. unfold GetTicket, serve in Hr.
    destruct (String.eqb id ""); [done|].
    unfold mbind, handler_bind, call, services.GetTicket in Hr.
    destruct (docs w !! id) as [d|] eqn:Hd; [|done].
    destruct (Hw id d Hd) as (t0 & Hdata & Hid & Hlen & _ & Hok).
    rewrite Hdata in Hr. cbn in Hr. by injection Hr as <-.
  - intros id [req|] t Hr; cycle 1.
    { unfold UpdateTicket, serve in Hr. by destruct (String.eqb id ""). }
    assert (Hc : StatusCode (UpdateTicket id (Some req) w).1 = StatusOK)
      by (by rewrite Hr).
    destruct (UpdateTicket_ok_inv _ _ _ Hc) as (Hid & Hff & Hne & d & Hd).
    rewrite (UpdateTicket_written _ _ _ d) in Hr by done.
    cbv zeta in Hr. cbn [fst] in Hr.
    destruct (stored_ok_updated id req (today_UTC w) (staged_world req w) d
                Hff (Hw id d Hd)) as (t0 & Hdata & Htid & Hlen & _ & Hok).
    rewrite Hdata in Hr. by injection Hr as <-.
Qed.

Lemma store_ok_answers_witness :
  ∃ t, (GetTicket "ABC123" golib.world1).1 = mkResponse StatusOK (TicketJSON t)
       ∧ ConfirmationID t = "ABC123" ∧ ticket_ok t.
Proof.
  destruct (GetTicket "ABC123" golib.world1).1 as [code [e|t|s]] eqn:Hr;
    try (vm_compute in Hr; discriminate Hr).
  assert (Hcode : code = StatusOK).
  { apply (f_equal StatusCode) in Hr. vm_compute in Hr. by subst. }
  subst code. exists t. split; [reflexivity|].
  destruct (proj1 (store_ok_answers _ world1_store_ok) _ _ Hr)
    as (Hid & _ & Hok).
  split; [exact Hid|exact Hok].
Defined.

(** X16: no request removes a document: every key of the collection is
    still a key after any sequence of requests, and a sequence without a
    POST leaves the set of keys as it is. *)
Theorem documents_are_never_removed
    `{!UnicodeCase, !time.Layouts, !strconv.Numbers}
    (rqs : list Request) (w : World) :
  dom (docs w) ⊆ dom (docs (run rqs w))
  ∧ ((∀ rq body Set_err, rq ∈ rqs → rq ≠ POST_ticket body Set_err) →
     dom (docs (run rqs w)) = dom (docs w)).
Proof.
  revert w. induction rqs as [|rq rqs IH]; intros w; [done|].
  cbn [run fold_left]. fold (run rqs (dispatch rq w)).
  destruct (IH (dispatch rq w)) as [Hsub Heq].
  destruct (dispatch_dom rq w) as [Hsub1 Heq1].
  split; [by etrans|].
  intros Hno. rewrite Heq, Heq1; [done|..].
  - intros body Set_err. apply Hno. by left.
  - intros rq' body Set_err Hin. apply Hno. by right.
Qed.
(** ** Listing *)

Lemma lex_leb_refl a : lex_leb a a = true.
Proof.
  induction a as [|x a IH]; [done|]. cbn [lex_leb].
  by rewrite Z.eqb_refl, IH, orb_true_r.
Qed.

Lemma lex_leb_cons x a y b :
  lex_leb (x :: a) (y :: b) = true ↔ x < y ∨ (x = y ∧ lex_leb a b = true).
Proof.
  cbn [lex_leb]. rewrite orb_true_iff, andb_true_iff, Z.ltb_lt, Z.eqb_eq.
  done.
Qed.

Lemma lex_leb_total a b : lex_leb a b = true ∨ lex_leb b a = true.
Proof.
  revert b. induction a as [|x a IH]; intros [|y b]; [by left..|by right|].
  rewrite !lex_leb_cons.
  destruct (Z.lt_trichotomy x y) as [Hlt|[->|Hgt]]; [by left; left| |by right; left].
  destruct (IH b); [left|right]; by right.
Qed.

Lemma lex_leb_trans a b c :
  lex_leb a b = true → lex_leb b c = true → lex_leb a c = true.
Proof.
  revert b c. induction a as [|x a IH]; intros [|y b] [|z c]; try done.
  rewrite !lex_leb_cons. intros [Hxy|[-> Hab]] [Hyz|[-> Hbc]].
  - left. lia.
  - by left.
  - by left.
  - right. split; [done|]. by apply (IH b).
Qed.

Lemma lex_leb_antisym a b :
  lex_leb a b = true → lex_leb b a = true → a = b.
Proof.
  revert b. induction a as [|x a IH]; intros [|y b]; try done.
  rewrite !lex_leb_cons. intros [Hxy|[-> Hab]] [Hyx|[Heq Hba]]; try lia.
  f_equal. by apply IH.
Qed.

Lemma listed_before_total x y : listed_before x y ∨ listed_before y x.
Proof.
  unfold listed_before, precedes.
  destruct (decide (created_at_key x = created_at_key y)) as [Heq|Hne].
  - rewrite decide_True by done. destruct (lex_leb_total (string_key y.1) (string_key x.1)); auto.
  - rewrite (decide_False (P := created_at_key y = created_at_key x)) by done.
    destruct (lex_leb_total (created_at_key y) (created_at_key x)); auto.
Qed.

Lemma listed_before_trans x y z :
  listed_before x y → listed_before y z → listed_before x z.
Proof.
  unfold listed_before, precedes.
  destruct (decide (created_at_key x = created_at_key y)) as [Hxy|Hxy],
    (decide (created_at_key y = created_at_key z)) as [Hyz|Hyz].
  - rewrite decide_True by congruence. intros H1 H2.
    by apply (lex_leb_trans _ (string_key y.1)).
  - rewrite decide_False by congruence. rewrite Hxy. by intros _.
  - rewrite decide_False by congruence. rewrite <- Hyz. by intros ? _.
  - intros H1 H2.
    pose proof (lex_leb_trans _ _ _ H2 H1) as H3.
    destruct (decide (created_at_key x = created_at_key z)) as [Hxz|]; [|done].
    exfalso. apply Hxy. apply lex_leb_antisym; [|done]. by rewrite Hxz.
Qed.

Lemma OrderBy_sorted ds :
  StronglySorted listed_before (OrderBy_created_at_desc ds).
Proof.
  apply (@StronglySorted_merge_sort _ listed_before _).
  - intros x y z. apply listed_before_trans.
  - intros x y. apply listed_before_total.
Qed.

Lemma OrderBy_elem ds k d :
  (k, d) ∈ OrderBy_created_at_desc ds ↔
    ds !! k = Some d ∧ is_Some (d !! "created_at").
Proof.
  unfold OrderBy_created_at_desc. rewrite merge_sort_Permutation.
  rewrite list_elem_of_filter, elem_of_map_to_list. cbn [snd]. tauto.
Qed.

Lemma OrderBy_length ds :
  (length (OrderBy_created_at_desc ds) ≤ size ds)%nat.
Proof.
  unfold OrderBy_created_at_desc. rewrite merge_sort_Permutation.
  rewrite <- (length_map_to_list ds). apply length_filter.
Qed.

Lemma decode_all_length l : (length (decode_all l) ≤ length l)%nat.
Proof.
  induction l as [|x l IH]; [done|]. unfold decode_all in *.
  cbn [omap list_omap]. destruct (DataTo x.2); cbn [length]; lia.
Qed.

Lemma decode_all_elem l t :
  t ∈ decode_all l ↔ ∃ doc, doc ∈ l ∧ DataTo doc.2 = Some t.
Proof. unfold decode_all. apply list_elem_of_omap. Qed.

Lemma decode_all_prefix l1 l2 :
  l1 `prefix_of` l2 → decode_all l1 `prefix_of` decode_all l2.
Proof.
  intros [k ->]. exists (decode_all k). unfold decode_all.
  induction l1 as [|x l1 IH]; [done|].
  cbn [app omap list_omap]. destruct (DataTo x.2); [|done].
  by rewrite IH.
Qed.

(** The key of a document that decodes and has the field. *)
Lemma created_at_key_decoded (doc : string * gmap string Value) t :
  is_Some (doc.2 !! "created_at") → DataTo doc.2 = Some t →
  created_at_key doc = 1 :: time_key (CreatedAt t).
Proof.
  intros [v Hv] (_ & _ & _ & _ & _ & _ & _ & Hca & _)%DataTo_fields.
  unfold created_at_key. unfold time_field in Hca. rewrite Hv in Hca |- *.
  destruct v; try done. by injection Hca as ->.
Qed.

Lemma listed_before_created (x y : string * gmap string Value) a b :
  is_Some (x.2 !! "created_at") → is_Some (y.2 !! "created_at") →
  DataTo x.2 = Some a → DataTo y.2 = Some b →
  listed_before x y →
  time_leb (CreatedAt b) (CreatedAt a) = true.
Proof.
  intros Hx Hy Ha Hb. unfold listed_before, precedes, time_leb.
  rewrite (created_at_key_decoded x a), (created_at_key_decoded y b) by done.
  destruct (decide _) as [Heq|_].
  { intros _. replace (time_key (CreatedAt b)) with (time_key (CreatedAt a))
      by congruence. apply lex_leb_refl. }
  rewrite lex_leb_cons. by intros [?|[_ ?]]; [lia|].
Qed.

Lemma decode_all_sorted l :
  Forall (λ doc : string * gmap string Value,
            is_Some (doc.2 !! "created_at")) l →
  StronglySorted listed_before l →
  StronglySorted (λ a b, time_leb (CreatedAt b) (CreatedAt a) = true)
                 (decode_all l).
Proof.
  intros Hall Hs. induction Hs as [|x l Hs IH Hx]; [constructor|].
  apply Forall_cons in Hall as [Hcx Hall].
  unfold decode_all in *. cbn [omap list_omap].
  destruct (DataTo x.2) as [a|] eqn:Ha; [|by apply IH].
  constructor; [by apply IH|].
  apply Forall_forall. intros b (y & Hy & Hb)%list_elem_of_omap.
  rewrite Forall_forall in Hx, Hall.
  apply (listed_before_created x y); auto.
Qed.

Lemma service_list limit w :
  let query := OrderBy_created_at_desc (docs w) in
  services.ListTickets limit None w =
    (inr (decode_all (if 0 <? limit then take (Z.to_nat limit) query
                      else query)), w).
Proof. reflexivity. Qed.

Lemma service_list_facts limit w :
  ∃ tickets,
    services.ListTickets limit None w = (inr tickets, w)
    ∧ StronglySorted (λ a b, time_leb (CreatedAt b) (CreatedAt a) = true)
                     tickets
    ∧ (0 < limit → Z.of_nat (length tickets) ≤ limit)
    ∧ (∀ t, t ∈ tickets →
            ∃ k d, docs w !! k = Some d ∧ is_Some (d !! "created_at")
                   ∧ DataTo d = Some t)
    ∧ (limit ≤ 0 ∨ Z.of_nat (size (docs w)) ≤ limit →
       ∀ k d t, docs w !! k = Some d → is_Some (d !! "created_at") →
                DataTo d = Some t → t ∈ tickets)
    ∧ (∀ every, (services.ListTickets 0 None w).1 = inr every →
                tickets `prefix_of` every).
Proof.
  rewrite service_list. cbv zeta.
  set (query := OrderBy_created_at_desc (docs w)).
  set (cut := if 0 <? limit then take (Z.to_nat limit) query else query).
  assert (Hpre : cut `prefix_of` query).
  { subst cut. destruct (0 <? limit); [apply prefix_take|done]. }
  assert (Hin : ∀ doc, doc ∈ cut →
                       docs w !! doc.1 = Some doc.2
                       ∧ is_Some (doc.2 !! "created_at")).
  { intros [k d] Hdoc. apply OrderBy_elem. fold query.
    destruct Hpre as [rest Hq]. rewrite Hq. apply elem_of_app. by left. }
  exists (decode_all cut). split; [done|]. split; [|split; [|split; [|split]]].
  - apply decode_all_sorted.
    + apply Forall_forall. intros doc Hdoc. by apply Hin.
    + destruct Hpre as [rest Hq]. pose proof (OrderBy_sorted (docs w)) as Hs.
      fold query in Hs. rewrite Hq in Hs.
      by apply StronglySorted_app_1_l in Hs.
  - intros Hpos. pose proof (decode_all_length cut) as Hlen.
    subst cut. apply Z.ltb_lt in Hpos as Hb. rewrite Hb in Hlen |- *.
    rewrite length_take in Hlen. lia.
  - intros t (doc & Hdoc & Ht)%decode_all_elem.
    exists doc.1, doc.2. split; [|split; [|done]]; by apply Hin.
  - intros Hall k d t Hd Hca Ht. apply decode_all_elem.
    exists (k, d). split; [|done].
    assert (Hq : (k, d) ∈ query) by (by apply OrderBy_elem).
    subst cut. destruct (0 <? limit) eqn:Hb; [|done].
    apply Z.ltb_lt in Hb. rewrite take_ge; [done|].
    pose proof (OrderBy_length (docs w)) as Hlen. fold query in Hlen. lia.
  - intros every. rewrite service_list. cbv zeta. cbn [fst].
    change (0 <? 0) with false. cbv iota. intros [= <-].
    by apply decode_all_prefix.
Qed.

(** X17: [services.ListTickets] leaves the world alone.  When the client
    returns an error for the query, the service returns that error,
    wrapped.  When the query goes through, the service returns the
    tickets newest first, no ticket created later than one before it in
    the list, and with a positive limit at most that many.  Every ticket
    returned is the decoding of a stored document that has the field
    [created_at]; every such document that decodes is returned when the
    limit is not positive or not below the number of documents; and the
    list for a limit is a prefix of the list without one. *)
Theorem list_newest_first (limit : Z) (GetAll_err : option error)
    (w : World) :
  (services.ListTickets limit GetAll_err w).2 = w
  ∧ match GetAll_err with
    | Some err =>
        (services.ListTickets limit GetAll_err w).1
        = inl (Errorf "failed to list tickets: " err)
    | None =>
        ∃ tickets,
          (services.ListTickets limit GetAll_err w).1 = inr tickets
          ∧ StronglySorted
              (λ a b, time_leb (CreatedAt b) (CreatedAt a) = true) tickets
          ∧ (0 < limit → Z.of_nat (length tickets) ≤ limit)
          ∧ (∀ t, t ∈ tickets →
                  ∃ k d, docs w !! k = Some d ∧ is_Some (d !! "created_at")
                         ∧ DataTo d = Some t)
          ∧ (limit ≤ 0 ∨ Z.of_nat (size (docs w)) ≤ limit →
             ∀ k d t, docs w !! k = Some d → is_Some (d !! "created_at") →
                      DataTo d = Some t → t ∈ tickets)
          ∧ (∀ every, (services.ListTickets 0 None w).1 = inr every →
                      tickets `prefix_of` every)
    end.
Proof.
  destruct GetAll_err as [err|]; [done|].
  destruct (service_list_facts limit w) as (tickets & Heq & Hrest).
  rewrite Heq. split; [done|]. by exists tickets.
Qed.

Section limit.
Context `{!strconv.Numbers}.

Lemma parse_limit_cases limitStr :
  parse_limit limitStr =
    if String.eqb limitStr "" then 50
    else match strconv.Atoi limitStr with
         | Some n => if 0 <? n then n else 50
         | None => 50
         end.
Proof. unfold parse_limit, nonempty. by destruct (String.eqb limitStr ""). Qed.

Lemma parse_limit_positive limitStr : 1 ≤ parse_limit limitStr.
Proof.
  rewrite parse_limit_cases. destruct (String.eqb limitStr ""); [lia|].
  destruct (strconv.Atoi limitStr) as [n|]; [|lia].
  destruct (0 <? n) eqn:Hn; [|lia]. apply Z.ltb_lt in Hn. lia.
Qed.

End limit.

(** X18: the limit of GET /tickets is the query parameter when it parses
    as a positive integer and 50 otherwise: when it is absent, does not
    parse, or is zero or negative.  The handler leaves the world alone.
    When the client returns an error for the query it answers 500 "Failed
    to retrieve tickets"; when the query goes through it answers 200 with
    the service's list for that limit, at most that many tickets, and a
    count that is the length of the list. *)
Theorem list_handler_limit `{!strconv.Numbers} (limitStr : string)
    (GetAll_err : option error) (w : World) :
  let limit := parse_limit limitStr in
  let r := ListTickets limitStr GetAll_err w in
  1 ≤ limit
  ∧ (limitStr = "" → limit = 50)
  ∧ (strconv.Atoi limitStr = None → limit = 50)
  ∧ (∀ n, limitStr ≠ "" → strconv.Atoi limitStr = Some n →
          limit = if 0 <? n then n else 50)
  ∧ r.2 = w
  ∧ match GetAll_err with
    | Some _ =>
        r.1 = mkListResponse StatusInternalServerError
                (ListErrorJSON (mkErrorResponse "Failed to retrieve tickets" ""))
    | None =>
        ∃ tickets,
          r.1 = mkListResponse StatusOK
                  (ListJSON (mkTicketListResponse tickets
                               (Z.of_nat (length tickets))))
          ∧ (services.ListTickets limit None w).1 = inr tickets
          ∧ Z.of_nat (length tickets) ≤ limit
    end.
Proof.
  cbv zeta. pose proof (parse_limit_positive limitStr) as Hpos.
  split; [done|]. split; [|split; [|split; [|split]]].
  - intros ->. by rewrite parse_limit_cases.
  - intros Hn. rewrite parse_limit_cases, Hn.
    by destruct (String.eqb limitStr "").
  - intros n Hs%String.eqb_neq Hn. by rewrite parse_limit_cases, Hs, Hn.
  - unfold ListTickets, services.ListTickets. by destruct GetAll_err.
  - destruct GetAll_err as [err|]; [done|].
    destruct (service_list_facts (parse_limit limitStr) w)
      as (tickets & Hl & _ & Hlen & _).
    exists tickets. unfold ListTickets. cbv zeta. rewrite Hl.
    split; [done|]. split; [done|]. apply Hlen. lia.
Qed.

(** X19: a ticket just created is in the listing of the collection, for
    any limit that is not below the number of documents: when the query
    goes through, the list has a ticket with the id, codes, flight
    number, passenger count, status, departure date and time of the one
    created. *)
Theorem create_then_list `{!UnicodeCase, !time.Layouts}
    (req : CreateTicketRequest) (Set_err GetAll_err : option error)
    (w : World) (t : FlightTicket) (limit : Z)
    (tickets : list FlightTicket) :
  (CreateTicket (Some req) Set_err w).1
    = mkResponse StatusCreated (TicketJSON t) →
  let w' := (CreateTicket (Some req) Set_err w).2 in
  limit ≤ 0 ∨ Z.of_nat (size (docs w')) ≤ limit →
  (services.ListTickets limit GetAll_err w').1 = inr tickets →
  ∃ t', t' ∈ tickets
        ∧ ConfirmationID t' = ConfirmationID t
        ∧ Origin t' = Origin t
        ∧ Destination t' = Destination t
        ∧ FlightNumber t' = FlightNumber t
        ∧ Passengers t' = Passengers t
        ∧ Status t' = Status t
        ∧ DepartureDate t' = DepartureDate t
        ∧ DepartureTime t' = DepartureTime t.
Proof.
  intros Hr w' Hlimit Hl.
  destruct GetAll_err as [err|]; [done|].
  assert (Hc : StatusCode (CreateTicket (Some req) Set_err w).1
               = StatusCreated) by (by rewrite Hr).
  destruct (created_inv req Set_err w Hc)
    as (_ & _ & dd & tt & t0 & _ & _ & _ & Heq).
  rewrite Heq in Hr. injection Hr as ->.
  destruct (service_list_facts limit w')
    as (tickets' & Hl' & _ & _ & _ & Hall & _).
  rewrite Hl' in Hl. injection Hl as <-.
  exists t. split; [|done].
  apply (Hall Hlimit (ConfirmationID t) (to_doc t)).
  - subst w'. rewrite Heq. cbn [snd docs]. by rewrite lookup_insert_eq.
  - by exists (VTime (CreatedAt t)).
  - apply DataTo_to_doc.
Qed.

Lemma create_then_list_witness :
  ∃ t tickets,
    (CreateTicket
       (Some (mkCreateTicketRequest "JFK" "LAX" "2024-12-25" "14:30" "ua77" 2))
       None golib.world0).1 = mkResponse StatusCreated (TicketJSON t)
    ∧ (services.ListTickets 0 None
         (CreateTicket
            (Some (mkCreateTicketRequest "JFK" "LAX" "2024-12-25" "14:30"
                     "ua77" 2)) None golib.world0).2).1 = inr tickets
    ∧ ∃ t', t' ∈ tickets ∧ ConfirmationID t' = ConfirmationID t.
Proof.
  destruct (CreateTicket
              (Some (mkCreateTicketRequest "JFK" "LAX" "2024-12-25" "14:30"
                       "ua77" 2)) None golib.world0).1
    as [code [e|t|s]] eqn:Hr;
    try (vm_compute in Hr; discriminate Hr).
  assert (Hcode : code = StatusCreated).
  { apply (f_equal StatusCode) in Hr. vm_compute in Hr. by subst. }
  subst code. exists t. eexists. split; [reflexivity|].
  split; [reflexivity|].
  destruct (create_then_list _ None None _ _ 0 _ Hr (or_introl (Z.le_refl 0))
              eq_refl) as (t' & Hin & Hid & _).
  exists t'. split; [exact Hin|exact Hid].
Defined.
